(** * CSV validation handlers: a shallow embedding of [lambda_function.py]
    (python-magic backend) and [lambda_function_puremagic.py] (puremagic
    backend), and the properties of their classification logic.

    The embedding starts where both handlers have decoded the request:
    [file_content] is the byte buffer and [filename] the name hint.  The two
    detection libraries are not part of the repository; what they report for
    one request is an input of the model. *)

From Stdlib Require Import Strings.String Strings.Ascii Strings.Byte.
From Stdlib Require Import ZArith List Bool Lia.
From Stdlib Require Import Floats.SpecFloat.
Import ListNotations.
Local Open Scope Z_scope.

(** ** Python values *)

(** A Python [str] is a sequence of Unicode code points, a [bytes] object a
    sequence of bytes. *)
Definition pystr := list Z.
Definition pybytes := list byte.

(** ASCII literals of the source, as [str] and as [bytes]. *)
Definition str (s : string) : pystr :=
  map (fun b => Z.of_N (Byte.to_N b)) (list_byte_of_string s).

Definition bytes_of (s : string) : pybytes := list_byte_of_string s.

Definition LF : string := String (ascii_of_nat 10) EmptyString.

(** Exceptions the handlers deal with, and results of operations that may
    raise. *)
Inductive exn := UnicodeDecodeError | PureError | ValueError | MagicException.

Inductive result (A : Type) :=
| Ok (a : A)
| Raise (e : exn).
Arguments Ok {A} a.
Arguments Raise {A} e.

Definition bind {A B} (c : result A) (k : A -> result B) : result B :=
  match c with
  | Ok a => k a
  | Raise e => Raise e
  end.

Notation "x <- c ;; k" := (bind c (fun x => k))
  (at level 61, c at next level, right associativity).

(** [try: body / except UnicodeDecodeError: handler]. *)
Definition try_except_decode {A} (body : result A) (handler : result A) : result A :=
  match body with
  | Raise UnicodeDecodeError => handler
  | r => r
  end.

(** [try: v = call / except Exception: v = None]. *)
Definition or_none {A} (call : result A) : option A :=
  match call with
  | Ok a => Some a
  | Raise _ => None
  end.

(** ** [str] methods used by the handlers *)

Fixpoint str_eqb (a b : pystr) : bool :=
  match a, b with
  | [], [] => true
  | x :: a', y :: b' => (x =? y) && str_eqb a' b'
  | _, _ => false
  end.

Fixpoint startswith (s prefix : pystr) : bool :=
  match prefix, s with
  | [], _ => true
  | p :: prefix', c :: s' => (c =? p) && startswith s' prefix'
  | _ :: _, [] => false
  end.

Definition endswith (s suffix : pystr) : bool :=
  startswith (rev s) (rev suffix).

(** [needle in s]. *)
Fixpoint contains (s needle : pystr) : bool :=
  startswith s needle ||
  match s with
  | [] => false
  | _ :: s' => contains s' needle
  end.

(** [s.count(',')]. *)
Definition comma : Z := 44.

Definition count_commas (s : pystr) : Z :=
  Z.of_nat (length (filter (fun c => c =? comma) s)).

(** [str.isspace] of one code point: the code points CPython lists as
    whitespace. *)
Definition isspace (c : Z) : bool :=
  ((9 <=? c) && (c <=? 13)) || ((28 <=? c) && (c <=? 32)) ||
  (c =? 133) || (c =? 160) || (c =? 5760) ||
  ((8192 <=? c) && (c <=? 8202)) || (c =? 8232) || (c =? 8233) ||
  (c =? 8239) || (c =? 8287) || (c =? 12288).

Fixpoint lstrip (s : pystr) : pystr :=
  match s with
  | c :: s' => if isspace c then lstrip s' else s
  | [] => []
  end.

Definition rstrip (s : pystr) : pystr := rev (lstrip (rev s)).

Definition strip (s : pystr) : pystr := rstrip (lstrip s).

(** [s.split('\n')]: never empty, [''.split('\n') = ['']]. *)
Fixpoint split_lf (s : pystr) : list pystr :=
  match s with
  | [] => [[]]
  | c :: s' =>
      if c =? 10 then [] :: split_lf s'
      else match split_lf s' with
           | l :: ls => (c :: l) :: ls
           | [] => [[c]]
           end
  end.

(** [s[:n]]. *)
Definition slice_to (n : nat) (s : pystr) : pystr := firstn n s.

Section Lower.

(** [str.lower] maps an ASCII code point to its ASCII lower case.  For the
    other code points it follows the Unicode case tables, which are not part
    of the repository: [unicode_lower s i] stands for the lower-case expansion
    of the [i]-th code point of [s] (the tables may expand one code point into
    several, and one entry depends on the neighbours). *)
Variable unicode_lower : pystr -> nat -> pystr.

Definition ascii_lower (c : Z) : Z :=
  if (65 <=? c) && (c <=? 90) then c + 32 else c.

Fixpoint lower_from (s : pystr) (i : nat) (rest : pystr) : pystr :=
  match rest with
  | [] => []
  | c :: rest' =>
      (if (0 <=? c) && (c <? 128) then [ascii_lower c] else unicode_lower s i)
        ++ lower_from s (S i) rest'
  end.

Definition lower (s : pystr) : pystr := lower_from s 0 s.

End Lower.

(** ** [bytes.decode('utf-8')] *)

Definition is_cont (b : Z) : bool := (128 <=? b) && (b <=? 191).

(** Strict UTF-8: shortest forms only, no surrogates, nothing above
    U+10FFFF. *)
Fixpoint utf8_points (bs : list Z) : option pystr :=
  match bs with
  | [] => Some []
  | b0 :: t0 =>
      if b0 <? 128 then option_map (cons b0) (utf8_points t0)
      else if (194 <=? b0) && (b0 <=? 223) then
        match t0 with
        | b1 :: t1 =>
            if is_cont b1
            then option_map (cons ((b0 - 192) * 64 + (b1 - 128))) (utf8_points t1)
            else None
        | _ => None
        end
      else if (224 <=? b0) && (b0 <=? 239) then
        match t0 with
        | b1 :: b2 :: t2 =>
            if ((if b0 =? 224 then 160 else 128) <=? b1)
               && (b1 <=? (if b0 =? 237 then 159 else 191))
               && is_cont b2
            then option_map
                   (cons ((b0 - 224) * 4096 + (b1 - 128) * 64 + (b2 - 128)))
                   (utf8_points t2)
            else None
        | _ => None
        end
      else if (240 <=? b0) && (b0 <=? 244) then
        match t0 with
        | b1 :: b2 :: b3 :: t3 =>
            if ((if b0 =? 240 then 144 else 128) <=? b1)
               && (b1 <=? (if b0 =? 244 then 143 else 191))
               && is_cont b2 && is_cont b3
            then option_map
                   (cons ((b0 - 240) * 262144 + (b1 - 128) * 4096
                          + (b2 - 128) * 64 + (b3 - 128)))
                   (utf8_points t3)
            else None
        | _ => None
        end
      else None
  end.

Definition decode_utf8 (b : pybytes) : result pystr :=
  match utf8_points (map (fun x => Z.of_N (Byte.to_N x)) b) with
  | Some s => Ok s
  | None => Raise UnicodeDecodeError
  end.

(** ** Python numbers in the threshold tests *)

(** A Python [float] is an IEEE 754 binary64 number. *)
Definition prec : Z := 53.
Definition emax : Z := 1024.

(** [float(n)], what [n * 0.8] first does to its [int] operand. *)
Definition float_of_int (n : Z) : spec_float := binary_normalize prec emax n 0 false.

Definition float_mul : spec_float -> spec_float -> spec_float := SFmul prec emax.

(** The literals [0.8] and [0.7]: the doubles nearest to 8/10 and 7/10. *)
Definition lit_0_8 : spec_float :=
  Eval vm_compute in SFdiv prec emax (float_of_int 8) (float_of_int 10).

Definition lit_0_7 : spec_float :=
  Eval vm_compute in SFdiv prec emax (float_of_int 7) (float_of_int 10).

(** [k >= f] for an [int] [k] and a [float] [f]: CPython compares the two
    values exactly, without rounding [k]. *)
Definition int_ge_float (k : Z) (f : spec_float) : bool :=
  match f with
  | S754_zero _ => 0 <=? k
  | S754_infinity s => s
  | S754_nan => false
  | S754_finite s m e =>
      let v := if s then Zneg m else Zpos m in
      if 0 <=? e then v * 2 ^ e <=? k else v <=? k * 2 ^ (- e)
  end.

(** ** The line and comma statistics (the same code in both handlers) *)

(** Truth value of a [str]. *)
Definition nonempty (s : pystr) : bool :=
  match s with
  | [] => false
  | _ :: _ => true
  end.

Definition len {A} (l : list A) : Z := Z.of_nat (length l).

(** [lines = content_str.strip().split('\n')] *)
Definition lines_of (content_str : pystr) : list pystr :=
  split_lf (strip content_str).

(** [[line.strip() for line in lines if line.strip()]] *)
Definition non_empty_lines_of (lines : list pystr) : list pystr :=
  map strip (filter (fun line => nonempty (strip line)) lines).

(** [[line.count(',') for line in non_empty_lines]] *)
Definition comma_counts_of (non_empty_lines : list pystr) : list Z :=
  map count_commas non_empty_lines.

(** [sum(1 for count in comma_counts if count > 0)] *)
Definition comma_lines_of (comma_counts : list Z) : Z :=
  len (filter (fun count => 0 <? count) comma_counts).

(** [comma_counts[0]]; the index exists where the handlers use it. *)
Definition header_commas_of (comma_counts : list Z) : Z :=
  nth 0 comma_counts 0.

(** [sum(1 for count in comma_counts if count == header_commas)] *)
Definition consistent_comma_lines_of (comma_counts : list Z) : Z :=
  len (filter (fun count => count =? header_commas_of comma_counts) comma_counts).

Definition csv_keywords : list pystr :=
  [str "name,"; str "id,"; str "date,"; str ",value"; str ",count"; str ",amount"].

Definition csv_mimetypes : list pystr :=
  [str "text/csv"; str "application/csv"; str "text/comma-separated-values"].

(** [f'File is {"a valid CSV" if is_csv else "not a valid CSV"}'] *)
Definition message_of (is_csv : bool) : pystr :=
  str "File is " ++ (if is_csv then str "a valid CSV" else str "not a valid CSV").

Section Hints.

Variable unicode_lower : pystr -> nat -> pystr.

(** [filename.lower().endswith('.csv')] *)
Definition filename_hint (filename : pystr) : bool :=
  endswith (lower unicode_lower filename) (str ".csv").

(** [any(keyword in content_str.lower()[:200] for keyword in [...])] *)
Definition keyword_hint (content_str : pystr) : bool :=
  existsb (fun keyword => contains (slice_to 200 (lower unicode_lower content_str)) keyword)
          csv_keywords.

End Hints.

(** ** [lambda_function.py]: the python-magic handler *)

Module lambda_function.

(** What the alternative detection of lines 152-165 obtains from libmagic
    for the first 1024 bytes of the file. *)
Record buffer_probe := {
  encoding : pystr;
  buffer_mime : pystr;
  buffer_desc : pystr
}.

(** The reports of libmagic for one request. *)
Record magic_runs := {
  from_file_mime : pystr;            (* [mime.from_file(temp_file_path)] *)
  from_file_kind : result pystr;     (* [magic.Magic(mime=False).from_file(...)] *)
  alternative : result buffer_probe  (* body of the [try] of lines 152-165 *)
}.

(** Body of the 200 response. *)
Record body := {
  success : bool;
  message : pystr;
  mimetype : pystr;
  filename : pystr
}.

Section Handler.

Variable unicode_lower : pystr -> nat -> pystr.

(** Lines 151-173: returns [(csv_detected_by_magic, detected_mimetype)]. *)
Definition alternative_detection (m : magic_runs) (detected_mimetype : pystr)
  : bool * pystr :=
  match alternative m with
  | Ok p =>
      if contains (lower unicode_lower (buffer_mime p)) (str "csv")
         || contains (lower unicode_lower (buffer_desc p)) (str "csv")
      then (true, str "text/csv")
      else (false, detected_mimetype)
  | Raise _ => (false, detected_mimetype)
  end.

(** Lines 185-208. *)
Definition csv_criteria_met (csv_detected_by_magic : bool)
  (filename content_str : pystr) (non_empty_lines : list pystr) : bool :=
  let comma_counts := comma_counts_of non_empty_lines in
  let comma_lines := comma_lines_of comma_counts in
  let total_lines := len non_empty_lines in
  let header_commas := header_commas_of comma_counts in
  let consistent_comma_lines := consistent_comma_lines_of comma_counts in
  int_ge_float comma_lines (float_mul (float_of_int total_lines) lit_0_8)
  && (1 <=? header_commas)
  && int_ge_float consistent_comma_lines (float_mul (float_of_int total_lines) lit_0_7)
  && (filename_hint unicode_lower filename
      || csv_detected_by_magic
      || keyword_hint unicode_lower content_str).

(** Lines 178-210 after the decoding: whether [if csv_criteria_met:] is
    reached and taken. *)
Definition content_analysis (csv_detected_by_magic : bool)
  (filename content_str : pystr) : bool :=
  let lines := lines_of content_str in
  if 2 <=? len lines then
    let non_empty_lines := non_empty_lines_of lines in
    if 2 <=? len non_empty_lines then
      csv_criteria_met csv_detected_by_magic filename content_str non_empty_lines
    else false
  else false.

(** Lines 176-216: the [try] around the content analysis, on the variable
    [is_csv]. *)
Definition content_validation (is_csv csv_detected_by_magic : bool)
  (file_content : pybytes) (filename : pystr) : result bool :=
  try_except_decode
    (content_str <- decode_utf8 file_content ;;
     Ok (if content_analysis csv_detected_by_magic filename content_str
         then true else is_csv))
    (Ok false).

(** Lines 149-216: the block guarded by the test on [detected_mimetype], on
    the variables [(is_csv, detected_mimetype)]. *)
Definition text_branch (m : magic_runs) (st : bool * pystr)
  (file_content : pybytes) (filename : pystr) : result (bool * pystr) :=
  let '(is_csv, detected_mimetype) := st in
  if str_eqb detected_mimetype (str "text/plain")
     || startswith detected_mimetype (str "text/")
  then
    let '(csv_detected_by_magic, detected_mimetype) :=
      alternative_detection m detected_mimetype in
    is_csv <- content_validation is_csv csv_detected_by_magic file_content filename ;;
    Ok (is_csv, detected_mimetype)
  else Ok (is_csv, detected_mimetype).

(** Lines 126-226. *)
Definition lambda_handler (m : magic_runs) (file_content : pybytes)
  (filename : pystr) : result body :=
  let detected_mimetype := from_file_mime m in
  let kind_descr := or_none (from_file_kind m) in
  let is_csv := existsb (str_eqb detected_mimetype) csv_mimetypes in
  st <- text_branch m (is_csv, detected_mimetype) file_content filename ;;
  Ok {| success := fst st;
        message := message_of (fst st);
        mimetype := snd st;
        filename := filename |}.

End Handler.

End lambda_function.

(** ** [lambda_function_puremagic.py]: the puremagic handler *)

Module lambda_function_puremagic.

(** The reports of puremagic for one request. *)
Record puremagic_runs := {
  from_file : result pystr;    (* [puremagic.from_file(temp_file_path)] *)
  from_string : result pystr   (* [puremagic.from_string(file_content)] *)
}.

(** Body of the 200 response; [puremagic_details] holds [file_detection] and
    [buffer_detection]. *)
Record body := {
  success : bool;
  message : pystr;
  mimetype : pystr;
  filename : pystr;
  puremagic_details : option pystr * option pystr
}.

(** Truth value of [detected_type]: neither [None] nor the empty string. *)
Definition detected (detected_type : option pystr) : bool :=
  match detected_type with
  | Some s => nonempty s
  | None => false
  end.

Section Handler.

Variable unicode_lower : pystr -> nat -> pystr.

(** Lines 82-101. *)
Definition mapped_mimetype (detected_type : option pystr) : pystr :=
  let detected_mimetype := str "application/octet-stream" in
  match detected_type with
  | Some (c :: t) =>
      let type_lower := lower unicode_lower (c :: t) in
      if contains type_lower (str "pdf") then str "application/pdf"
      else if contains type_lower (str "jpeg") || contains type_lower (str "jpg")
      then str "image/jpeg"
      else if contains type_lower (str "png") then str "image/png"
      else if contains type_lower (str "text") then str "text/plain"
      else if contains type_lower (str "html") then str "text/html"
      else if contains type_lower (str "xml") then str "application/xml"
      else if contains type_lower (str "json") then str "application/json"
      else detected_mimetype
  | _ => detected_mimetype
  end.

(** Lines 104-112. *)
Definition text_probe (detected_type : option pystr) (file_content : pybytes)
  (detected_mimetype : pystr) : result pystr :=
  if negb (detected detected_type) then
    try_except_decode
      (_ <- decode_utf8 file_content ;; Ok (str "text/plain"))
      (Ok (str "application/octet-stream"))
  else Ok detected_mimetype.

(** Lines 82-112: the MIME type derived from the detection. *)
Definition derived_mimetype (detected_type : option pystr) (file_content : pybytes)
  : result pystr :=
  text_probe detected_type file_content (mapped_mimetype detected_type).

(** Lines 141-163. *)
Definition csv_criteria_met (filename content_str : pystr)
  (non_empty_lines : list pystr) : bool :=
  let comma_counts := comma_counts_of non_empty_lines in
  let comma_lines := comma_lines_of comma_counts in
  let total_lines := len non_empty_lines in
  let header_commas := header_commas_of comma_counts in
  let consistent_comma_lines := consistent_comma_lines_of comma_counts in
  int_ge_float comma_lines (float_mul (float_of_int total_lines) lit_0_8)
  && (1 <=? header_commas)
  && int_ge_float consistent_comma_lines (float_mul (float_of_int total_lines) lit_0_7)
  && (filename_hint unicode_lower filename
      || keyword_hint unicode_lower content_str).

(** Lines 134-165 after the decoding: whether [if csv_criteria_met:] is
    reached and taken. *)
Definition content_analysis (filename content_str : pystr) : bool :=
  let lines := lines_of content_str in
  if 2 <=? len lines then
    let non_empty_lines := non_empty_lines_of lines in
    if 2 <=? len non_empty_lines then
      csv_criteria_met filename content_str non_empty_lines
    else false
  else false.

(** Lines 132-172: the [try] around the content analysis, on the variables
    [(is_csv, detected_mimetype)]. *)
Definition content_validation (st : bool * pystr) (file_content : pybytes)
  (filename : pystr) : result (bool * pystr) :=
  let '(is_csv, detected_mimetype) := st in
  try_except_decode
    (content_str <- decode_utf8 file_content ;;
     Ok (if content_analysis filename content_str
         then (true, str "text/csv") else (is_csv, detected_mimetype)))
    (Ok (false, detected_mimetype)).

(** Lines 130-172. *)
Definition text_branch (st : bool * pystr) (file_content : pybytes)
  (filename : pystr) : result (bool * pystr) :=
  if str_eqb (snd st) (str "text/plain") || startswith (snd st) (str "text/")
  then content_validation st file_content filename
  else Ok st.

(** Lines 62-183. *)
Definition lambda_handler (p : puremagic_runs) (file_content : pybytes)
  (filename : pystr) : result body :=
  let detected_type := or_none (from_file p) in
  let buffer_type := or_none (from_string p) in
  detected_mimetype <- derived_mimetype detected_type file_content ;;
  let puremagic_info := (detected_type, buffer_type) in
  let is_csv := existsb (str_eqb detected_mimetype) csv_mimetypes in
  st <- text_branch (is_csv, detected_mimetype) file_content filename ;;
  Ok {| success := fst st;
        message := message_of (fst st);
        mimetype := snd st;
        filename := filename;
        puremagic_details := puremagic_info |}.

End Handler.

End lambda_function_puremagic.

(** ** Notions used to state the properties *)

(** Whether [file_content.decode('utf-8')] succeeds. *)
Definition decodes (file_content : pybytes) : bool :=
  match decode_utf8 file_content with
  | Ok _ => true
  | Raise _ => false
  end.

(** The test both handlers make before the content analysis:
    [detected_mimetype == 'text/plain' or detected_mimetype.startswith('text/')]. *)
Definition is_text (mimetype : pystr) : bool :=
  str_eqb mimetype (str "text/plain") || startswith mimetype (str "text/").

(** The non-empty lines and comma counts of a decoded text. *)
Definition non_empty_lines (content_str : pystr) : list pystr :=
  non_empty_lines_of (lines_of content_str).

Definition comma_counts (content_str : pystr) : list Z :=
  comma_counts_of (non_empty_lines content_str).

(** python-magic handler: the value of [detected_mimetype] once the detection
    of lines 128-173 is over. *)
Definition magic_mimetype (unicode_lower : pystr -> nat -> pystr)
  (m : lambda_function.magic_runs) : pystr :=
  let detected_mimetype := lambda_function.from_file_mime m in
  if is_text detected_mimetype
  then snd (lambda_function.alternative_detection unicode_lower m detected_mimetype)
  else detected_mimetype.

(** python-magic handler: the value of [csv_detected_by_magic]. *)
Definition magic_hint (unicode_lower : pystr -> nat -> pystr)
  (m : lambda_function.magic_runs) : bool :=
  fst (lambda_function.alternative_detection unicode_lower m
         (lambda_function.from_file_mime m)).

(** Two outcomes of the alternative detection that report the same MIME type
    and description for the buffer. *)
Definition same_buffer_match (a a' : result lambda_function.buffer_probe) : Prop :=
  match a, a' with
  | Ok x, Ok x' =>
      lambda_function.buffer_mime x = lambda_function.buffer_mime x'
      /\ lambda_function.buffer_desc x = lambda_function.buffer_desc x'
  | Raise _, Raise _ => True
  | _, _ => False
  end.

(** [is_csv] and [mimetype] of a puremagic response. *)
Definition puremagic_verdict (r : result lambda_function_puremagic.body)
  : result (bool * pystr) :=
  b <- r ;;
  Ok (lambda_function_puremagic.success b, lambda_function_puremagic.mimetype b).

(** The MIME types the puremagic handler can report. *)
Definition puremagic_mimetypes : list pystr :=
  [str "application/pdf"; str "image/jpeg"; str "image/png"; str "text/plain";
   str "text/html"; str "application/xml"; str "application/json";
   str "text/csv"; str "application/octet-stream"].

(** The keywords of lines 87-100 in the order they are tried, each group with
    the MIME type it selects, and the type of the first group one of whose
    keywords occurs in a lower-cased label. *)
Definition label_keywords : list (list pystr * pystr) :=
  [([str "pdf"], str "application/pdf");
   ([str "jpeg"; str "jpg"], str "image/jpeg");
   ([str "png"], str "image/png");
   ([str "text"], str "text/plain");
   ([str "html"], str "text/html");
   ([str "xml"], str "application/xml");
   ([str "json"], str "application/json")].

Definition keyword_mimetype (type_lower : pystr) : option pystr :=
  option_map snd
    (find (fun entry => existsb (contains type_lower) (fst entry)) label_keywords).

(** ** Sample requests *)

(** A case table for [str.lower] that leaves every non-ASCII code point as it
    is; the samples below are ASCII and never consult it. *)
Definition keep_code_point : pystr -> nat -> pystr :=
  fun s i => match nth_error s i with
             | Some c => [c]
             | None => []
             end.

Definition three_rows_text : string :=
  "name,age,city" ++ LF ++ "John,30,NYC" ++ LF ++ "Jane,25,LA".

Definition three_rows : pybytes := bytes_of three_rows_text.

Definition header_only_text : string := "name,age,city".

Definition header_only : pybytes := bytes_of header_only_text.

Definition plain_table_text : string :=
  "x,y" ++ LF ++ "1,2" ++ LF ++ "3,4" ++ LF ++ "5,6" ++ LF.

Definition plain_table : pybytes := bytes_of plain_table_text.

(** A table in Latin-1: the byte [0xe9] alone is not valid UTF-8. *)
Definition latin1_table : pybytes :=
  bytes_of "caf" ++ [xe9] ++ bytes_of (",b" ++ LF ++ "1,2" ++ LF ++ "3,4" ++ LF).

Definition gif_header : pybytes := bytes_of "GIF89a".

(** A file longer than the 1024 bytes that line 160 samples: three rows of
    341 bytes with two fields each, then a row with three fields.  The sample
    holds the three rows and the first byte of the fourth; libmagic's CSV test
    accepts three rows with the same number of commas and rejects the file on
    the fourth. *)
Definition wide_row (c : Z) : pystr := [c; 44] ++ repeat c 338 ++ [10].

Definition wide_table_text : pystr :=
  wide_row 97 ++ wide_row 98 ++ wide_row 99 ++ str ("p,q,r" ++ LF).

Definition wide_row_bytes (b : byte) : pybytes := [b; x2c] ++ repeat b 338 ++ [x0a].

Definition wide_table : pybytes :=
  wide_row_bytes x61 ++ wide_row_bytes x62 ++ wide_row_bytes x63
  ++ bytes_of ("p,q,r" ++ LF).

(** The same file with a Latin-1 byte in its fourth row, past the sample. *)
Definition wide_table_latin1 : pybytes :=
  wide_row_bytes x61 ++ wide_row_bytes x62 ++ wide_row_bytes x63
  ++ bytes_of "caf" ++ [xe9] ++ bytes_of (",q,r" ++ LF).

(** libmagic without CSV detection: plain text for the file and the buffer. *)
Definition magic_plain : lambda_function.magic_runs :=
  {| lambda_function.from_file_mime := str "text/plain";
     lambda_function.from_file_kind := Ok (str "ASCII text");
     lambda_function.alternative :=
       Ok {| lambda_function.encoding := str "us-ascii";
             lambda_function.buffer_mime := str "text/plain";
             lambda_function.buffer_desc := str "ASCII text" |} |}.

(** libmagic with CSV detection: CSV for the file and the buffer. *)
Definition magic_csv : lambda_function.magic_runs :=
  {| lambda_function.from_file_mime := str "text/csv";
     lambda_function.from_file_kind := Ok (str "CSV text");
     lambda_function.alternative :=
       Ok {| lambda_function.encoding := str "us-ascii";
             lambda_function.buffer_mime := str "text/csv";
             lambda_function.buffer_desc := str "CSV text" |} |}.

(** Plain text for the file, CSV for its first 1024 bytes. *)
Definition magic_plain_buffer_csv : lambda_function.magic_runs :=
  {| lambda_function.from_file_mime := str "text/plain";
     lambda_function.from_file_kind := Ok (str "ASCII text");
     lambda_function.alternative :=
       Ok {| lambda_function.encoding := str "us-ascii";
             lambda_function.buffer_mime := str "text/csv";
             lambda_function.buffer_desc := str "CSV text" |} |}.

(** The same report with the description libmagic gives of long lines. *)
Definition magic_wide_buffer_csv : lambda_function.magic_runs :=
  {| lambda_function.from_file_mime := str "text/plain";
     lambda_function.from_file_kind := Ok (str "ASCII text, with very long lines");
     lambda_function.alternative :=
       Ok {| lambda_function.encoding := str "us-ascii";
             lambda_function.buffer_mime := str "text/csv";
             lambda_function.buffer_desc := str "CSV text" |} |}.

(** The same for a Latin-1 file. *)
Definition magic_latin1_buffer_csv : lambda_function.magic_runs :=
  {| lambda_function.from_file_mime := str "text/plain";
     lambda_function.from_file_kind := Ok (str "ISO-8859 text, with very long lines");
     lambda_function.alternative :=
       Ok {| lambda_function.encoding := str "iso-8859-1";
             lambda_function.buffer_mime := str "text/csv";
             lambda_function.buffer_desc := str "CSV text" |} |}.

(** libmagic on an empty file. *)
Definition magic_empty_file : lambda_function.magic_runs :=
  {| lambda_function.from_file_mime := str "inode/x-empty";
     lambda_function.from_file_kind := Ok (str "empty");
     lambda_function.alternative :=
       Ok {| lambda_function.encoding := str "binary";
             lambda_function.buffer_mime := str "application/x-empty";
             lambda_function.buffer_desc := str "empty" |} |}.

Definition magic_csv_latin1 : lambda_function.magic_runs :=
  {| lambda_function.from_file_mime := str "text/csv";
     lambda_function.from_file_kind := Ok (str "CSV text");
     lambda_function.alternative :=
       Ok {| lambda_function.encoding := str "iso-8859-1";
             lambda_function.buffer_mime := str "text/csv";
             lambda_function.buffer_desc := str "CSV text" |} |}.

(** puremagic finding nothing, and puremagic recognising a GIF or an HTML
    page. *)
Definition puremagic_nothing : lambda_function_puremagic.puremagic_runs :=
  {| lambda_function_puremagic.from_file := Raise PureError;
     lambda_function_puremagic.from_string := Raise PureError |}.

Definition puremagic_empty_input : lambda_function_puremagic.puremagic_runs :=
  {| lambda_function_puremagic.from_file := Raise ValueError;
     lambda_function_puremagic.from_string := Raise ValueError |}.

Definition puremagic_buffer_only : lambda_function_puremagic.puremagic_runs :=
  {| lambda_function_puremagic.from_file := Raise PureError;
     lambda_function_puremagic.from_string := Ok (str ".txt") |}.

Definition puremagic_gif : lambda_function_puremagic.puremagic_runs :=
  {| lambda_function_puremagic.from_file := Ok (str ".gif");
     lambda_function_puremagic.from_string := Ok (str ".gif") |}.

Definition puremagic_html : lambda_function_puremagic.puremagic_runs :=
  {| lambda_function_puremagic.from_file := Ok (str ".html");
     lambda_function_puremagic.from_string := Ok (str ".html") |}.

From Stdlib Require Import Numbers.DecimalString.

(** ** Further notions used to state properties *)

(** [is_csv] and [mimetype] of a python-magic response. *)
Definition magic_verdict (r : result lambda_function.body) : result (bool * pystr) :=
  b <- r ;;
  Ok (lambda_function.success b, lambda_function.mimetype b).

(** A buffer of 7-bit bytes. *)
Definition is_ascii (file_content : pybytes) : bool :=
  forallb (fun b => (Byte.to_N b <? 128)%N) file_content.

(** ** [str.encode('utf-8')], as the test and benchmark scripts call it *)

Definition byte_of (z : Z) : byte :=
  match Byte.of_N (Z.to_N z) with
  | Some b => b
  | None => x00
  end.

(** The UTF-8 bytes of one code point; surrogates and numbers that are not
    code points have none. *)
Definition encode_point (c : Z) : option (list Z) :=
  if c <? 0 then None
  else if c <? 128 then Some [c]
  else if c <? 2048 then Some [192 + c / 64; 128 + c mod 64]
  else if c <? 65536 then
    if (55296 <=? c) && (c <=? 57343) then None
    else Some [224 + c / 4096; 128 + (c / 64) mod 64; 128 + c mod 64]
  else if c <=? 1114111 then
    Some [240 + c / 262144; 128 + (c / 4096) mod 64; 128 + (c / 64) mod 64; 128 + c mod 64]
  else None.

Fixpoint encode_points (s : pystr) : option (list Z) :=
  match s with
  | [] => Some []
  | c :: s' =>
      match encode_point c, encode_points s' with
      | Some bs, Some bs' => Some (bs ++ bs')
      | _, _ => None
      end
  end.

(** A lone surrogate raises UnicodeEncodeError, a ValueError. *)
Definition encode_utf8 (s : pystr) : result pybytes :=
  match encode_points s with
  | Some bs => Ok (map byte_of bs)
  | None => Raise ValueError
  end.

(** ** Text generators of the benchmark scripts *)

(** [sep.join(parts)] *)
Fixpoint join (sep : pystr) (parts : list pystr) : pystr :=
  match parts with
  | [] => []
  | [x] => x
  | x :: rest => x ++ sep ++ join sep rest
  end.

(** [range(n)] *)
Definition range (n : Z) : list Z := map Z.of_nat (seq 0 (Z.to_nat n)).

(** [f"{n}"] for an [int], and [f"{n:02d}"]. *)
Definition decimal (n : Z) : pystr := str (NilZero.string_of_int (Z.to_int n)).

Definition decimal_02 (n : Z) : pystr :=
  if len (decimal n) <? 2 then str "0" ++ decimal n else decimal n.

(** [l[:k]] for a list: a negative [k] counts from the end. *)
Definition list_slice_to {A} (k : Z) (l : list A) : list A :=
  if k <? 0 then firstn (Z.to_nat (len l + k)) l else firstn (Z.to_nat k) l.

Module head_to_head_benchmark.

(** Lines 101-106. *)
Definition csv_data_line (i : Z) : pystr :=
  decimal (i + 1) ++ str ",User" ++ decimal (i + 1) ++ str ",user" ++ decimal (i + 1)
  ++ str "@test.com,Engineering," ++ decimal (50000 + i * 100) ++ str ",2020-"
  ++ decimal_02 (1 + i mod 12) ++ str "-" ++ decimal_02 (1 + i mod 28).

Definition generate_csv_data (rows : Z) : pystr :=
  let lines := [str "id,name,email,department,salary,hire_date"]
               ++ map csv_data_line (range rows) in
  join (str LF) lines.

(** Lines 120-126. *)
Definition generate_html_data (elements : Z) : pystr :=
  let html := [str "<!DOCTYPE html>"; str "<html>";
               str "<head><title>Test</title></head>"; str "<body>"]
              ++ map (fun i => str "<p>This is paragraph " ++ decimal (i + 1)
                               ++ str " with some content.</p>") (range elements)
              ++ [str "</body>"; str "</html>"] in
  join (str LF) html.

(** Lines 128-131. *)
Definition sample_words : list pystr :=
  concat (repeat [str "the"; str "quick"; str "brown"; str "fox"; str "jumps";
                  str "over"; str "lazy"; str "dog"] 10).

Definition generate_text_data (words : Z) : pystr :=
  join (str " ") (list_slice_to words sample_words).

End head_to_head_benchmark.

Module benchmark_comparison.

(** Lines 108-117. *)
Definition csv_content_line (i : Z) : pystr :=
  decimal (i + 1) ++ str ",User" ++ decimal (i + 1) ++ str ",user" ++ decimal (i + 1)
  ++ str "@example.com," ++ decimal (25 + i mod 40) ++ str ",Dept" ++ decimal (i mod 10)
  ++ str "," ++ decimal (50000 + i * 100) ++ str ",2020-"
  ++ decimal_02 (1 + i mod 12) ++ str "-" ++ decimal_02 (1 + i mod 28) ++ str ",Active".

Definition generate_csv_content (rows : Z) : pystr :=
  let header := str "id,name,email,age,department,salary,hire_date,status" in
  let lines := [header] ++ map csv_content_line (range rows) in
  join (str LF) lines.

(** Lines 141-151. *)
Definition sample_words : list pystr :=
  [str "the"; str "quick"; str "brown"; str "fox"; str "jumps"; str "over";
   str "lazy"; str "dog"; str "and"; str "runs"; str "through"; str "forest";
   str "with"; str "great"; str "speed"; str "while"; str "hunting"; str "for";
   str "food"; str "in"; str "wilderness"].

Definition generate_text_content (words : Z) : pystr :=
  let content :=
    flat_map (fun i =>
                nth (Z.to_nat (i mod len sample_words)) sample_words []
                :: (if (i + 1) mod 15 =? 0 then [str LF] else []))
             (range words) in
  join (str " ") content.

End benchmark_comparison.

(** A text without whitespace. *)
Definition spaceless (s : pystr) : bool := forallb (fun c => negb (isspace c)) s.

(** A text that begins and ends with a character that is not whitespace. *)
Definition visible_edges (s : pystr) : Prop :=
  (exists c s', s = c :: s' /\ isspace c = false)
  /\ (exists c s', rev s = c :: s' /\ isspace c = false).

(** ** The request envelope of both handlers

    Lines 94-119 and 233-241 of [lambda_function.py], 30-55 and 190-198 of
    [lambda_function_puremagic.py]: the same code in both files. *)

(** The values an event holds are the values JSON has.  Of an object the
    handlers read three keys: ['body'], ['file_content'] and ['filename']. *)
#[warnings="-register-all"]
Inductive pyval :=
| VNone
| VBool (b : bool)
| VInt (n : Z)
| VFloat (f : spec_float)
| VStr (s : pystr)
| VList (l : list pyval)
| VDict (d : pydict)
with pydict :=
| Dict (item_body : option pyval) (item_file_content : option pyval)
       (item_filename : option pyval).

Definition item_body (d : pydict) : option pyval :=
  let '(Dict b _ _) := d in b.

Definition item_file_content (d : pydict) : option pyval :=
  let '(Dict _ c _) := d in c.

Definition item_filename (d : pydict) : option pyval :=
  let '(Dict _ _ f) := d in f.

(** What the outer [except Exception as e] can catch. *)
Inductive failure :=
| TypeError
| KeyError
| AttributeError
| Library (e : exn).

Inductive attempt (A : Type) :=
| Got (a : A)
| Threw (e : failure).
Arguments Got {A} a.
Arguments Threw {A} e.

Definition lift {A} (r : result A) : attempt A :=
  match r with
  | Ok a => Got a
  | Raise e => Threw (Library e)
  end.

Definition and_then {A B} (c : attempt A) (k : A -> attempt B) : attempt B :=
  match c with
  | Got a => k a
  | Threw e => Threw e
  end.

(** The message of a response: a fixed text, or
    [f'Error processing file: {str(e)}']. *)
Inductive message :=
| Text (s : pystr)
| ErrorText (e : failure).

(** A response: the status code and the items of the JSON body. *)
Record response := {
  statusCode : Z;
  success : bool;
  response_message : message;
  mimetype : option pystr;
  filename : option pyval;
  puremagic_details : option (option pystr * option pystr)
}.

(** Lines 108-115. *)
Definition missing_file_content : response :=
  {| statusCode := 400;
     success := false;
     response_message := Text (str "Missing file_content in request");
     mimetype := None;
     filename := None;
     puremagic_details := None |}.

(** Lines 233-241. *)
Definition processing_error (e : failure) : response :=
  {| statusCode := 500;
     success := false;
     response_message := ErrorText e;
     mimetype := None;
     filename := None;
     puremagic_details := None |}.

(** Lines 218-226 of [lambda_function.py]. *)
Definition magic_response (is_csv : bool) (detected_mimetype : pystr) (filename : pyval)
  : response :=
  {| statusCode := 200;
     success := is_csv;
     response_message := Text (message_of is_csv);
     mimetype := Some detected_mimetype;
     filename := Some filename;
     puremagic_details := None |}.

(** Lines 174-183 of [lambda_function_puremagic.py]. *)
Definition puremagic_response (is_csv : bool) (detected_mimetype : pystr)
  (filename : pyval) (puremagic_info : option pystr * option pystr) : response :=
  {| statusCode := 200;
     success := is_csv;
     response_message := Text (message_of is_csv);
     mimetype := Some detected_mimetype;
     filename := Some filename;
     puremagic_details := Some puremagic_info |}.

(** [body.get('filename', 'unknown')] on an object. *)
Definition filename_of (d : pydict) : pyval :=
  match item_filename d with
  | Some v => v
  | None => VStr (str "unknown")
  end.

(** A JSON value that is not a string. *)
Definition not_a_string (v : pyval) : Prop :=
  match v with
  | VStr _ => False
  | _ => True
  end.

(** The two length gates and the three counts of the criteria: what lines
    178-202 (134-158) evaluate before the filename is looked at. *)
Definition counts_pass (content_str : pystr) : bool :=
  let counts := comma_counts content_str in
  let total_lines := len (non_empty_lines content_str) in
  (2 <=? len (lines_of content_str))
  && (2 <=? total_lines)
  && int_ge_float (comma_lines_of counts) (float_mul (float_of_int total_lines) lit_0_8)
  && (1 <=? header_commas_of counts)
  && int_ge_float (consistent_comma_lines_of counts)
       (float_mul (float_of_int total_lines) lit_0_7).

(** Whether a request reaches [filename.lower()] (line 204, line 160): the
    MIME type tested at line 149 (130) is textual, the bytes decode and the
    counts pass. *)
Definition consults_filename (detected_mimetype : pystr) (file_content : pybytes) : bool :=
  is_text detected_mimetype
  && match decode_utf8 file_content with
     | Ok content_str => counts_pass content_str
     | Raise _ => false
     end.

Section Envelope.

(** [json.loads] and [base64.b64decode] on a [str]. *)
Variable json_loads : pystr -> result pyval.
Variable b64decode : pystr -> result pybytes.

(** Lines 96-104: the request body. *)
Definition request_body (event : pydict) : attempt pyval :=
  match item_body event with
  | Some (VStr s) => lift (json_loads s)
  | Some v => Got v
  | None => Got (VDict event)
  end.

(** ['file_content' not in body]: a key of a dict, a substring of a str, an
    element of a list; the other values are not iterable. *)
Definition lacks_file_content (body : pyval) : attempt bool :=
  match body with
  | VDict d =>
      Got (match item_file_content d with
           | Some _ => false
           | None => true
           end)
  | VStr s => Got (negb (contains s (str "file_content")))
  | VList l =>
      Got (negb (existsb (fun v => match v with
                                   | VStr s => str_eqb s (str "file_content")
                                   | _ => false
                                   end) l))
  | VNone | VBool _ | VInt _ | VFloat _ => Threw TypeError
  end.

(** [body['file_content']]: a str and a list take integer indices only. *)
Definition file_content_item (body : pyval) : attempt pyval :=
  match body with
  | VDict d =>
      match item_file_content d with
      | Some v => Got v
      | None => Threw KeyError
      end
  | _ => Threw TypeError
  end.

(** [base64.b64decode(v)]: a value that is not a str is not bytes-like. *)
Definition decode_base64 (v : pyval) : attempt pybytes :=
  match v with
  | VStr s => lift (b64decode s)
  | _ => Threw TypeError
  end.

(** [body.get('filename', 'unknown')] *)
Definition filename_item (body : pyval) : attempt pyval :=
  match body with
  | VDict d => Got (filename_of d)
  | _ => Threw AttributeError
  end.

(** Lines 94-241, around the detection and analysis of lines 126-226. *)
Definition handle_event (classify : pybytes -> pyval -> attempt response)
  (event : pydict) : response :=
  let answer :=
    and_then (request_body event) (fun body =>
    and_then (lacks_file_content body) (fun missing =>
    if missing then Got missing_file_content
    else
      and_then (file_content_item body) (fun v =>
      and_then (decode_base64 v) (fun file_content =>
      and_then (filename_item body) (fun filename =>
      classify file_content filename))))) in
  match answer with
  | Got r => r
  | Threw e => processing_error e
  end.

Variable unicode_lower : pystr -> nat -> pystr.

(** ** Detection and analysis for whatever value the filename is

    The filename of a request is any JSON value.  Lines 126-226 (62-183) use
    it at one place, [filename.lower()], which raises AttributeError on a value
    that is not a str; [except UnicodeDecodeError] does not catch it. *)

(** [filename.lower().endswith('.csv')] *)
Definition filename_hint_of (filename : pyval) : attempt bool :=
  match filename with
  | VStr f => Got (filename_hint unicode_lower f)
  | _ => Threw AttributeError
  end.

(** Lines 185-208 of [lambda_function.py]: [and] and [or] evaluate from left
    to right and stop as soon as the value is known. *)
Definition magic_csv_criteria_met (csv_detected_by_magic : bool) (filename : pyval)
  (content_str : pystr) (non_empty_lines : list pystr) : attempt bool :=
  let comma_counts := comma_counts_of non_empty_lines in
  let comma_lines := comma_lines_of comma_counts in
  let total_lines := len non_empty_lines in
  let header_commas := header_commas_of comma_counts in
  let consistent_comma_lines := consistent_comma_lines_of comma_counts in
  if int_ge_float comma_lines (float_mul (float_of_int total_lines) lit_0_8)
     && (1 <=? header_commas)
     && int_ge_float consistent_comma_lines (float_mul (float_of_int total_lines) lit_0_7)
  then
    and_then (filename_hint_of filename) (fun hint =>
    Got (hint || csv_detected_by_magic || keyword_hint unicode_lower content_str))
  else Got false.

(** Lines 178-210 after the decoding. *)
Definition magic_content_analysis (csv_detected_by_magic : bool) (filename : pyval)
  (content_str : pystr) : attempt bool :=
  let lines := lines_of content_str in
  if 2 <=? len lines then
    let non_empty_lines := non_empty_lines_of lines in
    if 2 <=? len non_empty_lines then
      magic_csv_criteria_met csv_detected_by_magic filename content_str non_empty_lines
    else Got false
  else Got false.

(** Lines 176-216. *)
Definition magic_content_validation (is_csv csv_detected_by_magic : bool)
  (file_content : pybytes) (filename : pyval) : attempt bool :=
  match decode_utf8 file_content with
  | Ok content_str =>
      and_then (magic_content_analysis csv_detected_by_magic filename content_str)
        (fun met => Got (if met then true else is_csv))
  | Raise UnicodeDecodeError => Got false
  | Raise e => Threw (Library e)
  end.

(** Lines 149-216. *)
Definition magic_text_branch (m : lambda_function.magic_runs) (st : bool * pystr)
  (file_content : pybytes) (filename : pyval) : attempt (bool * pystr) :=
  let '(is_csv, detected_mimetype) := st in
  if str_eqb detected_mimetype (str "text/plain")
     || startswith detected_mimetype (str "text/")
  then
    let '(csv_detected_by_magic, detected_mimetype) :=
      lambda_function.alternative_detection unicode_lower m detected_mimetype in
    and_then (magic_content_validation is_csv csv_detected_by_magic file_content filename)
      (fun is_csv => Got (is_csv, detected_mimetype))
  else Got (is_csv, detected_mimetype).

(** What libmagic reports for a file, when [magic.Magic(mime=True)] and
    [mime.from_file] of lines 128-129 return; what they raise otherwise. *)
Variable libmagic : pybytes -> result lambda_function.magic_runs.

(** Lines 126-226 of [lambda_function.py]. *)
Definition magic_classify (file_content : pybytes) (filename : pyval)
  : attempt response :=
  and_then (lift (libmagic file_content)) (fun m =>
  let detected_mimetype := lambda_function.from_file_mime m in
  let is_csv := existsb (str_eqb detected_mimetype) csv_mimetypes in
  and_then (magic_text_branch m (is_csv, detected_mimetype) file_content filename)
    (fun st => Got (magic_response (fst st) (snd st) filename))).

(** Lines 141-163 of [lambda_function_puremagic.py]. *)
Definition puremagic_csv_criteria_met (filename : pyval) (content_str : pystr)
  (non_empty_lines : list pystr) : attempt bool :=
  let comma_counts := comma_counts_of non_empty_lines in
  let comma_lines := comma_lines_of comma_counts in
  let total_lines := len non_empty_lines in
  let header_commas := header_commas_of comma_counts in
  let consistent_comma_lines := consistent_comma_lines_of comma_counts in
  if int_ge_float comma_lines (float_mul (float_of_int total_lines) lit_0_8)
     && (1 <=? header_commas)
     && int_ge_float consistent_comma_lines (float_mul (float_of_int total_lines) lit_0_7)
  then
    and_then (filename_hint_of filename) (fun hint =>
    Got (hint || keyword_hint unicode_lower content_str))
  else Got false.

(** Lines 134-165 after the decoding. *)
Definition puremagic_content_analysis (filename : pyval) (content_str : pystr)
  : attempt bool :=
  let lines := lines_of content_str in
  if 2 <=? len lines then
    let non_empty_lines := non_empty_lines_of lines in
    if 2 <=? len non_empty_lines then
      puremagic_csv_criteria_met filename content_str non_empty_lines
    else Got false
  else Got false.

(** Lines 132-172. *)
Definition puremagic_content_validation (st : bool * pystr) (file_content : pybytes)
  (filename : pyval) : attempt (bool * pystr) :=
  let '(is_csv, detected_mimetype) := st in
  match decode_utf8 file_content with
  | Ok content_str =>
      and_then (puremagic_content_analysis filename content_str)
        (fun met => Got (if met then (true, str "text/csv") else (is_csv, detected_mimetype)))
  | Raise UnicodeDecodeError => Got (false, detected_mimetype)
  | Raise e => Threw (Library e)
  end.

(** Lines 130-172. *)
Definition puremagic_text_branch (st : bool * pystr) (file_content : pybytes)
  (filename : pyval) : attempt (bool * pystr) :=
  if str_eqb (snd st) (str "text/plain") || startswith (snd st) (str "text/")
  then puremagic_content_validation st file_content filename
  else Got st.

(** What puremagic reports for a file. *)
Variable puremagic : pybytes -> lambda_function_puremagic.puremagic_runs.

(** Lines 62-183 of [lambda_function_puremagic.py]. *)
Definition puremagic_classify (file_content : pybytes) (filename : pyval)
  : attempt response :=
  let p := puremagic file_content in
  let detected_type := or_none (lambda_function_puremagic.from_file p) in
  let buffer_type := or_none (lambda_function_puremagic.from_string p) in
  and_then
    (lift (lambda_function_puremagic.derived_mimetype unicode_lower detected_type
             file_content))
    (fun detected_mimetype =>
  let puremagic_info := (detected_type, buffer_type) in
  let is_csv := existsb (str_eqb detected_mimetype) csv_mimetypes in
  and_then (puremagic_text_branch (is_csv, detected_mimetype) file_content filename)
    (fun st => Got (puremagic_response (fst st) (snd st) filename puremagic_info))).

(** [lambda_handler] of [lambda_function.py]. *)
Definition magic_lambda_handler (event : pydict) : response :=
  handle_event magic_classify event.

(** [lambda_handler] of [lambda_function_puremagic.py]. *)
Definition puremagic_lambda_handler (event : pydict) : response :=
  handle_event puremagic_classify event.

End Envelope.

(** ** Samples for the properties below *)

(** libmagic on a GIF image. *)
Definition magic_gif : lambda_function.magic_runs :=
  {| lambda_function.from_file_mime := str "image/gif";
     lambda_function.from_file_kind := Ok (str "GIF image data, version 89a");
     lambda_function.alternative := Raise MagicException |}.

(** A text with code points of one, two, three and four bytes. *)
Definition accented_text : pystr := [104; 233; 8364; 128512].

(** [base64.b64encode(three_rows).decode()] *)
Definition three_rows_base64 : pystr :=
  str "bmFtZSxhZ2UsY2l0eQpKb2huLDMwLE5ZQwpKYW5lLDI1LExB".

(** [json.loads] and [base64.b64decode] at the texts the samples use. *)
Definition json_loads_sample (s : pystr) : result pyval :=
  if str_eqb s (str "null") then Ok VNone else Raise ValueError.

Definition b64decode_sample (s : pystr) : result pybytes :=
  if str_eqb s three_rows_base64 then Ok three_rows else Raise ValueError.

(** libmagic reporting plain text for every file, and puremagic finding
    nothing. *)
Definition libmagic_sample (file_content : pybytes)
  : result lambda_function.magic_runs :=
  Ok magic_plain.

Definition puremagic_sample (file_content : pybytes)
  : lambda_function_puremagic.puremagic_runs :=
  puremagic_nothing.

(** A direct invocation and an API Gateway event with the same request. *)
Definition direct_event : pydict :=
  Dict None (Some (VStr three_rows_base64)) (Some (VStr (str "data.csv"))).

Definition gateway_event : pydict :=
  Dict (Some (VDict direct_event)) None None.

(** The same request with a filename that is not a string. *)
Definition null_filename_event : pydict :=
  Dict None (Some (VStr three_rows_base64)) (Some VNone).

(** * Properties *)

(** ** The threshold tests and exact ratios

    [total_lines * 0.8] is a binary64 product and [comma_lines >= ...] an
    exact comparison.  Below 2^48 lines the rounding of the product never
    crosses an integer, so both tests decide the exact ratios 4/5 and 7/10. *)

Module FloatFacts.

Lemma digits2_pos_size p : digits2_pos p = Pos.size p.
Proof. induction p; simpl; congruence. Qed.

(** The number of binary digits of a mantissa brackets it between two powers
    of two, and is the only number to do so. *)
Lemma digits2_pos_bounds p :
  2 ^ (Zpos (digits2_pos p) - 1) <= Zpos p < 2 ^ Zpos (digits2_pos p).
Proof.
  rewrite digits2_pos_size.
  pose proof (Pos.size_gt p) as Hgt.
  pose proof (Pos.size_le p) as Hle.
  apply Pos2Z.pos_lt_pos in Hgt.
  apply Pos2Z.pos_le_pos in Hle.
  rewrite Pos2Z.inj_pow in Hgt, Hle.
  change (Zpos p~0) with (2 * Zpos p) in Hle.
  replace (Zpos (Pos.size p)) with (Z.succ (Zpos (Pos.size p) - 1)) in Hle by lia.
  rewrite Z.pow_succ_r in Hle by lia.
  lia.
Qed.

Lemma digits2_pos_unique p a :
  2 ^ (a - 1) <= Zpos p < 2 ^ a -> Zpos (digits2_pos p) = a.
Proof.
  intros [Hlo Hhi].
  destruct (digits2_pos_bounds p) as [Dlo Dhi].
  assert (0 < a).
  { destruct (Z_lt_le_dec 0 a) as [|Hneg]; [assumption|].
    assert (2 ^ a <= 1).
    { destruct (Z.eq_dec a 0) as [->|]; [simpl; lia|].
      rewrite Z.pow_neg_r by lia. lia. }
    lia. }
  assert (Zpos (digits2_pos p) - 1 < a).
  { apply (Z.pow_lt_mono_r_iff 2); lia. }
  assert (a - 1 < Zpos (digits2_pos p)).
  { apply (Z.pow_lt_mono_r_iff 2); lia. }
  lia.
Qed.

(** One right shift halves the mantissa and keeps the bit shifted out as the
    round bit; [n + 1] shifts divide by [2 ^ (n + 1)] and leave bit [n]. *)
Lemma shr_1_nonneg m r s :
  0 <= m ->
  shr_1 {| shr_m := m; shr_r := r; shr_s := s |} =
  {| shr_m := m / 2; shr_r := Z.odd m; shr_s := r || s |}.
Proof.
  intros Hm. rewrite <- Z.div2_div.
  destruct m as [|[p|p|]|p]; try reflexivity; lia.
Qed.

Lemma iter_pos_nat {A} (f : A -> A) p x :
  iter_pos f p x = Nat.iter (Pos.to_nat p) f x.
Proof.
  revert x. induction p as [p IH|p IH|]; intros x; cbn [iter_pos].
  - rewrite !IH, Pos2Nat.inj_xI.
    rewrite <- Nat.iter_succ_r, <- Nat.iter_add.
    f_equal. lia.
  - rewrite !IH, Pos2Nat.inj_xO, <- Nat.iter_add. f_equal. lia.
  - reflexivity.
Qed.

Lemma shr_iter n m r0 s0 :
  0 <= m ->
  exists s',
    Nat.iter (S n) shr_1 {| shr_m := m; shr_r := r0; shr_s := s0 |} =
    {| shr_m := m / 2 ^ Z.of_nat (S n); shr_r := Z.testbit m (Z.of_nat n); shr_s := s' |}.
Proof.
  intros Hm. induction n as [|n [s' IH]].
  - exists (r0 || s0).
    change (Nat.iter 1 shr_1 ?x) with (shr_1 x).
    rewrite shr_1_nonneg by assumption.
    change (Z.of_nat 1) with 1. rewrite Z.pow_1_r.
    reflexivity.
  - change (Nat.iter (S (S n)) shr_1 ?x) with (shr_1 (Nat.iter (S n) shr_1 x)).
    rewrite IH. eexists.
    rewrite shr_1_nonneg by (apply Z.div_pos; [lia | apply Z.pow_pos_nonneg; lia]).
    f_equal.
    + rewrite Z.div_div by (try apply Z.pow_pos_nonneg; lia).
      f_equal. rewrite (Nat2Z.inj_succ (S n)), Z.pow_succ_r by lia. lia.
    + rewrite (Z.testbit_odd m (Z.of_nat (S n))), Z.shiftr_div_pow2 by lia. reflexivity.
Qed.

(** Shifting a product of [s + 53] digits to 53 digits: the quotient by
    [2 ^ s], with a round bit that is clear when the remainder is below one
    half. *)
Lemma shr_fexp_exact (P : positive) e s :
  0 <= s -> 2 ^ (s + 52) <= Zpos P < 2 ^ (s + 53) -> -1074 <= e + s ->
  exists r st,
    shr_fexp prec emax (Zpos P) e loc_Exact =
    ({| shr_m := Zpos P / 2 ^ s; shr_r := r; shr_s := st |}, e + s)
    /\ (2 * (Zpos P mod 2 ^ s) < 2 ^ s -> r = false).
Proof.
  intros Hs HP He.
  unfold shr_fexp, Zdigits2.
  rewrite (digits2_pos_unique P (s + 53)) by (replace (s + 53 - 1) with (s + 52) by lia; exact HP).
  replace (fexp prec emax (s + 53 + e) - e) with s by (unfold fexp, emin, prec, emax; lia).
  destruct s as [|sp|sp]; [| |lia].
  - exists false, false. cbn [shr shr_record_of_loc].
    rewrite Z.pow_0_r, Z.div_1_r, Z.add_0_r. split; reflexivity.
  - cbn [shr shr_record_of_loc]. rewrite iter_pos_nat.
    destruct (Pos2Nat.is_succ sp) as [n Hn]. rewrite Hn.
    destruct (shr_iter n (Zpos P) false false) as [st Hit]; [lia|].
    rewrite Hit. exists (Z.testbit (Zpos P) (Z.of_nat n)), st.
    assert (Hsp : Zpos sp = Z.of_nat (S n)) by lia.
    rewrite Hsp. split; [reflexivity|].
    intros Hhalf.
    rewrite Z.testbit_odd, Z.shiftr_div_pow2 by lia.
    assert (Hpow : 0 < 2 ^ Z.of_nat n) by (apply Z.pow_pos_nonneg; lia).
    replace (2 ^ Z.of_nat (S n)) with (2 ^ Z.of_nat n * 2) in Hhalf
      by (rewrite Nat2Z.inj_succ, Z.pow_succ_r; lia).
    rewrite Z.rem_mul_r in Hhalf by lia.
    pose proof (Z.mod_pos_bound (Zpos P) (2 ^ Z.of_nat n) Hpow).
    destruct (Z.odd (Zpos P / 2 ^ Z.of_nat n)) eqn:Hodd; [|reflexivity].
    rewrite Zmod_odd, Hodd in Hhalf. nia.
Qed.

(** Rounding moves the quotient up by at most one, and not at all when the
    round bit is clear. *)
Lemma round_nearest_even_bounds q r st :
  q <= round_nearest_even q (loc_of_shr_record {| shr_m := q; shr_r := r; shr_s := st |}) <= q + 1
  /\ (r = false ->
      round_nearest_even q (loc_of_shr_record {| shr_m := q; shr_r := r; shr_s := st |}) = q).
Proof.
  destruct r, st; cbn [loc_of_shr_record round_nearest_even];
    try destruct (Z.even q); split; intros; try lia; discriminate.
Qed.

(** The rounded result as a mantissa and an exponent: either the rounded
    quotient itself, or, when rounding carried into a 54th digit, one half of
    it one exponent higher. *)
Lemma binary_round_aux_exact (P : positive) e s :
  0 <= s -> 2 ^ (s + 52) <= Zpos P < 2 ^ (s + 53) ->
  -1074 <= e + s -> e + s + 1 <= 971 ->
  exists m1 m' e',
    binary_round_aux prec emax false (Zpos P) e loc_Exact = S754_finite false m' e'
    /\ Zpos P / 2 ^ s <= m1 <= Zpos P / 2 ^ s + 1
    /\ (2 * (Zpos P mod 2 ^ s) < 2 ^ s -> m1 = Zpos P / 2 ^ s)
    /\ ((m1 < 2 ^ 53 /\ Zpos m' = m1 /\ e' = e + s)
        \/ (m1 = 2 ^ 53 /\ Zpos m' = 2 ^ 52 /\ e' = e + s + 1)).
Proof.
  intros Hs HP Hlo Hhi.
  destruct (shr_fexp_exact P e s Hs HP Hlo) as (r & st & Hshr & Hr).
  unfold binary_round_aux. rewrite Hshr. cbn [shr_m].
  set (q := Zpos P / 2 ^ s) in *.
  destruct (round_nearest_even_bounds q r st) as [Hb Hd].
  set (m1 := round_nearest_even q _) in *.
  assert (Hpow : 0 < 2 ^ s) by (apply Z.pow_pos_nonneg; lia).
  assert (Hq : 2 ^ 52 <= q < 2 ^ 53).
  { unfold q. rewrite !Z.pow_add_r in HP by lia. split.
    - apply Z.div_le_lower_bound; lia.
    - apply Z.div_lt_upper_bound; lia. }
  destruct (Z_lt_le_dec m1 (2 ^ 53)) as [Hlt|Hge].
  - destruct m1 as [|pm|pm] eqn:Em1; [lia| |lia].
    destruct (shr_fexp_exact pm (e + s) 0) as (r' & st' & Hshr' & _);
      [lia|change (0 + 52) with 52; change (0 + 53) with 53; lia|lia|].
    rewrite Hshr'. cbn [shr_m]. rewrite Z.pow_0_r, Z.div_1_r.
    replace (e + s + 0 <=? emax - prec) with true
      by (symmetry; apply Z.leb_le; unfold emax, prec; lia).
    exists (Zpos pm), pm, (e + s + 0).
    split; [reflexivity|]. split; [lia|]. split.
    + intros H. specialize (Hr H). specialize (Hd Hr). lia.
    + left. lia.
  - assert (Em1 : m1 = 2 ^ 53) by lia.
    rewrite Em1.
    destruct (shr_fexp_exact (Z.to_pos (2 ^ 53)) (e + s) 1) as (r' & st' & Hshr' & _);
      [lia|vm_compute; split; congruence|lia|].
    change (Zpos (Z.to_pos (2 ^ 53))) with (2 ^ 53) in Hshr'.
    rewrite Hshr'. cbn [shr_m].
    change (2 ^ 53 / 2 ^ 1) with (Zpos (Z.to_pos (2 ^ 52))).
    cbv iota.
    replace (e + s + 1 <=? emax - prec) with true
      by (symmetry; apply Z.leb_le; unfold emax, prec; lia).
    exists (2 ^ 53), (Z.to_pos (2 ^ 52)), (e + s + 1).
    split; [reflexivity|]. split; [lia|]. split.
    + intros H. specialize (Hr H). specialize (Hd Hr). lia.
    + right. repeat split.
Qed.

Lemma iter_xO_pow2 p k : Zpos (Pos.iter xO p k) = Zpos p * 2 ^ Zpos k.
Proof.
  rewrite (Pos.iter_swap_gen _ _ Zpos xO (Z.mul 2)) by reflexivity.
  rewrite <- Z.shiftl_mul_pow2 by lia. reflexivity.
Qed.

(** [float(n)] is exact for an integer of at most 53 binary digits. *)
Lemma float_of_int_exact n d :
  1 <= d <= 53 -> 2 ^ (d - 1) <= n < 2 ^ d ->
  float_of_int n = S754_finite false (Z.to_pos (n * 2 ^ (53 - d))) (d - 53).
Proof.
  intros Hd Hn.
  assert (Hpow : 0 < 2 ^ (d - 1)) by (apply Z.pow_pos_nonneg; lia).
  destruct n as [|p|p]; [lia| |lia].
  unfold float_of_int, binary_normalize, binary_round.
  rewrite (digits2_pos_unique p d Hn).
  replace (fexp prec emax (d + 0)) with (d - 53) by (unfold fexp, emin, prec, emax; lia).
  assert (Hal : exists mz, shl_align p 0 (d - 53) = (mz, d - 53)
                           /\ Zpos mz = Zpos p * 2 ^ (53 - d)).
  { unfold shl_align. destruct (d - 53 - 0) as [|q|q] eqn:Hq; [|lia|].
    - exists p. replace (d - 53) with 0 by lia. replace (53 - d) with 0 by lia.
      split; [reflexivity|]. rewrite Z.pow_0_r. lia.
    - exists (Pos.iter xO p q). split; [reflexivity|].
      rewrite iter_xO_pow2. f_equal. f_equal. lia. }
  destruct Hal as (mz & -> & Hmz).
  assert (Hrange : 2 ^ (0 + 52) <= Zpos mz < 2 ^ (0 + 53)).
  { rewrite Hmz. replace (0 + 52) with ((d - 1) + (53 - d)) by lia.
    replace (0 + 53) with (d + (53 - d)) by lia.
    rewrite !Z.pow_add_r by lia.
    assert (0 < 2 ^ (53 - d)) by (apply Z.pow_pos_nonneg; lia).
    nia. }
  destruct (binary_round_aux_exact mz (d - 53) 0) as (m1 & m' & e' & -> & Hb & Hdn & Hcase);
    [lia|exact Hrange|lia|lia|].
  rewrite Z.pow_0_r, Z.div_1_r, Z.mod_1_r in *.
  specialize (Hdn ltac:(lia)).
  destruct Hcase as [(_ & Hm' & ->)|(Hbig & _)]; [|simpl in Hrange; lia].
  f_equal; [|lia].
  rewrite <- Hmz, <- Hdn, <- Hm'. reflexivity.
Qed.

(** The product [float(n) * c] for a constant [c] in [0.5, 1): it is the
    exact product [n * M / 2^53] rounded at [u] bits below the unit. *)
Lemma float_mul_int_exact n d (M : positive) :
  1 <= d <= 48 -> 2 ^ (d - 1) <= n < 2 ^ d -> 2 ^ 52 <= Zpos M < 2 ^ 53 ->
  exists u m1,
    0 <= u <= 48
    /\ n * Zpos M < 2 ^ 53 * 2 ^ u
    /\ n * Zpos M / 2 ^ u <= m1 <= n * Zpos M / 2 ^ u + 1
    /\ (2 * ((n * Zpos M) mod 2 ^ u) < 2 ^ u -> m1 = n * Zpos M / 2 ^ u)
    /\ forall k,
         int_ge_float k (float_mul (float_of_int n) (S754_finite false M (-53)))
         = (m1 <=? k * 2 ^ (53 - u)).
Proof.
  intros Hd Hn HM.
  rewrite (float_of_int_exact n d) by lia.
  assert (Hp1 : 0 < 2 ^ (d - 1)) by (apply Z.pow_pos_nonneg; lia).
  assert (Hp2 : 0 < 2 ^ (53 - d)) by (apply Z.pow_pos_nonneg; lia).
  assert (Hd2 : 2 ^ d = 2 * 2 ^ (d - 1)).
  { replace d with (Z.succ (d - 1)) at 1 by lia. apply Z.pow_succ_r. lia. }
  assert (H52 : 2 ^ (d - 1) * 2 ^ (53 - d) = 2 ^ 52).
  { rewrite <- Z.pow_add_r by lia. f_equal. lia. }
  set (mx := Z.to_pos (n * 2 ^ (53 - d))).
  assert (Hmx : Zpos mx = n * 2 ^ (53 - d)) by (unfold mx; rewrite Z2Pos.id; nia).
  unfold float_mul, SFmul. cbn [xorb].
  set (P := (mx * M)%positive).
  assert (HP : Zpos P = n * Zpos M * 2 ^ (53 - d)) by (unfold P; rewrite Pos2Z.inj_mul, Hmx; ring).
  assert (Hsplit : exists u, (u = d - 1 \/ u = d)
            /\ 2 ^ (u + 53 - d + 52) <= Zpos P < 2 ^ (u + 53 - d + 53)).
  { destruct (Z_lt_le_dec (Zpos P) (2 ^ 105)) as [Hlt|Hge].
    - exists (d - 1). split; [left; reflexivity|].
      replace (d - 1 + 53 - d + 52) with 104 by lia.
      replace (d - 1 + 53 - d + 53) with 105 by lia.
      split; [|exact Hlt]. rewrite HP.
      change (2 ^ 104) with (2 ^ 52 * 2 ^ 52). rewrite <- H52 at 1. nia.
    - exists d. split; [right; reflexivity|].
      replace (d + 53 - d + 52) with 105 by lia.
      replace (d + 53 - d + 53) with 106 by lia.
      split; [exact Hge|]. rewrite HP.
      change (2 ^ 106) with (2 * 2 ^ 52 * 2 ^ 53). rewrite <- H52. nia. }
  destruct Hsplit as (u & Hu & HPr).
  assert (Hpu : 0 < 2 ^ u) by (apply Z.pow_pos_nonneg; lia).
  assert (Hs : 2 ^ (u + 53 - d) = 2 ^ u * 2 ^ (53 - d)).
  { rewrite <- Z.pow_add_r by lia. f_equal. lia. }
  destruct (binary_round_aux_exact P (d - 53 + -53) (u + 53 - d))
    as (m1 & m' & e' & -> & Hb & Hdn & Hcase); [lia|exact HPr|lia|lia|].
  rewrite Hs, HP in Hb, Hdn.
  rewrite Z.div_mul_cancel_r in Hb, Hdn by lia.
  rewrite Z.mul_mod_distr_r in Hdn by lia.
  exists u, m1.
  split; [lia|]. split.
  { destruct HPr as [_ HPhi]. rewrite HP in HPhi.
    replace (u + 53 - d + 53) with (53 + u + (53 - d)) in HPhi by lia.
    rewrite !Z.pow_add_r in HPhi by lia. nia. }
  split; [exact Hb|]. split.
  { intros H. apply Hdn. nia. }
  intros k. unfold int_ge_float.
  assert (Hsucc : 2 ^ (53 - u) = 2 * 2 ^ (52 - u)).
  { replace (53 - u) with (Z.succ (52 - u)) by lia. apply Z.pow_succ_r. lia. }
  destruct Hcase as [(_ & Hm' & ->)|(Hbig & Hm' & ->)].
  - replace (0 <=? d - 53 + -53 + (u + 53 - d)) with false by (symmetry; apply Z.leb_gt; lia).
    rewrite Hm'. do 3 f_equal. lia.
  - replace (0 <=? d - 53 + -53 + (u + 53 - d) + 1) with false by (symmetry; apply Z.leb_gt; lia).
    rewrite Hm', Hbig.
    replace (- (d - 53 + -53 + (u + 53 - d) + 1)) with (52 - u) by lia.
    rewrite Hsucc.
    destruct (Z.leb_spec (2 ^ 52) (k * 2 ^ (52 - u))), (Z.leb_spec (2 ^ 53) (k * (2 * 2 ^ (52 - u))));
      try reflexivity; exfalso; change (2 ^ 53) with (2 * 2 ^ 52) in *; lia.
Qed.

(** The bit length of a line count below 2^48. *)
Lemma int_bit_length n :
  1 <= n < 2 ^ 48 ->
  exists d, 1 <= d <= 48 /\ 2 ^ (d - 1) <= n < 2 ^ d.
Proof.
  intros Hn. exists (Z.succ (Z.log2 n)).
  pose proof (Z.log2_nonneg n).
  assert (Z.log2 n < 48) by (apply Z.log2_lt_pow2; lia).
  replace (Z.succ (Z.log2 n) - 1) with (Z.log2 n) by lia.
  split; [lia|]. apply Z.log2_spec. lia.
Qed.

Lemma pow2_split u : 0 <= u <= 48 -> 2 ^ u * 2 ^ (53 - u) = 2 ^ 53 /\ 32 <= 2 ^ (53 - u) /\ 0 < 2 ^ u.
Proof.
  intros Hu. split; [|split].
  - rewrite <- Z.pow_add_r by lia. f_equal. lia.
  - change 32 with (2 ^ 5). apply Z.pow_le_mono_r; lia.
  - apply Z.pow_pos_nonneg; lia.
Qed.

(** [k >= n * 0.8] decides [k >= 4n/5] exactly. *)
Lemma ge_times_0_8 n k :
  1 <= n < 2 ^ 48 ->
  int_ge_float k (float_mul (float_of_int n) lit_0_8) = (4 * n <=? 5 * k).
Proof.
  intros Hn.
  destruct (int_bit_length n Hn) as (d & Hd & Hnd).
  destruct (float_mul_int_exact n d 7205759403792794 Hd Hnd) as (u & m1 & Hu & Hlt & Hb & Hdn & Hcmp);
    [vm_compute; split; congruence|].
  unfold lit_0_8. rewrite Hcmp. clear Hcmp.
  destruct (pow2_split u Hu) as (HUT & HT & HU).
  set (U := 2 ^ u) in *. set (T := 2 ^ (53 - u)) in *.
  set (q := n * 7205759403792794 / U) in *.
  pose proof (Z.div_mod (n * 7205759403792794) U ltac:(lia)) as Hdm.
  pose proof (Z.mod_pos_bound (n * 7205759403792794) U HU) as Hr.
  fold q in Hdm. set (r := (n * 7205759403792794) mod U) in *.
  change (2 ^ 53) with 9007199254740992 in *.
  assert (H4n : 4 * n < 5 * U) by nia.
  destruct (Z.leb_spec (4 * n) (5 * k)) as [Hle|Hgt].
  - apply Z.leb_le.
    assert (HqK : U * (q - k * T) < U).
    { nia. }
    assert (q <= k * T) by nia.
    destruct (Z.eq_dec q (k * T)) as [Heq|Hne]; [|lia].
    assert (2 * r < U) by nia.
    specialize (Hdn ltac:(assumption)). lia.
  - apply Z.leb_gt.
    assert (0 < U * (q - k * T)) by nia.
    assert (k * T < q) by nia.
    lia.
Qed.

(** [k >= n * 0.7] decides [k >= 7n/10] exactly. *)
Lemma ge_times_0_7 n k :
  1 <= n < 2 ^ 48 ->
  int_ge_float k (float_mul (float_of_int n) lit_0_7) = (7 * n <=? 10 * k).
Proof.
  intros Hn.
  destruct (int_bit_length n Hn) as (d & Hd & Hnd).
  destruct (float_mul_int_exact n d 6305039478318694 Hd Hnd) as (u & m1 & Hu & Hlt & Hb & Hdn & Hcmp);
    [vm_compute; split; congruence|].
  unfold lit_0_7. rewrite Hcmp. clear Hcmp.
  destruct (pow2_split u Hu) as (HUT & HT & HU).
  assert (HU48 : 2 ^ u <= 2 ^ 48) by (apply Z.pow_le_mono_r; lia).
  set (U := 2 ^ u) in *. set (T := 2 ^ (53 - u)) in *.
  set (q := n * 6305039478318694 / U) in *.
  pose proof (Z.div_mod (n * 6305039478318694) U ltac:(lia)) as Hdm.
  pose proof (Z.mod_pos_bound (n * 6305039478318694) U HU) as Hr.
  fold q in Hdm. set (r := (n * 6305039478318694) mod U) in *.
  change (2 ^ 53) with 9007199254740992 in *.
  change (2 ^ 48) with 281474976710656 in *.
  destruct (Z.leb_spec (7 * n) (10 * k)) as [Hle|Hgt].
  - apply Z.leb_le.
    assert (HqK : U * (q - k * T) < 0) by nia.
    assert (q < k * T) by nia.
    lia.
  - apply Z.leb_gt.
    assert (0 < U * (q - k * T)) by nia.
    assert (k * T < q) by nia.
    lia.
Qed.

End FloatFacts.

(** ** Strings, decoding and the line statistics *)

Lemma str_eqb_eq a b : str_eqb a b = true <-> a = b.
Proof.
  revert b. induction a as [|x a IH]; intros [|y b]; simpl; split; intros H;
    try reflexivity; try discriminate.
  - apply andb_true_iff in H. destruct H as [Hxy Hab].
    apply Z.eqb_eq in Hxy. apply IH in Hab. congruence.
  - injection H as -> ->. apply andb_true_iff. split.
    + apply Z.eqb_refl.
    + apply IH. reflexivity.
Qed.

Lemma decode_utf8_raises file_content e :
  decode_utf8 file_content = Raise e -> e = UnicodeDecodeError.
Proof.
  unfold decode_utf8. destruct (utf8_points _); intros H; [discriminate|].
  injection H as <-. reflexivity.
Qed.

Lemma decodes_false file_content :
  decodes file_content = false -> decode_utf8 file_content = Raise UnicodeDecodeError.
Proof.
  unfold decodes. destruct (decode_utf8 file_content) as [s|e] eqn:E; [discriminate|].
  intros _. f_equal. eapply decode_utf8_raises. exact E.
Qed.

Lemma non_empty_lines_le lines : len (non_empty_lines_of lines) <= len lines.
Proof.
  unfold non_empty_lines_of, len. rewrite length_map.
  apply inj_le. apply filter_length_le.
Qed.

Section Claims.

Variable unicode_lower : pystr -> nat -> pystr.

(** ** The content analysis *)

Lemma puremagic_analysis_gated filename content_str :
  len (non_empty_lines content_str) < 2 ->
  lambda_function_puremagic.content_analysis unicode_lower filename content_str = false.
Proof.
  unfold lambda_function_puremagic.content_analysis, non_empty_lines. intros H.
  destruct (2 <=? len (lines_of content_str)); [|reflexivity].
  destruct (Z.leb_spec 2 (len (non_empty_lines_of (lines_of content_str)))); [lia|reflexivity].
Qed.

Lemma magic_analysis_gated csv_detected_by_magic filename content_str :
  len (non_empty_lines content_str) < 2 ->
  lambda_function.content_analysis unicode_lower csv_detected_by_magic filename content_str
  = false.
Proof.
  unfold lambda_function.content_analysis, non_empty_lines. intros H.
  destruct (2 <=? len (lines_of content_str)); [|reflexivity].
  destruct (Z.leb_spec 2 (len (non_empty_lines_of (lines_of content_str)))); [lia|reflexivity].
Qed.

Lemma puremagic_analysis_open filename content_str :
  2 <= len (non_empty_lines content_str) ->
  lambda_function_puremagic.content_analysis unicode_lower filename content_str
  = lambda_function_puremagic.csv_criteria_met unicode_lower filename content_str
      (non_empty_lines content_str).
Proof.
  unfold lambda_function_puremagic.content_analysis, non_empty_lines. intros H.
  pose proof (non_empty_lines_le (lines_of content_str)).
  destruct (Z.leb_spec 2 (len (lines_of content_str))); [|lia].
  destruct (Z.leb_spec 2 (len (non_empty_lines_of (lines_of content_str)))); [reflexivity|lia].
Qed.

Lemma magic_analysis_open csv_detected_by_magic filename content_str :
  2 <= len (non_empty_lines content_str) ->
  lambda_function.content_analysis unicode_lower csv_detected_by_magic filename content_str
  = lambda_function.csv_criteria_met unicode_lower csv_detected_by_magic filename content_str
      (non_empty_lines content_str).
Proof.
  unfold lambda_function.content_analysis, non_empty_lines. intros H.
  pose proof (non_empty_lines_le (lines_of content_str)).
  destruct (Z.leb_spec 2 (len (lines_of content_str))); [|lia].
  destruct (Z.leb_spec 2 (len (non_empty_lines_of (lines_of content_str)))); [reflexivity|lia].
Qed.

(** C1 (as amended).  For a buffer that decodes as UTF-8 and has at least two
    non-empty lines (fewer than 2^48, where the float products are compared
    exactly), the content analysis declares CSV exactly when at least 4/5 of
    the non-empty lines contain a comma, the first line has a comma, at least
    7/10 of the lines have the comma count of the first line, and a hint
    holds: the lower-cased filename ends in ".csv", or a keyword occurs in the
    first 200 characters of the lower-cased text, or, in the python-magic
    handler only, the buffer detection of libmagic mentioned csv. *)
Theorem csv_criteria_exact (file_content : pybytes) (content_str filename : pystr)
  (csv_detected_by_magic : bool) :
  decode_utf8 file_content = Ok content_str ->
  2 <= len (non_empty_lines content_str) < 2 ^ 48 ->
  (lambda_function_puremagic.content_analysis unicode_lower filename content_str = true
   <-> 4 * len (non_empty_lines content_str) <= 5 * comma_lines_of (comma_counts content_str)
       /\ 1 <= header_commas_of (comma_counts content_str)
       /\ 7 * len (non_empty_lines content_str)
          <= 10 * consistent_comma_lines_of (comma_counts content_str)
       /\ (filename_hint unicode_lower filename = true
           \/ keyword_hint unicode_lower content_str = true))
  /\
  (lambda_function.content_analysis unicode_lower csv_detected_by_magic filename content_str
   = true
   <-> 4 * len (non_empty_lines content_str) <= 5 * comma_lines_of (comma_counts content_str)
       /\ 1 <= header_commas_of (comma_counts content_str)
       /\ 7 * len (non_empty_lines content_str)
          <= 10 * consistent_comma_lines_of (comma_counts content_str)
       /\ (filename_hint unicode_lower filename = true
           \/ csv_detected_by_magic = true
           \/ keyword_hint unicode_lower content_str = true)).
Proof.
  intros _ Hlines.
  rewrite puremagic_analysis_open, magic_analysis_open by lia.
  unfold lambda_function_puremagic.csv_criteria_met, lambda_function.csv_criteria_met.
  fold (comma_counts content_str).
  rewrite !FloatFacts.ge_times_0_8, !FloatFacts.ge_times_0_7 by lia.
  rewrite !andb_true_iff, !orb_true_iff, !Z.leb_le.
  tauto.
Qed.

(** ** The text branch of both handlers *)

Lemma puremagic_text_branch_decoded st file_content filename content_str :
  decode_utf8 file_content = Ok content_str ->
  lambda_function_puremagic.text_branch unicode_lower st file_content filename
  = Ok (if is_text (snd st)
           && lambda_function_puremagic.content_analysis unicode_lower filename content_str
        then (true, str "text/csv") else st).
Proof.
  intros Hdec. unfold lambda_function_puremagic.text_branch. fold (is_text (snd st)).
  destruct (is_text (snd st)); [|reflexivity].
  unfold lambda_function_puremagic.content_validation. destruct st as [is_csv mime].
  rewrite Hdec. cbn [bind try_except_decode andb].
  destruct (lambda_function_puremagic.content_analysis _ _ _); reflexivity.
Qed.

Lemma puremagic_text_branch_undecoded st file_content filename :
  decodes file_content = false ->
  lambda_function_puremagic.text_branch unicode_lower st file_content filename
  = Ok (if is_text (snd st) then (false, snd st) else st).
Proof.
  intros Hdec. apply decodes_false in Hdec.
  unfold lambda_function_puremagic.text_branch. fold (is_text (snd st)).
  destruct (is_text (snd st)); [|reflexivity].
  unfold lambda_function_puremagic.content_validation. destruct st as [is_csv mime].
  rewrite Hdec. reflexivity.
Qed.

Lemma magic_text_branch_decoded m is_csv mime file_content filename content_str :
  decode_utf8 file_content = Ok content_str ->
  lambda_function.text_branch unicode_lower m (is_csv, mime) file_content filename
  = Ok (if is_text mime
        then (lambda_function.content_analysis unicode_lower
                (fst (lambda_function.alternative_detection unicode_lower m mime))
                filename content_str
              || is_csv,
              snd (lambda_function.alternative_detection unicode_lower m mime))
        else (is_csv, mime)).
Proof.
  intros Hdec. unfold lambda_function.text_branch. fold (is_text mime).
  destruct (is_text mime); [|reflexivity].
  destruct (lambda_function.alternative_detection unicode_lower m mime) as [hint mime'].
  unfold lambda_function.content_validation. rewrite Hdec.
  cbn [bind try_except_decode fst snd].
  destruct (lambda_function.content_analysis _ _ _ _); reflexivity.
Qed.

Lemma magic_text_branch_undecoded m is_csv mime file_content filename :
  decodes file_content = false ->
  lambda_function.text_branch unicode_lower m (is_csv, mime) file_content filename
  = Ok (if is_text mime
        then (false, snd (lambda_function.alternative_detection unicode_lower m mime))
        else (is_csv, mime)).
Proof.
  intros Hdec. apply decodes_false in Hdec.
  unfold lambda_function.text_branch. fold (is_text mime).
  destruct (is_text mime); [|reflexivity].
  destruct (lambda_function.alternative_detection unicode_lower m mime) as [hint mime'].
  unfold lambda_function.content_validation. rewrite Hdec. reflexivity.
Qed.

(** ** The MIME type derived by the puremagic handler *)

Lemma mapped_mimetype_cases detected_type :
  In (lambda_function_puremagic.mapped_mimetype unicode_lower detected_type)
     [str "application/pdf"; str "image/jpeg"; str "image/png"; str "text/plain";
      str "text/html"; str "application/xml"; str "application/json";
      str "application/octet-stream"].
Proof.
  unfold lambda_function_puremagic.mapped_mimetype.
  destruct detected_type as [[|c t]|]; [simpl; tauto| |simpl; tauto].
  repeat match goal with
         | |- context [if ?b then _ else _] => destruct b
         end; simpl; tauto.
Qed.

(** The mapper in closed form. *)
Lemma derived_mimetype_closed_form (detected_type : option pystr) (file_content : pybytes) :
  lambda_function_puremagic.derived_mimetype unicode_lower detected_type file_content
  = Ok (if lambda_function_puremagic.detected detected_type
        then lambda_function_puremagic.mapped_mimetype unicode_lower detected_type
        else if decodes file_content then str "text/plain"
             else str "application/octet-stream").
Proof.
  unfold lambda_function_puremagic.derived_mimetype, lambda_function_puremagic.text_probe.
  destruct (lambda_function_puremagic.detected detected_type); [reflexivity|].
  cbn [negb]. unfold decodes.
  destruct (decode_utf8 file_content) as [s|e] eqn:E; [reflexivity|].
  apply decode_utf8_raises in E. subst e. reflexivity.
Qed.

(** C6 (as amended).  The mapper of the puremagic handler never raises and
    follows the chain label keywords, then UTF-8 probe.  With a detected
    label the MIME type is that of the first keyword group found in the
    lower-cased label, and "application/octet-stream" when no keyword is
    found: the buffer is not probed.  Only without a label (none, or an empty
    one) is the buffer probed for UTF-8: "text/plain" when it decodes,
    "application/octet-stream" when it does not. *)
Theorem derived_mimetype_chain (c : Z) (label : pystr) (file_content : pybytes) :
  lambda_function_puremagic.derived_mimetype unicode_lower (Some (c :: label)) file_content
  = Ok (match keyword_mimetype (lower unicode_lower (c :: label)) with
        | Some mime => mime
        | None => str "application/octet-stream"
        end)
  /\ lambda_function_puremagic.derived_mimetype unicode_lower None file_content
     = Ok (if decodes file_content then str "text/plain"
           else str "application/octet-stream")
  /\ lambda_function_puremagic.derived_mimetype unicode_lower (Some []) file_content
     = Ok (if decodes file_content then str "text/plain"
           else str "application/octet-stream")
  /\ (existsb (contains (lower unicode_lower (c :: label)))
        (concat (map fst label_keywords)) = false ->
      lambda_function_puremagic.derived_mimetype unicode_lower (Some (c :: label))
        file_content
      = Ok (str "application/octet-stream")).
Proof.
  rewrite !derived_mimetype_closed_form.
  change (lambda_function_puremagic.detected (Some (c :: label))) with true.
  cbv iota.
  unfold lambda_function_puremagic.mapped_mimetype, keyword_mimetype, label_keywords.
  set (type_lower := lower unicode_lower (c :: label)).
  cbn [find existsb fst snd option_map concat map app]. rewrite !orb_false_r.
  repeat split;
    repeat match goal with
           | |- context [contains type_lower ?k] => destruct (contains type_lower k)
           end; try reflexivity; cbn [orb]; intros H; try discriminate H; reflexivity.
Qed.

Lemma derived_mimetype_cases detected_type file_content :
  exists mime,
    lambda_function_puremagic.derived_mimetype unicode_lower detected_type file_content
    = Ok mime
    /\ In mime [str "application/pdf"; str "image/jpeg"; str "image/png"; str "text/plain";
                str "text/html"; str "application/xml"; str "application/json";
                str "application/octet-stream"].
Proof.
  rewrite derived_mimetype_closed_form. eexists. split; [reflexivity|].
  destruct (lambda_function_puremagic.detected detected_type).
  - apply mapped_mimetype_cases.
  - destruct (decodes file_content); simpl; tauto.
Qed.

Lemma derived_mimetype_not_csv mime :
  In mime [str "application/pdf"; str "image/jpeg"; str "image/png"; str "text/plain";
           str "text/html"; str "application/xml"; str "application/json";
           str "application/octet-stream"] ->
  existsb (str_eqb mime) csv_mimetypes = false.
Proof.
  simpl. intros H.
  repeat match goal with
         | H : _ \/ _ |- _ => destruct H as [<-|H]
         end; try reflexivity. contradiction.
Qed.

(** The puremagic handler, once the MIME type is derived. *)
Lemma puremagic_handler_unfold p file_content filename mime :
  lambda_function_puremagic.derived_mimetype unicode_lower
    (or_none (lambda_function_puremagic.from_file p)) file_content = Ok mime ->
  lambda_function_puremagic.lambda_handler unicode_lower p file_content filename
  = (st <- lambda_function_puremagic.text_branch unicode_lower
             (existsb (str_eqb mime) csv_mimetypes, mime) file_content filename ;;
     Ok {| lambda_function_puremagic.success := fst st;
           lambda_function_puremagic.message := message_of (fst st);
           lambda_function_puremagic.mimetype := snd st;
           lambda_function_puremagic.filename := filename;
           lambda_function_puremagic.puremagic_details :=
             (or_none (lambda_function_puremagic.from_file p),
              or_none (lambda_function_puremagic.from_string p)) |}).
Proof.
  intros H. unfold lambda_function_puremagic.lambda_handler. rewrite H. reflexivity.
Qed.

(** ** Closed forms of the two handlers *)

Lemma magic_handler_closed_form m file_content filename :
  lambda_function.lambda_handler unicode_lower m file_content filename
  = Ok (let is_csv := existsb (str_eqb (lambda_function.from_file_mime m)) csv_mimetypes in
        let success :=
          if is_text (lambda_function.from_file_mime m) then
            match decode_utf8 file_content with
            | Ok content_str =>
                lambda_function.content_analysis unicode_lower
                  (magic_hint unicode_lower m) filename content_str || is_csv
            | Raise _ => false
            end
          else is_csv in
        {| lambda_function.success := success;
           lambda_function.message := message_of success;
           lambda_function.mimetype := magic_mimetype unicode_lower m;
           lambda_function.filename := filename |}).
Proof.
  unfold lambda_function.lambda_handler, magic_mimetype, magic_hint.
  destruct (decode_utf8 file_content) as [content_str|e] eqn:Hdec.
  - rewrite (magic_text_branch_decoded _ _ _ _ _ _ Hdec).
    destruct (is_text (lambda_function.from_file_mime m)); reflexivity.
  - rewrite magic_text_branch_undecoded by (unfold decodes; rewrite Hdec; reflexivity).
    destruct (is_text (lambda_function.from_file_mime m)); reflexivity.
Qed.

Lemma puremagic_handler_closed_form p file_content filename mime :
  lambda_function_puremagic.derived_mimetype unicode_lower
    (or_none (lambda_function_puremagic.from_file p)) file_content = Ok mime ->
  lambda_function_puremagic.lambda_handler unicode_lower p file_content filename
  = Ok (let st :=
          if is_text mime then
            match decode_utf8 file_content with
            | Ok content_str =>
                if lambda_function_puremagic.content_analysis unicode_lower filename content_str
                then (true, str "text/csv") else (false, mime)
            | Raise _ => (false, mime)
            end
          else (false, mime) in
        {| lambda_function_puremagic.success := fst st;
           lambda_function_puremagic.message := message_of (fst st);
           lambda_function_puremagic.mimetype := snd st;
           lambda_function_puremagic.filename := filename;
           lambda_function_puremagic.puremagic_details :=
             (or_none (lambda_function_puremagic.from_file p),
              or_none (lambda_function_puremagic.from_string p)) |}).
Proof.
  intros Hmime. rewrite (puremagic_handler_unfold _ _ _ _ Hmime).
  destruct (derived_mimetype_cases (or_none (lambda_function_puremagic.from_file p)) file_content)
    as (mime' & Hmime' & Hin).
  rewrite Hmime in Hmime'. injection Hmime' as <-.
  rewrite (derived_mimetype_not_csv mime Hin).
  destruct (decode_utf8 file_content) as [content_str|e] eqn:Hdec.
  - rewrite (puremagic_text_branch_decoded _ _ _ _ Hdec). cbn [snd bind].
    destruct (is_text mime); [|reflexivity].
    destruct (lambda_function_puremagic.content_analysis _ _ _); reflexivity.
  - rewrite puremagic_text_branch_undecoded by (unfold decodes; rewrite Hdec; reflexivity).
    cbn [snd bind]. destruct (is_text mime); reflexivity.
Qed.

Lemma starts_with_text_is_text mime :
  startswith mime (str "text/") = true -> is_text mime = true.
Proof. unfold is_text. intros ->. apply orb_true_r. Qed.

(** In the puremagic handler a content analysis that succeeds sets both
    [is_csv] and the MIME type. *)
Lemma puremagic_overrides_mimetype p file_content filename mime content_str :
  lambda_function_puremagic.derived_mimetype unicode_lower
    (or_none (lambda_function_puremagic.from_file p)) file_content = Ok mime ->
  startswith mime (str "text/") = true ->
  decode_utf8 file_content = Ok content_str ->
  lambda_function_puremagic.content_analysis unicode_lower filename content_str = true ->
  puremagic_verdict
    (lambda_function_puremagic.lambda_handler unicode_lower p file_content filename)
  = Ok (true, str "text/csv").
Proof.
  intros Hmime Htext Hdec Hcsv.
  rewrite (puremagic_handler_closed_form _ _ _ _ Hmime).
  rewrite (starts_with_text_is_text _ Htext), Hdec, Hcsv. reflexivity.
Qed.

(** In the python-magic handler it sets [is_csv] only: the MIME type stays
    the one the detection left. *)
Lemma magic_keeps_mimetype m file_content filename content_str :
  startswith (lambda_function.from_file_mime m) (str "text/") = true ->
  decode_utf8 file_content = Ok content_str ->
  lambda_function.content_analysis unicode_lower (magic_hint unicode_lower m)
    filename content_str = true ->
  lambda_function.lambda_handler unicode_lower m file_content filename
  = Ok {| lambda_function.success := true;
          lambda_function.message := message_of true;
          lambda_function.mimetype := magic_mimetype unicode_lower m;
          lambda_function.filename := filename |}.
Proof.
  intros Htext Hdec Hcsv. rewrite magic_handler_closed_form.
  rewrite (starts_with_text_is_text _ Htext), Hdec, Hcsv. reflexivity.
Qed.

(** The python-magic handler's MIME type once the detection is over: in the
    text branch the buffer detection decides, outside it the file's type
    stands. *)
Lemma magic_mimetype_override m :
  is_text (lambda_function.from_file_mime m) = true ->
  magic_mimetype unicode_lower m
  = if magic_hint unicode_lower m then str "text/csv"
    else lambda_function.from_file_mime m.
Proof.
  intros Htext. unfold magic_mimetype, magic_hint. rewrite Htext.
  unfold lambda_function.alternative_detection.
  destruct (lambda_function.alternative m) as [probe|e]; [|reflexivity].
  destruct (_ || _); reflexivity.
Qed.

Lemma magic_mimetype_explicit m :
  magic_mimetype unicode_lower m
  = if is_text (lambda_function.from_file_mime m) && magic_hint unicode_lower m
    then str "text/csv" else lambda_function.from_file_mime m.
Proof.
  destruct (is_text (lambda_function.from_file_mime m)) eqn:Htext.
  - rewrite (magic_mimetype_override m Htext). reflexivity.
  - unfold magic_mimetype. rewrite Htext. reflexivity.
Qed.

(** What the buffer detection finds, in terms of libmagic's report. *)
Lemma magic_hint_of_probe m probe :
  lambda_function.alternative m = Ok probe ->
  magic_hint unicode_lower m
  = contains (lower unicode_lower (lambda_function.buffer_mime probe)) (str "csv")
    || contains (lower unicode_lower (lambda_function.buffer_desc probe)) (str "csv").
Proof.
  intros Hprobe. unfold magic_hint, lambda_function.alternative_detection.
  rewrite Hprobe. destruct (_ || _); reflexivity.
Qed.

(** C3 (as amended).  When libmagic reports one of the three CSV MIME types
    for the file, the verdict does not depend on the lines and commas of the
    content.  For "application/csv" the content analysis is skipped and
    [is_csv] is true.  "text/csv" and "text/comma-separated-values" begin with
    "text/", so the text branch runs: [is_csv] is true when the bytes decode
    as UTF-8 and false when they do not.  The MIME type is the one the
    detection left.  The puremagic handler never derives one of the three
    types. *)
Theorem csv_signature_verdict (m : lambda_function.magic_runs)
  (p : lambda_function_puremagic.puremagic_runs) (file_content : pybytes)
  (filename : pystr) :
  existsb (str_eqb (lambda_function.from_file_mime m)) csv_mimetypes = true ->
  lambda_function.lambda_handler unicode_lower m file_content filename
  = Ok (let success :=
          str_eqb (lambda_function.from_file_mime m) (str "application/csv")
          || decodes file_content in
        {| lambda_function.success := success;
           lambda_function.message := message_of success;
           lambda_function.mimetype := magic_mimetype unicode_lower m;
           lambda_function.filename := filename |})
  /\ is_text (lambda_function.from_file_mime m)
     = negb (str_eqb (lambda_function.from_file_mime m) (str "application/csv"))
  /\ match lambda_function_puremagic.derived_mimetype unicode_lower
             (or_none (lambda_function_puremagic.from_file p)) file_content with
     | Ok mime => existsb (str_eqb mime) csv_mimetypes = false
     | Raise _ => False
     end.
Proof.
  intros Hcsv.
  assert (Hm : lambda_function.from_file_mime m = str "text/csv"
               \/ lambda_function.from_file_mime m = str "application/csv"
               \/ lambda_function.from_file_mime m = str "text/comma-separated-values").
  { simpl in Hcsv. rewrite !orb_true_iff, !str_eqb_eq in Hcsv.
    destruct Hcsv as [H|[H|[H|H]]]; try discriminate H; tauto. }
  split; [|split].
  - rewrite magic_handler_closed_form. rewrite Hcsv. unfold decodes.
    destruct Hm as [H|[H|H]]; rewrite H;
      [change (is_text (str "text/csv")) with true;
       change (str_eqb (str "text/csv") (str "application/csv")) with false
      |change (is_text (str "application/csv")) with false;
       change (str_eqb (str "application/csv") (str "application/csv")) with true
      |change (is_text (str "text/comma-separated-values")) with true;
       change (str_eqb (str "text/comma-separated-values") (str "application/csv")) with false];
      cbv beta iota zeta;
      destruct (decode_utf8 file_content); rewrite ?orb_true_r; reflexivity.
  - destruct Hm as [H|[H|H]]; rewrite H; reflexivity.
  - destruct (derived_mimetype_cases (or_none (lambda_function_puremagic.from_file p)) file_content)
      as (mime & -> & Hin).
    apply derived_mimetype_not_csv. exact Hin.
Qed.

(** C4 (as amended).  When the MIME type begins with "text/" and the bytes
    do not decode as UTF-8, both handlers answer normally, with [is_csv]
    false, and the decode failure leaves the MIME type as it is: in the
    puremagic handler the type the mapper derived, in the python-magic handler
    libmagic's type for the file, or "text/csv" when the buffer detection
    mentioned csv, which line 170 had written before the decoding. *)
Theorem decode_failure_absorbed (m : lambda_function.magic_runs)
  (p : lambda_function_puremagic.puremagic_runs) (file_content : pybytes)
  (filename mime : pystr) :
  decodes file_content = false ->
  startswith (lambda_function.from_file_mime m) (str "text/") = true ->
  lambda_function_puremagic.derived_mimetype unicode_lower
    (or_none (lambda_function_puremagic.from_file p)) file_content = Ok mime ->
  startswith mime (str "text/") = true ->
  lambda_function.lambda_handler unicode_lower m file_content filename
  = Ok {| lambda_function.success := false;
          lambda_function.message := message_of false;
          lambda_function.mimetype :=
            if magic_hint unicode_lower m then str "text/csv"
            else lambda_function.from_file_mime m;
          lambda_function.filename := filename |}
  /\ lambda_function_puremagic.lambda_handler unicode_lower p file_content filename
     = Ok {| lambda_function_puremagic.success := false;
             lambda_function_puremagic.message := message_of false;
             lambda_function_puremagic.mimetype := mime;
             lambda_function_puremagic.filename := filename;
             lambda_function_puremagic.puremagic_details :=
               (or_none (lambda_function_puremagic.from_file p),
                or_none (lambda_function_puremagic.from_string p)) |}.
Proof.
  intros Hdec Hm Hmime Htext. apply decodes_false in Hdec. split.
  - rewrite magic_handler_closed_form.
    rewrite (starts_with_text_is_text _ Hm), Hdec.
    rewrite (magic_mimetype_override m (starts_with_text_is_text _ Hm)). reflexivity.
  - rewrite (puremagic_handler_closed_form _ _ _ _ Hmime).
    rewrite (starts_with_text_is_text _ Htext), Hdec. reflexivity.
Qed.

(** C5 (as amended).  For the empty buffer and any filename both handlers
    answer normally and the content analysis does not fire.  The puremagic
    handler reports [is_csv] false whatever puremagic says; its MIME type is
    "text/plain" when no label is detected (the empty buffer decodes as
    UTF-8), and the type mapped from the label otherwise.  The python-magic
    handler reports [is_csv] true only if libmagic's type for the file is a
    CSV type, and that type as the MIME type ("text/csv" instead when the
    type is textual and the buffer detection mentions csv); for
    "inode/x-empty", libmagic's type of an empty file, that is [is_csv] false
    and "inode/x-empty". *)
Theorem empty_buffer_verdict (m : lambda_function.magic_runs)
  (p : lambda_function_puremagic.puremagic_runs) (filename : pystr) :
  lambda_function_puremagic.lambda_handler unicode_lower p [] filename
  = Ok {| lambda_function_puremagic.success := false;
          lambda_function_puremagic.message := message_of false;
          lambda_function_puremagic.mimetype :=
            if lambda_function_puremagic.detected
                 (or_none (lambda_function_puremagic.from_file p))
            then lambda_function_puremagic.mapped_mimetype unicode_lower
                   (or_none (lambda_function_puremagic.from_file p))
            else str "text/plain";
          lambda_function_puremagic.filename := filename;
          lambda_function_puremagic.puremagic_details :=
            (or_none (lambda_function_puremagic.from_file p),
             or_none (lambda_function_puremagic.from_string p)) |}
  /\ lambda_function.lambda_handler unicode_lower m [] filename
     = Ok (let is_csv := existsb (str_eqb (lambda_function.from_file_mime m)) csv_mimetypes in
           {| lambda_function.success := is_csv;
              lambda_function.message := message_of is_csv;
              lambda_function.mimetype :=
                if is_text (lambda_function.from_file_mime m) && magic_hint unicode_lower m
                then str "text/csv" else lambda_function.from_file_mime m;
              lambda_function.filename := filename |})
  /\ (lambda_function.from_file_mime m = str "inode/x-empty" ->
      lambda_function.lambda_handler unicode_lower m [] filename
      = Ok {| lambda_function.success := false;
              lambda_function.message := message_of false;
              lambda_function.mimetype := str "inode/x-empty";
              lambda_function.filename := filename |}).
Proof.
  assert (Hmagic :
            lambda_function.lambda_handler unicode_lower m [] filename
            = Ok (let is_csv :=
                    existsb (str_eqb (lambda_function.from_file_mime m)) csv_mimetypes in
                  {| lambda_function.success := is_csv;
                     lambda_function.message := message_of is_csv;
                     lambda_function.mimetype :=
                       if is_text (lambda_function.from_file_mime m)
                          && magic_hint unicode_lower m
                       then str "text/csv" else lambda_function.from_file_mime m;
                     lambda_function.filename := filename |})).
  { rewrite magic_handler_closed_form, magic_mimetype_explicit.
    change (decode_utf8 []) with (Ok (@nil Z)).
    change (lambda_function.content_analysis unicode_lower (magic_hint unicode_lower m)
              filename []) with false.
    cbv beta iota zeta. rewrite orb_false_l.
    destruct (is_text (lambda_function.from_file_mime m)); reflexivity. }
  split; [|split; [exact Hmagic|]].
  - clear Hmagic.
    destruct (derived_mimetype_cases (or_none (lambda_function_puremagic.from_file p)) [])
      as (mime & Hmime & _).
    rewrite (puremagic_handler_closed_form p [] filename mime Hmime).
    rewrite derived_mimetype_closed_form in Hmime.
    change (decodes []) with true in Hmime. cbv iota in Hmime.
    injection Hmime as <-.
    change (decode_utf8 []) with (Ok (@nil Z)).
    change (lambda_function_puremagic.content_analysis unicode_lower filename []) with false.
    cbv beta iota zeta.
    destruct (is_text _); reflexivity.
  - intros Hempty. rewrite Hmagic, Hempty. reflexivity.
Qed.

(** C8 (as amended).  In the puremagic handler the buffer detection
    ([from_string]) never affects [is_csv] or the MIME type: two runs with the
    same file detection agree on both.  In the python-magic handler the
    human-readable description of the file and the detected encoding never
    affect the response, so two runs agree when libmagic's MIME type for the
    file and its MIME type and description for the buffer are the same.  The
    buffer detection does decide: when the file's type is textual and the
    buffer's MIME type or description mentions csv, the MIME type of the
    response is "text/csv", the hint of the content analysis is met, and
    [is_csv] is what the three counts of the analysis say (or libmagic's own
    CSV type), provided the bytes decode. *)
Theorem diagnostics_do_not_decide (m m' : lambda_function.magic_runs)
  (p p' : lambda_function_puremagic.puremagic_runs) (file_content : pybytes)
  (filename : pystr) :
  lambda_function_puremagic.from_file p = lambda_function_puremagic.from_file p' ->
  lambda_function.from_file_mime m = lambda_function.from_file_mime m' ->
  same_buffer_match (lambda_function.alternative m) (lambda_function.alternative m') ->
  puremagic_verdict
    (lambda_function_puremagic.lambda_handler unicode_lower p file_content filename)
  = puremagic_verdict
      (lambda_function_puremagic.lambda_handler unicode_lower p' file_content filename)
  /\ lambda_function.lambda_handler unicode_lower m file_content filename
     = lambda_function.lambda_handler unicode_lower m' file_content filename
  /\ (forall probe,
        is_text (lambda_function.from_file_mime m) = true ->
        lambda_function.alternative m = Ok probe ->
        contains (lower unicode_lower (lambda_function.buffer_mime probe)) (str "csv")
        || contains (lower unicode_lower (lambda_function.buffer_desc probe)) (str "csv")
        = true ->
        exists b,
          lambda_function.lambda_handler unicode_lower m file_content filename = Ok b
          /\ lambda_function.mimetype b = str "text/csv"
          /\ lambda_function.success b
             = match decode_utf8 file_content with
               | Ok content_str =>
                   let counts := comma_counts content_str in
                   let total_lines := len (non_empty_lines content_str) in
                   (2 <=? len (lines_of content_str))
                   && (2 <=? total_lines)
                   && int_ge_float (comma_lines_of counts)
                        (float_mul (float_of_int total_lines) lit_0_8)
                   && (1 <=? header_commas_of counts)
                   && int_ge_float (consistent_comma_lines_of counts)
                        (float_mul (float_of_int total_lines) lit_0_7)
                   || existsb (str_eqb (lambda_function.from_file_mime m)) csv_mimetypes
               | Raise _ => false
               end).
Proof.
  intros Hp Hm Halt. split; [|split].
  - destruct (derived_mimetype_cases (or_none (lambda_function_puremagic.from_file p)) file_content)
      as (mime & Hmime & _).
    rewrite (puremagic_handler_closed_form p _ _ _ Hmime).
    rewrite Hp in Hmime.
    rewrite (puremagic_handler_closed_form p' _ _ _ Hmime).
    reflexivity.
  - assert (Hdet : forall mime,
               lambda_function.alternative_detection unicode_lower m mime
               = lambda_function.alternative_detection unicode_lower m' mime).
    { intros mime. unfold lambda_function.alternative_detection.
      unfold same_buffer_match in Halt.
      destruct (lambda_function.alternative m) as [a|e],
               (lambda_function.alternative m') as [a'|e']; try contradiction.
      - destruct Halt as [-> ->]. reflexivity.
      - reflexivity. }
    rewrite !magic_handler_closed_form. unfold magic_hint, magic_mimetype.
    rewrite Hm, !Hdet. reflexivity.
  - intros probe Htext Hprobe Hcsv.
    rewrite magic_handler_closed_form. eexists. split; [reflexivity|].
    cbn [lambda_function.mimetype lambda_function.success].
    rewrite (magic_mimetype_override m Htext), (magic_hint_of_probe m probe Hprobe), Hcsv.
    split; [reflexivity|]. rewrite Htext.
    destruct (decode_utf8 file_content) as [content_str|e]; [|reflexivity].
    f_equal.
    unfold lambda_function.content_analysis, lambda_function.csv_criteria_met,
      comma_counts, non_empty_lines.
    destruct (2 <=? len (lines_of content_str)); [|reflexivity].
    destruct (2 <=? len (non_empty_lines_of (lines_of content_str))); [|reflexivity].
    cbn [andb]. rewrite orb_true_r, andb_true_r. reflexivity.
Qed.

(** C9.  A decoded text with fewer than two non-empty lines never passes the
    content analysis, whatever the filename: the puremagic handler answers
    [is_csv] false, and the python-magic handler answers true only if libmagic
    itself reported a CSV MIME type. *)
Theorem too_few_lines (m : lambda_function.magic_runs)
  (p : lambda_function_puremagic.puremagic_runs) (file_content : pybytes)
  (content_str filename : pystr) (csv_detected_by_magic : bool) :
  decode_utf8 file_content = Ok content_str ->
  len (non_empty_lines content_str) < 2 ->
  lambda_function_puremagic.content_analysis unicode_lower filename content_str = false
  /\ lambda_function.content_analysis unicode_lower csv_detected_by_magic filename content_str
     = false
  /\ (exists b,
        lambda_function_puremagic.lambda_handler unicode_lower p file_content filename = Ok b
        /\ lambda_function_puremagic.success b = false)
  /\ (exists b,
        lambda_function.lambda_handler unicode_lower m file_content filename = Ok b
        /\ lambda_function.success b
           = existsb (str_eqb (lambda_function.from_file_mime m)) csv_mimetypes).
Proof.
  intros Hdec Hfew. split; [|split; [|split]].
  - apply puremagic_analysis_gated. exact Hfew.
  - apply magic_analysis_gated. exact Hfew.
  - destruct (derived_mimetype_cases (or_none (lambda_function_puremagic.from_file p)) file_content)
      as (mime & Hmime & _).
    rewrite (puremagic_handler_closed_form _ _ _ _ Hmime), Hdec.
    rewrite (puremagic_analysis_gated _ _ Hfew).
    eexists. split; [reflexivity|]. destruct (is_text mime); reflexivity.
  - rewrite magic_handler_closed_form, Hdec. rewrite (magic_analysis_gated _ _ _ Hfew).
    eexists. split; [reflexivity|]. cbn. destruct (is_text _); reflexivity.
Qed.

(** C10.  On bytes that decode as UTF-8 the content validation of both
    handlers leaves [is_csv] at least as true as it found it: the result is
    the old value or-ed with the outcome of the content analysis, so a true
    [is_csv] stays true, and so it does through the whole text branch.  (The
    assignment [is_csv = False] sits in the handler of the decoding error.) *)
Theorem content_validation_monotone (m : lambda_function.magic_runs)
  (file_content : pybytes) (content_str filename mime : pystr)
  (is_csv csv_detected_by_magic : bool) :
  decode_utf8 file_content = Ok content_str ->
  (exists st,
      lambda_function_puremagic.content_validation unicode_lower (is_csv, mime)
        file_content filename = Ok st
      /\ fst st
         = (lambda_function_puremagic.content_analysis unicode_lower filename content_str
            || is_csv)
      /\ Bool.le is_csv (fst st))
  /\ (exists is_csv',
        lambda_function.content_validation unicode_lower is_csv csv_detected_by_magic
          file_content filename = Ok is_csv'
        /\ is_csv'
           = (lambda_function.content_analysis unicode_lower csv_detected_by_magic
                filename content_str || is_csv)
        /\ Bool.le is_csv is_csv')
  /\ (exists st,
        lambda_function_puremagic.text_branch unicode_lower (is_csv, mime)
          file_content filename = Ok st
        /\ Bool.le is_csv (fst st))
  /\ (exists st,
        lambda_function.text_branch unicode_lower m (is_csv, mime)
          file_content filename = Ok st
        /\ Bool.le is_csv (fst st)).
Proof.
  intros Hdec. split; [|split; [|split]].
  - unfold lambda_function_puremagic.content_validation. rewrite Hdec.
    cbn [bind try_except_decode]. eexists. split; [reflexivity|].
    destruct (lambda_function_puremagic.content_analysis _ _ _), is_csv; repeat split.
  - unfold lambda_function.content_validation. rewrite Hdec.
    cbn [bind try_except_decode]. eexists. split; [reflexivity|].
    destruct (lambda_function.content_analysis _ _ _ _), is_csv; repeat split.
  - rewrite (puremagic_text_branch_decoded _ _ _ _ Hdec). eexists. split; [reflexivity|].
    destruct (_ && _), is_csv; exact I || reflexivity.
  - rewrite (magic_text_branch_decoded _ _ _ _ _ _ Hdec). eexists. split; [reflexivity|].
    destruct (is_text mime); cbn [fst];
      [destruct (lambda_function.content_analysis _ _ _ _)|];
      destruct is_csv; exact I || reflexivity.
Qed.

End Claims.

(** ** The handlers on sample requests *)

(** The sample of the specification in the puremagic handler: a CSV verdict
    and the MIME type "text/csv". *)
Lemma puremagic_three_rows :
  lambda_function_puremagic.lambda_handler keep_code_point puremagic_nothing
    three_rows (str "data.csv")
  = Ok {| lambda_function_puremagic.success := true;
          lambda_function_puremagic.message := str "File is a valid CSV";
          lambda_function_puremagic.mimetype := str "text/csv";
          lambda_function_puremagic.filename := str "data.csv";
          lambda_function_puremagic.puremagic_details := (None, None) |}.
Proof. vm_compute. reflexivity. Qed.

(** C2.  The python-magic handler on the sample of the specification, with a
    libmagic that reports plain text: the MIME type begins with "text/", the
    content analysis succeeds and [is_csv] is true, but the MIME type of the
    response is still "text/plain", not "text/csv". *)
Theorem magic_three_rows_keeps_text_plain :
  startswith (lambda_function.from_file_mime magic_plain) (str "text/") = true
  /\ lambda_function.content_analysis keep_code_point
       (magic_hint keep_code_point magic_plain) (str "data.csv") (str three_rows_text)
     = true
  /\ lambda_function.lambda_handler keep_code_point magic_plain three_rows (str "data.csv")
     = Ok {| lambda_function.success := true;
             lambda_function.message := str "File is a valid CSV";
             lambda_function.mimetype := str "text/plain";
             lambda_function.filename := str "data.csv" |}.
Proof. vm_compute. repeat split. Qed.

(** C1 as stated fails in the python-magic handler: with a libmagic that
    detects CSV, a table passes the content analysis although its filename
    does not end in ".csv" and its text holds none of the keywords. *)
Lemma csv_criteria_magic_hint_counterexample :
  is_text (lambda_function.from_file_mime magic_csv) = true
  /\ decode_utf8 plain_table = Ok (str plain_table_text)
  /\ 2 <= len (non_empty_lines (str plain_table_text))
  /\ lambda_function.content_analysis keep_code_point
       (magic_hint keep_code_point magic_csv) (str "table.txt") (str plain_table_text)
     = true
  /\ filename_hint keep_code_point (str "table.txt") = false
  /\ keyword_hint keep_code_point (str plain_table_text) = false.
Proof. vm_compute. repeat split; discriminate. Qed.

(** C3 as stated fails in the python-magic handler: libmagic reports
    "text/csv" for a Latin-1 table, the bytes are not UTF-8, and the verdict
    is not CSV. *)
Lemma csv_signature_latin1_counterexample :
  existsb (str_eqb (lambda_function.from_file_mime magic_csv_latin1)) csv_mimetypes = true
  /\ decodes latin1_table = false
  /\ lambda_function.lambda_handler keep_code_point magic_csv_latin1 latin1_table
       (str "export.csv")
     = Ok {| lambda_function.success := false;
             lambda_function.message := str "File is not a valid CSV";
             lambda_function.mimetype := str "text/csv";
             lambda_function.filename := str "export.csv" |}.
Proof. vm_compute. repeat split. Qed.

(** C4 as stated fails in the python-magic handler: of a file whose first
    1024 bytes look like CSV to libmagic and whose later bytes are Latin-1,
    the type derived for the file is "text/plain", the bytes do not decode,
    and the response carries "text/csv" with [is_csv] false. *)
Lemma decode_failure_after_override_counterexample :
  lambda_function.from_file_mime magic_latin1_buffer_csv = str "text/plain"
  /\ (1024 < len wide_table_latin1)
  /\ decodes wide_table_latin1 = false
  /\ lambda_function.lambda_handler keep_code_point magic_latin1_buffer_csv
       wide_table_latin1 (str "notes.txt")
     = Ok {| lambda_function.success := false;
             lambda_function.message := str "File is not a valid CSV";
             lambda_function.mimetype := str "text/csv";
             lambda_function.filename := str "notes.txt" |}
  /\ str "text/csv" <> str "text/plain".
Proof. repeat split; try (vm_compute; reflexivity); discriminate. Qed.

(** C5 as stated fails in both handlers: the empty buffer is reported as
    "text/plain" by the puremagic handler and as "inode/x-empty" by the
    python-magic handler, not as "application/octet-stream". *)
Lemma empty_buffer_counterexample :
  lambda_function_puremagic.lambda_handler keep_code_point puremagic_empty_input
    [] (str "empty.csv")
  = Ok {| lambda_function_puremagic.success := false;
          lambda_function_puremagic.message := str "File is not a valid CSV";
          lambda_function_puremagic.mimetype := str "text/plain";
          lambda_function_puremagic.filename := str "empty.csv";
          lambda_function_puremagic.puremagic_details := (None, None) |}
  /\ str "text/plain" <> str "application/octet-stream"
  /\ lambda_function.lambda_handler keep_code_point magic_empty_file [] (str "empty.csv")
     = Ok {| lambda_function.success := false;
             lambda_function.message := str "File is not a valid CSV";
             lambda_function.mimetype := str "inode/x-empty";
             lambda_function.filename := str "empty.csv" |}
  /\ str "inode/x-empty" <> str "application/octet-stream".
Proof. repeat split; try (vm_compute; reflexivity); discriminate. Qed.

(** C6 as stated fails: for a detected label that matches no keyword the
    buffer is not probed; a GIF header decodes as UTF-8 and is still mapped
    to "application/octet-stream". *)
Lemma unmapped_label_counterexample :
  lambda_function_puremagic.detected
    (or_none (lambda_function_puremagic.from_file puremagic_gif)) = true
  /\ decodes gif_header = true
  /\ lambda_function_puremagic.derived_mimetype keep_code_point
       (or_none (lambda_function_puremagic.from_file puremagic_gif)) gif_header
     = Ok (str "application/octet-stream")
  /\ str "application/octet-stream" <> str "text/plain".
Proof. repeat split; try (vm_compute; reflexivity); discriminate. Qed.

(** C8 as stated fails in the python-magic handler: two runs on the same
    bytes and filename that differ only in what libmagic reports for the
    first 1024 bytes end in different verdicts.  The file is longer than the
    sample: a libmagic with the CSV test calls the sample CSV and the file
    plain text, a libmagic without it calls both plain text. *)
Lemma buffer_match_counterexample :
  lambda_function.from_file_mime magic_plain
  = lambda_function.from_file_mime magic_plain_buffer_csv
  /\ lambda_function.from_file_kind magic_plain
     = lambda_function.from_file_kind magic_plain_buffer_csv
  /\ (1024 < len wide_table)
  /\ decode_utf8 wide_table = Ok wide_table_text
  /\ lambda_function.lambda_handler keep_code_point magic_plain wide_table (str "notes.txt")
     = Ok {| lambda_function.success := false;
             lambda_function.message := str "File is not a valid CSV";
             lambda_function.mimetype := str "text/plain";
             lambda_function.filename := str "notes.txt" |}
  /\ lambda_function.lambda_handler keep_code_point magic_plain_buffer_csv wide_table
       (str "notes.txt")
     = Ok {| lambda_function.success := true;
             lambda_function.message := str "File is a valid CSV";
             lambda_function.mimetype := str "text/csv";
             lambda_function.filename := str "notes.txt" |}.
Proof. repeat split; vm_compute; reflexivity. Qed.

(** ** The properties on sample requests *)

Lemma csv_criteria_exact_witness :
  decode_utf8 three_rows = Ok (str three_rows_text)
  /\ 2 <= len (non_empty_lines (str three_rows_text)) < 2 ^ 48
  /\ ((lambda_function_puremagic.content_analysis keep_code_point (str "data.csv")
         (str three_rows_text) = true
       <-> 4 * len (non_empty_lines (str three_rows_text))
           <= 5 * comma_lines_of (comma_counts (str three_rows_text))
           /\ 1 <= header_commas_of (comma_counts (str three_rows_text))
           /\ 7 * len (non_empty_lines (str three_rows_text))
              <= 10 * consistent_comma_lines_of (comma_counts (str three_rows_text))
           /\ (filename_hint keep_code_point (str "data.csv") = true
               \/ keyword_hint keep_code_point (str three_rows_text) = true))
      /\
      (lambda_function.content_analysis keep_code_point false (str "data.csv")
         (str three_rows_text) = true
       <-> 4 * len (non_empty_lines (str three_rows_text))
           <= 5 * comma_lines_of (comma_counts (str three_rows_text))
           /\ 1 <= header_commas_of (comma_counts (str three_rows_text))
           /\ 7 * len (non_empty_lines (str three_rows_text))
              <= 10 * consistent_comma_lines_of (comma_counts (str three_rows_text))
           /\ (filename_hint keep_code_point (str "data.csv") = true
               \/ false = true
               \/ keyword_hint keep_code_point (str three_rows_text) = true))).
Proof.
  assert (H1 : decode_utf8 three_rows = Ok (str three_rows_text))
    by (vm_compute; reflexivity).
  assert (H2 : 2 <= len (non_empty_lines (str three_rows_text)) < 2 ^ 48)
    by (vm_compute; split; [discriminate|reflexivity]).
  exact (conj H1 (conj H2
           (csv_criteria_exact keep_code_point three_rows (str three_rows_text)
              (str "data.csv") false H1 H2))).
Defined.

Lemma csv_signature_verdict_witness :
  existsb (str_eqb (lambda_function.from_file_mime magic_csv)) csv_mimetypes = true
  /\ (lambda_function.lambda_handler keep_code_point magic_csv plain_table (str "table.txt")
      = Ok (let success :=
              str_eqb (lambda_function.from_file_mime magic_csv) (str "application/csv")
              || decodes plain_table in
            {| lambda_function.success := success;
               lambda_function.message := message_of success;
               lambda_function.mimetype := magic_mimetype keep_code_point magic_csv;
               lambda_function.filename := str "table.txt" |})
      /\ is_text (lambda_function.from_file_mime magic_csv)
         = negb (str_eqb (lambda_function.from_file_mime magic_csv) (str "application/csv"))
      /\ match lambda_function_puremagic.derived_mimetype keep_code_point
                 (or_none (lambda_function_puremagic.from_file puremagic_nothing))
                 plain_table with
         | Ok mime => existsb (str_eqb mime) csv_mimetypes = false
         | Raise _ => False
         end).
Proof.
  assert (H1 : existsb (str_eqb (lambda_function.from_file_mime magic_csv)) csv_mimetypes
               = true) by (vm_compute; reflexivity).
  exact (conj H1
           (csv_signature_verdict keep_code_point magic_csv puremagic_nothing
              plain_table (str "table.txt") H1)).
Defined.

Lemma decode_failure_absorbed_witness :
  decodes latin1_table = false
  /\ startswith (lambda_function.from_file_mime magic_csv_latin1) (str "text/") = true
  /\ lambda_function_puremagic.derived_mimetype keep_code_point
       (or_none (lambda_function_puremagic.from_file puremagic_html)) latin1_table
     = Ok (str "text/html")
  /\ startswith (str "text/html") (str "text/") = true
  /\ (lambda_function.lambda_handler keep_code_point magic_csv_latin1 latin1_table
        (str "export.csv")
      = Ok {| lambda_function.success := false;
              lambda_function.message := message_of false;
              lambda_function.mimetype :=
                if magic_hint keep_code_point magic_csv_latin1 then str "text/csv"
                else lambda_function.from_file_mime magic_csv_latin1;
              lambda_function.filename := str "export.csv" |}
      /\ lambda_function_puremagic.lambda_handler keep_code_point puremagic_html
           latin1_table (str "export.csv")
         = Ok {| lambda_function_puremagic.success := false;
                 lambda_function_puremagic.message := message_of false;
                 lambda_function_puremagic.mimetype := str "text/html";
                 lambda_function_puremagic.filename := str "export.csv";
                 lambda_function_puremagic.puremagic_details :=
                   (or_none (lambda_function_puremagic.from_file puremagic_html),
                    or_none (lambda_function_puremagic.from_string puremagic_html)) |}).
Proof.
  assert (H1 : decodes latin1_table = false) by (vm_compute; reflexivity).
  assert (H2 : startswith (lambda_function.from_file_mime magic_csv_latin1) (str "text/")
               = true) by (vm_compute; reflexivity).
  assert (H3 : lambda_function_puremagic.derived_mimetype keep_code_point
                 (or_none (lambda_function_puremagic.from_file puremagic_html)) latin1_table
               = Ok (str "text/html")) by (vm_compute; reflexivity).
  assert (H4 : startswith (str "text/html") (str "text/") = true)
    by (vm_compute; reflexivity).
  exact (conj H1 (conj H2 (conj H3 (conj H4
           (decode_failure_absorbed keep_code_point magic_csv_latin1 puremagic_html
              latin1_table (str "export.csv") (str "text/html") H1 H2 H3 H4))))).
Defined.

Lemma diagnostics_do_not_decide_witness :
  lambda_function_puremagic.from_file puremagic_nothing
  = lambda_function_puremagic.from_file puremagic_buffer_only
  /\ lambda_function.from_file_mime magic_plain_buffer_csv
     = lambda_function.from_file_mime magic_wide_buffer_csv
  /\ same_buffer_match (lambda_function.alternative magic_plain_buffer_csv)
       (lambda_function.alternative magic_wide_buffer_csv)
  /\ (puremagic_verdict
        (lambda_function_puremagic.lambda_handler keep_code_point puremagic_nothing
           wide_table (str "notes.txt"))
      = puremagic_verdict
          (lambda_function_puremagic.lambda_handler keep_code_point puremagic_buffer_only
             wide_table (str "notes.txt"))
      /\ lambda_function.lambda_handler keep_code_point magic_plain_buffer_csv wide_table
           (str "notes.txt")
         = lambda_function.lambda_handler keep_code_point magic_wide_buffer_csv wide_table
             (str "notes.txt")
      /\ (forall probe,
            is_text (lambda_function.from_file_mime magic_plain_buffer_csv) = true ->
            lambda_function.alternative magic_plain_buffer_csv = Ok probe ->
            contains (lower keep_code_point (lambda_function.buffer_mime probe)) (str "csv")
            || contains (lower keep_code_point (lambda_function.buffer_desc probe))
                 (str "csv")
            = true ->
            exists b,
              lambda_function.lambda_handler keep_code_point magic_plain_buffer_csv
                wide_table (str "notes.txt") = Ok b
              /\ lambda_function.mimetype b = str "text/csv"
              /\ lambda_function.success b
                 = match decode_utf8 wide_table with
                   | Ok content_str =>
                       let counts := comma_counts content_str in
                       let total_lines := len (non_empty_lines content_str) in
                       (2 <=? len (lines_of content_str))
                       && (2 <=? total_lines)
                       && int_ge_float (comma_lines_of counts)
                            (float_mul (float_of_int total_lines) lit_0_8)
                       && (1 <=? header_commas_of counts)
                       && int_ge_float (consistent_comma_lines_of counts)
                            (float_mul (float_of_int total_lines) lit_0_7)
                       || existsb
                            (str_eqb (lambda_function.from_file_mime magic_plain_buffer_csv))
                            csv_mimetypes
                   | Raise _ => false
                   end)).
Proof.
  assert (H1 : lambda_function_puremagic.from_file puremagic_nothing
               = lambda_function_puremagic.from_file puremagic_buffer_only) by reflexivity.
  assert (H2 : lambda_function.from_file_mime magic_plain_buffer_csv
               = lambda_function.from_file_mime magic_wide_buffer_csv) by reflexivity.
  assert (H3 : same_buffer_match (lambda_function.alternative magic_plain_buffer_csv)
                 (lambda_function.alternative magic_wide_buffer_csv))
    by (split; reflexivity).
  exact (conj H1 (conj H2 (conj H3
           (diagnostics_do_not_decide keep_code_point magic_plain_buffer_csv
              magic_wide_buffer_csv puremagic_nothing puremagic_buffer_only wide_table
              (str "notes.txt") H1 H2 H3)))).
Defined.

Lemma too_few_lines_witness :
  decode_utf8 header_only = Ok (str header_only_text)
  /\ len (non_empty_lines (str header_only_text)) < 2
  /\ (lambda_function_puremagic.content_analysis keep_code_point (str "header_only.csv")
        (str header_only_text) = false
      /\ lambda_function.content_analysis keep_code_point true (str "header_only.csv")
           (str header_only_text) = false
      /\ (exists b,
            lambda_function_puremagic.lambda_handler keep_code_point puremagic_nothing
              header_only (str "header_only.csv") = Ok b
            /\ lambda_function_puremagic.success b = false)
      /\ (exists b,
            lambda_function.lambda_handler keep_code_point magic_plain header_only
              (str "header_only.csv") = Ok b
            /\ lambda_function.success b
               = existsb (str_eqb (lambda_function.from_file_mime magic_plain))
                   csv_mimetypes)).
Proof.
  assert (H1 : decode_utf8 header_only = Ok (str header_only_text))
    by (vm_compute; reflexivity).
  assert (H2 : len (non_empty_lines (str header_only_text)) < 2)
    by (vm_compute; reflexivity).
  exact (conj H1 (conj H2
           (too_few_lines keep_code_point magic_plain puremagic_nothing header_only
              (str header_only_text) (str "header_only.csv") true H1 H2))).
Defined.

Lemma content_validation_monotone_witness :
  decode_utf8 plain_table = Ok (str plain_table_text)
  /\ ((exists st,
          lambda_function_puremagic.content_validation keep_code_point
            (true, str "text/plain") plain_table (str "table.txt") = Ok st
          /\ fst st
             = (lambda_function_puremagic.content_analysis keep_code_point
                  (str "table.txt") (str plain_table_text) || true)
          /\ Bool.le true (fst st))
      /\ (exists is_csv',
            lambda_function.content_validation keep_code_point true false
              plain_table (str "table.txt") = Ok is_csv'
            /\ is_csv'
               = (lambda_function.content_analysis keep_code_point false
                    (str "table.txt") (str plain_table_text) || true)
            /\ Bool.le true is_csv')
      /\ (exists st,
            lambda_function_puremagic.text_branch keep_code_point
              (true, str "text/plain") plain_table (str "table.txt") = Ok st
            /\ Bool.le true (fst st))
      /\ (exists st,
            lambda_function.text_branch keep_code_point magic_csv
              (true, str "text/plain") plain_table (str "table.txt") = Ok st
            /\ Bool.le true (fst st))).
Proof.
  assert (H1 : decode_utf8 plain_table = Ok (str plain_table_text))
    by (vm_compute; reflexivity).
  exact (conj H1
           (content_validation_monotone keep_code_point magic_csv plain_table
              (str plain_table_text) (str "table.txt") (str "text/plain") true false H1)).
Defined.

(** * Further properties of the handlers *)

(** ** Characters of lines *)

Lemma lstrip_incl s c : In c (lstrip s) -> In c s.
Proof.
  induction s as [|x s IH]; simpl; [tauto|].
  destruct (isspace x); simpl; tauto.
Qed.

Lemma strip_incl s c : In c (strip s) -> In c s.
Proof.
  unfold strip, rstrip. intros H.
  apply lstrip_incl. apply in_rev. apply lstrip_incl. apply in_rev. exact H.
Qed.

Lemma split_lf_incl s l c : In l (split_lf s) -> In c l -> In c s.
Proof.
  revert l. induction s as [|x s IH]; intros l; simpl.
  - intros [<-|[]] [].
  - destruct (x =? 10).
    + intros [<-|Hl] Hc; [destruct Hc|]. right. eapply IH; eassumption.
    + destruct (split_lf s) as [|l0 ls].
      * intros [<-|[]] [->|[]]. left. reflexivity.
      * intros [<-|Hl] Hc.
        -- destruct Hc as [->|Hc]; [left; reflexivity|].
           right. apply (IH l0); [left; reflexivity|exact Hc].
        -- right. apply (IH l); [right; exact Hl|exact Hc].
Qed.

Lemma non_empty_lines_incl content_str line c :
  In line (non_empty_lines content_str) -> In c line -> In c content_str.
Proof.
  unfold non_empty_lines, non_empty_lines_of, lines_of. intros Hl Hc.
  apply in_map_iff in Hl. destruct Hl as (l0 & <- & Hl0).
  apply filter_In in Hl0. destruct Hl0 as [Hl0 _].
  apply strip_incl. eapply split_lf_incl; [exact Hl0|].
  apply strip_incl. exact Hc.
Qed.

Lemma count_commas_none s : ~ In comma s -> count_commas s = 0.
Proof.
  unfold count_commas. intros H.
  replace (filter (fun c => c =? comma) s) with (@nil Z); [reflexivity|].
  symmetry. induction s as [|x s IH]; [reflexivity|]. simpl.
  destruct (Z.eqb_spec x comma) as [->|_].
  - exfalso. apply H. left. reflexivity.
  - apply IH. intros Hin. apply H. right. exact Hin.
Qed.

Lemma header_commas_none content_str :
  ~ In comma content_str -> header_commas_of (comma_counts content_str) = 0.
Proof.
  intros H. unfold header_commas_of, comma_counts, comma_counts_of.
  destruct (non_empty_lines content_str) as [|line rest] eqn:E; [reflexivity|].
  simpl. apply count_commas_none. intros Hc. apply H.
  apply (non_empty_lines_incl content_str line); [rewrite E; left; reflexivity|exact Hc].
Qed.

(** ** Counting lines *)

Lemma filter_all_length {A} (f : A -> bool) l :
  length (filter f l) = length l -> Forall (fun x => f x = true) l.
Proof.
  induction l as [|x l IH]; simpl; intros H; [constructor|].
  pose proof (filter_length_le f l) as Hle.
  destruct (f x) eqn:Hx; simpl in H.
  - constructor; [exact Hx|]. apply IH. lia.
  - lia.
Qed.

Lemma filter_length_all {A} (f : A -> bool) l :
  Forall (fun x => f x = true) l -> length (filter f l) = length l.
Proof.
  induction 1 as [|x l Hx _ IH]; simpl; [reflexivity|].
  rewrite Hx. simpl. f_equal. exact IH.
Qed.

Lemma comma_counts_length content_str :
  len (comma_counts content_str) = len (non_empty_lines content_str).
Proof. unfold comma_counts, comma_counts_of, len. rewrite length_map. reflexivity. Qed.

(** ** Decoding 7-bit buffers *)

Lemma utf8_points_ascii bs :
  Forall (fun b => 0 <= b < 128) bs -> utf8_points bs = Some bs.
Proof.
  induction 1 as [|b bs Hb _ IH]; [reflexivity|].
  cbn [utf8_points]. destruct (Z.ltb_spec b 128); [|lia].
  rewrite IH. reflexivity.
Qed.

Lemma decode_utf8_ascii file_content :
  is_ascii file_content = true ->
  decode_utf8 file_content = Ok (map (fun x => Z.of_N (Byte.to_N x)) file_content).
Proof.
  unfold is_ascii, decode_utf8. intros H. rewrite utf8_points_ascii; [reflexivity|].
  apply Forall_forall. intros z Hz. apply in_map_iff in Hz.
  destruct Hz as (b & <- & Hb).
  rewrite forallb_forall in H. specialize (H b Hb). apply N.ltb_lt in H. lia.
Qed.

(** ** Encoding and decoding *)

Lemma byte_of_value z : 0 <= z < 256 -> Z.of_N (Byte.to_N (byte_of z)) = z.
Proof.
  intros Hz. unfold byte_of.
  destruct (Byte.of_N (Z.to_N z)) as [b|] eqn:E.
  - apply Byte.to_of_N in E. rewrite E. lia.
  - apply Byte.of_N_None_iff in E. lia.
Qed.

Lemma encode_point_bytes c bs :
  encode_point c = Some bs -> Forall (fun b => 0 <= b < 256) bs.
Proof.
  unfold encode_point.
  repeat match goal with
         | |- context [if ?x <? ?y then _ else _] => destruct (Z.ltb_spec x y)
         | |- context [if ?x <=? ?y then _ else _] => destruct (Z.leb_spec x y)
         | |- context [if ?x && ?y then _ else _] => destruct (x && y)
         end;
    intros Henc; try discriminate;
    apply (f_equal (fun o => match o with Some x => x | None => [] end)) in Henc;
    cbv beta iota in Henc; subst bs;
    repeat (apply Forall_nil || apply Forall_cons);
    Z.to_euclidean_division_equations; lia.
Qed.

Ltac euclid := Z.to_euclidean_division_equations; lia.

Ltac settle_test :=
  match goal with
  | |- context [?x =? ?y] =>
      first [ replace (x =? y) with true by (symmetry; apply Z.eqb_eq; euclid)
            | replace (x =? y) with false by (symmetry; apply Z.eqb_neq; euclid)
            | destruct (Z.eqb_spec x y) ]
  | |- context [?x <? ?y] =>
      first [ replace (x <? y) with true by (symmetry; apply Z.ltb_lt; euclid)
            | replace (x <? y) with false by (symmetry; apply Z.ltb_ge; euclid) ]
  | |- context [?x <=? ?y] =>
      first [ replace (x <=? y) with true by (symmetry; apply Z.leb_le; euclid)
            | replace (x <=? y) with false by (symmetry; apply Z.leb_gt; euclid) ]
  end.

Ltac settle_tests := repeat (settle_test; cbn [andb]; cbv iota).

Ltac read_back :=
  match goal with
  | |- option_map (cons ?x) _ = option_map (cons ?c) _ =>
      replace x with c by euclid; reflexivity
  end.

(** The decoder reads back the bytes of one encoded code point. *)
Lemma utf8_points_encode_point c bs rest :
  encode_point c = Some bs ->
  utf8_points (bs ++ rest) = option_map (cons c) (utf8_points rest).
Proof.
  unfold encode_point.
  destruct (Z.ltb_spec c 0); [discriminate|].
  destruct (Z.ltb_spec c 128); [|destruct (Z.ltb_spec c 2048);
    [|destruct (Z.ltb_spec c 65536);
      [destruct ((55296 <=? c) && (c <=? 57343)) eqn:Hsur; [discriminate|]
      |destruct (Z.leb_spec c 1114111); [|discriminate]]]];
    intros Henc;
    apply (f_equal (fun o => match o with Some x => x | None => [] end)) in Henc;
    cbv beta iota in Henc; subst bs;
    cbn [app utf8_points]; unfold is_cont.
  - settle_tests. reflexivity.
  - settle_tests. read_back.
  - apply andb_false_iff in Hsur.
    rewrite Z.leb_gt, Z.leb_gt in Hsur.
    settle_tests; read_back.
  - settle_tests; read_back.
Qed.

Lemma utf8_points_encode_points s bs :
  encode_points s = Some bs -> utf8_points bs = Some s.
Proof.
  revert bs. induction s as [|c s IH]; intros bs; cbn [encode_points].
  - intros H. injection H as <-. reflexivity.
  - destruct (encode_point c) as [a|] eqn:Ea; [|discriminate].
    destruct (encode_points s) as [b|] eqn:Eb; [|discriminate].
    intros H. injection H as <-.
    rewrite (utf8_points_encode_point c a b Ea), (IH b eq_refl). reflexivity.
Qed.

Lemma encode_points_bytes s bs :
  encode_points s = Some bs -> Forall (fun b => 0 <= b < 256) bs.
Proof.
  revert bs. induction s as [|c s IH]; intros bs; cbn [encode_points].
  - intros H. injection H as <-. constructor.
  - destruct (encode_point c) as [a|] eqn:Ea; [|discriminate].
    destruct (encode_points s) as [b|] eqn:Eb; [|discriminate].
    intros H. injection H as <-. apply Forall_app. split.
    + eapply encode_point_bytes. exact Ea.
    + apply IH. reflexivity.
Qed.

Lemma decode_of_encode s file_content :
  encode_utf8 s = Ok file_content -> decode_utf8 file_content = Ok s.
Proof.
  unfold encode_utf8, decode_utf8.
  destruct (encode_points s) as [bs|] eqn:E; [|discriminate].
  intros H. injection H as <-.
  rewrite map_map.
  replace (map (fun x => Z.of_N (Byte.to_N (byte_of x))) bs) with bs.
  - rewrite (utf8_points_encode_points s bs E). reflexivity.
  - pose proof (encode_points_bytes s bs E) as Hb. clear E.
    induction Hb as [|b bs Hb _ IH]; [reflexivity|].
    cbn [map]. rewrite byte_of_value by exact Hb. f_equal. exact IH.
Qed.

(** X10.  What [str.encode] writes, [bytes.decode] reads back: a text that
    encodes as UTF-8 is decoded from its bytes unchanged, so the handlers
    analyse exactly the text the test and benchmark scripts encoded. *)
Theorem decode_encode_round_trip (s : pystr) (file_content : pybytes) :
  encode_utf8 s = Ok file_content -> decode_utf8 file_content = Ok s.
Proof. apply decode_of_encode. Qed.

(** ** Joining and splitting lines *)

Lemma split_lf_line l : ~ In 10 l -> split_lf l = [l].
Proof.
  induction l as [|x l IH]; intros H; [reflexivity|]. cbn [split_lf].
  destruct (Z.eqb_spec x 10) as [->|_]; [exfalso; apply H; left; reflexivity|].
  rewrite IH; [reflexivity|]. intros Hin. apply H. right. exact Hin.
Qed.

Lemma split_lf_app l rest :
  ~ In 10 l -> split_lf (l ++ 10 :: rest) = l :: split_lf rest.
Proof.
  induction l as [|x l IH]; intros H.
  - reflexivity.
  - cbn [app split_lf].
    destruct (Z.eqb_spec x 10) as [->|_]; [exfalso; apply H; left; reflexivity|].
    rewrite IH; [reflexivity|]. intros Hin. apply H. right. exact Hin.
Qed.

Lemma spaceless_no_lf l : spaceless l = true -> ~ In 10 l.
Proof.
  unfold spaceless. rewrite forallb_forall. intros H Hin.
  specialize (H 10 Hin). discriminate.
Qed.

Lemma split_lf_join lines :
  lines <> [] -> Forall (fun l => spaceless l = true) lines ->
  split_lf (join (str LF) lines) = lines.
Proof.
  intros Hne Hall. induction Hall as [|x rest Hx Hrest IH]; [contradiction|].
  destruct rest as [|y rest].
  - apply split_lf_line. apply spaceless_no_lf. exact Hx.
  - change (join (str LF) (x :: y :: rest)) with (x ++ 10 :: join (str LF) (y :: rest)).
    rewrite split_lf_app by (apply spaceless_no_lf; exact Hx).
    f_equal. apply IH. discriminate.
Qed.

(** ** Stripping texts that begin and end with visible characters *)

Lemma strip_visible_edges s : visible_edges s -> strip s = s.
Proof.
  intros [(c & s' & -> & Hc) (z & r & Hrev & Hz)].
  unfold strip, rstrip. cbn [lstrip]. rewrite Hc, Hrev. cbn [lstrip]. rewrite Hz.
  rewrite <- Hrev. apply rev_involutive.
Qed.

Lemma spaceless_visible_edges s :
  spaceless s = true -> s <> [] -> visible_edges s.
Proof.
  unfold spaceless. rewrite forallb_forall. intros Hall Hne. split.
  - destruct s as [|c s']; [contradiction|]. exists c, s'. split; [reflexivity|].
    apply negb_true_iff. apply Hall. left. reflexivity.
  - destruct (rev s) as [|z r] eqn:E.
    + exfalso. apply Hne. rewrite <- (rev_involutive s), E. reflexivity.
    + exists z, r. split; [reflexivity|]. apply negb_true_iff. apply Hall.
      apply in_rev. rewrite E. left. reflexivity.
Qed.

Lemma visible_edges_app a m b :
  visible_edges a -> visible_edges b -> visible_edges (a ++ m ++ b).
Proof.
  intros [(c & a' & -> & Hc) _] [_ (z & r & Hrev & Hz)]. split.
  - exists c, (a' ++ m ++ b). split; [reflexivity|exact Hc].
  - exists z, (r ++ rev m ++ rev (c :: a')). split; [|exact Hz].
    rewrite !rev_app_distr, Hrev, <- !app_assoc. reflexivity.
Qed.

Lemma join_visible_edges sep lines :
  lines <> [] -> Forall (fun l => spaceless l = true /\ l <> []) lines ->
  visible_edges (join sep lines).
Proof.
  intros Hne Hall. induction Hall as [|x rest [Hx Hxne] Hrest IH]; [contradiction|].
  destruct rest as [|y rest].
  - apply spaceless_visible_edges; assumption.
  - change (join sep (x :: y :: rest)) with (x ++ sep ++ join sep (y :: rest)).
    apply visible_edges_app.
    + apply spaceless_visible_edges; assumption.
    + apply IH. discriminate.
Qed.

Lemma non_empty_lines_spaceless lines :
  Forall (fun l => spaceless l = true /\ l <> []) lines ->
  non_empty_lines_of lines = lines.
Proof.
  unfold non_empty_lines_of.
  induction 1 as [|x rest [Hx Hne] _ IH]; [reflexivity|].
  cbn [filter].
  rewrite (strip_visible_edges x (spaceless_visible_edges x Hx Hne)).
  destruct x as [|c x']; [contradiction|]. cbn [nonempty map].
  rewrite (strip_visible_edges (c :: x') (spaceless_visible_edges _ Hx Hne)).
  f_equal. exact IH.
Qed.

(** The lines of a joined table are the lines that were joined. *)
Lemma non_empty_lines_join lines :
  lines <> [] -> Forall (fun l => spaceless l = true /\ l <> []) lines ->
  non_empty_lines (join (str LF) lines) = lines.
Proof.
  intros Hne Hall. unfold non_empty_lines, lines_of.
  rewrite (strip_visible_edges _ (join_visible_edges _ lines Hne Hall)).
  rewrite split_lf_join.
  - apply non_empty_lines_spaceless. exact Hall.
  - exact Hne.
  - eapply Forall_impl; [|exact Hall]. cbv beta. tauto.
Qed.

(** ** Commas and digits *)

Lemma count_commas_app a b : count_commas (a ++ b) = count_commas a + count_commas b.
Proof. unfold count_commas. rewrite filter_app, length_app. lia. Qed.

Lemma spaceless_app a b : spaceless (a ++ b) = spaceless a && spaceless b.
Proof. apply forallb_app. Qed.

Lemma digits_chars d c :
  In c (str (NilEmpty.string_of_uint d)) -> 48 <= c <= 57.
Proof.
  induction d as [|d IH|d IH|d IH|d IH|d IH|d IH|d IH|d IH|d IH|d IH];
    cbn [NilEmpty.string_of_uint]; [intros []| | | | | | | | | |];
    (intros [<-|Hin]; [vm_compute; split; discriminate|apply IH; exact Hin]).
Qed.

Lemma decimal_chars n c : In c (decimal n) -> 48 <= c <= 57 \/ c = 45.
Proof.
  unfold decimal, NilZero.string_of_int, NilZero.string_of_uint.
  destruct (Z.to_int n) as [d|d].
  - destruct d; intros Hin;
      try (left; eapply digits_chars; exact Hin).
    destruct Hin as [<-|[]]. left. vm_compute. split; discriminate.
  - intros [<-|Hin]; [right; reflexivity|].
    destruct d;
      try (left; eapply digits_chars; exact Hin).
    destruct Hin as [<-|[]]. left. vm_compute. split; discriminate.
Qed.

Lemma decimal_commas n : count_commas (decimal n) = 0.
Proof.
  apply count_commas_none. intros Hin. apply decimal_chars in Hin.
  unfold comma in Hin. lia.
Qed.

Lemma decimal_spaceless n : spaceless (decimal n) = true.
Proof.
  unfold spaceless. apply forallb_forall. intros c Hin. apply decimal_chars in Hin.
  apply negb_true_iff.
  destruct (isspace c) eqn:E; [exfalso|reflexivity].
  unfold isspace in E.
  rewrite !orb_true_iff, !andb_true_iff, !Z.leb_le, !Z.eqb_eq in E. lia.
Qed.

Lemma decimal_02_commas n : count_commas (decimal_02 n) = 0.
Proof.
  unfold decimal_02. destruct (len (decimal n) <? 2).
  - rewrite count_commas_app, decimal_commas. reflexivity.
  - apply decimal_commas.
Qed.

Lemma decimal_02_spaceless n : spaceless (decimal_02 n) = true.
Proof.
  unfold decimal_02. destruct (len (decimal n) <? 2).
  - rewrite spaceless_app, decimal_spaceless. reflexivity.
  - apply decimal_spaceless.
Qed.

Lemma count_commas_some s : count_commas s = 0 -> ~ In comma s.
Proof.
  unfold count_commas. intros H Hin.
  assert (Hf : In comma (filter (fun c => c =? comma) s))
    by (apply filter_In; split; [exact Hin|apply Z.eqb_refl]).
  destruct (filter (fun c => c =? comma) s); [destruct Hf|simpl in H; lia].
Qed.

Lemma count_commas_join sep parts :
  count_commas sep = 0 -> Forall (fun x => count_commas x = 0) parts ->
  count_commas (join sep parts) = 0.
Proof.
  intros Hsep. induction 1 as [|x rest Hx _ IH]; [reflexivity|].
  destruct rest as [|y rest]; [exact Hx|].
  change (join sep (x :: y :: rest)) with (x ++ sep ++ join sep (y :: rest)).
  rewrite !count_commas_app, Hx, Hsep, IH. reflexivity.
Qed.

Lemma Forall_firstn {A} (P : A -> Prop) n l : Forall P l -> Forall P (firstn n l).
Proof.
  intros H. revert n. induction H as [|x l Hx _ IH]; intros [|n]; cbn [firstn];
    constructor; auto.
Qed.

Lemma join_cons sep x rest :
  join sep (x :: rest) = x ++ match rest with [] => [] | _ :: _ => sep ++ join sep rest end.
Proof. destruct rest; [symmetry; apply app_nil_r|reflexivity]. Qed.

Lemma range_length n : 0 <= n -> len (range n) = n.
Proof. intros H. unfold range, len. rewrite length_map, length_seq. lia. Qed.

(** ** Keywords at the beginning of a text *)

Lemma startswith_app s rest prefix :
  startswith s prefix = true -> startswith (s ++ rest) prefix = true.
Proof.
  revert s. induction prefix as [|p prefix IH]; intros [|c s]; cbn [startswith app];
    intros H; try discriminate.
  - destruct rest; reflexivity.
  - reflexivity.
  - apply andb_true_iff in H. destruct H as [-> H]. apply IH. exact H.
Qed.

Lemma contains_app s rest needle :
  contains s needle = true -> contains (s ++ rest) needle = true.
Proof.
  induction s as [|c s IH]; cbn [contains app].
  - rewrite orb_false_r. intros H.
    destruct needle; [|discriminate]. destruct rest; reflexivity.
  - intros H. apply orb_true_iff in H. apply orb_true_iff. destruct H as [H|H].
    + left. apply (startswith_app (c :: s) rest needle H).
    + right. apply IH. exact H.
Qed.

Section CoreProperties.

Variable unicode_lower : pystr -> nat -> pystr.

(** The two handlers run the same content analysis; the python-magic one has
    the libmagic hint in addition. *)
Lemma content_analysis_agree filename content_str :
  lambda_function_puremagic.content_analysis unicode_lower filename content_str
  = lambda_function.content_analysis unicode_lower false filename content_str.
Proof.
  unfold lambda_function_puremagic.content_analysis, lambda_function.content_analysis,
    lambda_function_puremagic.csv_criteria_met, lambda_function.csv_criteria_met.
  rewrite orb_false_r. reflexivity.
Qed.

Lemma magic_analysis_without_comma csv_detected_by_magic filename content_str :
  ~ In comma content_str ->
  lambda_function.content_analysis unicode_lower csv_detected_by_magic filename content_str
  = false.
Proof.
  intros H. unfold lambda_function.content_analysis.
  destruct (2 <=? len (lines_of content_str)); [|reflexivity].
  destruct (2 <=? len (non_empty_lines_of (lines_of content_str))); [|reflexivity].
  unfold lambda_function.csv_criteria_met.
  fold (non_empty_lines content_str). fold (comma_counts content_str).
  rewrite (header_commas_none _ H).
  change (1 <=? 0) with false.
  rewrite andb_false_r. reflexivity.
Qed.


Lemma magic_analysis_filename csv_detected_by_magic filename filename' content_str :
  lower unicode_lower filename = lower unicode_lower filename' ->
  lambda_function.content_analysis unicode_lower csv_detected_by_magic filename content_str
  = lambda_function.content_analysis unicode_lower csv_detected_by_magic filename' content_str.
Proof.
  intros H.
  unfold lambda_function.content_analysis, lambda_function.csv_criteria_met, filename_hint.
  rewrite H. reflexivity.
Qed.

(** The content analysis in exact arithmetic, for the python-magic handler
    with either value of the libmagic hint. *)
Lemma magic_analysis_exact csv_detected_by_magic filename content_str :
  2 <= len (non_empty_lines content_str) < 2 ^ 48 ->
  lambda_function.content_analysis unicode_lower csv_detected_by_magic filename content_str
  = (4 * len (non_empty_lines content_str) <=? 5 * comma_lines_of (comma_counts content_str))
    && (1 <=? header_commas_of (comma_counts content_str))
    && (7 * len (non_empty_lines content_str)
        <=? 10 * consistent_comma_lines_of (comma_counts content_str))
    && (filename_hint unicode_lower filename
        || csv_detected_by_magic
        || keyword_hint unicode_lower content_str).
Proof.
  intros Hlines. rewrite magic_analysis_open by lia.
  unfold lambda_function.csv_criteria_met. fold (comma_counts content_str).
  rewrite FloatFacts.ge_times_0_8, FloatFacts.ge_times_0_7 by lia.
  reflexivity.
Qed.

(** X1.  A MIME type that is not textual bypasses the content analysis: the
    python-magic handler answers with libmagic's type and is CSV only if that
    type is a CSV type; the puremagic handler answers with the mapped type and
    is never CSV.  Neither the bytes nor the filename matter. *)
Theorem non_text_types_bypass (m : lambda_function.magic_runs)
  (p : lambda_function_puremagic.puremagic_runs) (file_content : pybytes)
  (filename mime : pystr) :
  is_text (lambda_function.from_file_mime m) = false ->
  lambda_function_puremagic.derived_mimetype unicode_lower
    (or_none (lambda_function_puremagic.from_file p)) file_content = Ok mime ->
  is_text mime = false ->
  lambda_function.lambda_handler unicode_lower m file_content filename
  = Ok (let is_csv := existsb (str_eqb (lambda_function.from_file_mime m)) csv_mimetypes in
        {| lambda_function.success := is_csv;
           lambda_function.message := message_of is_csv;
           lambda_function.mimetype := lambda_function.from_file_mime m;
           lambda_function.filename := filename |})
  /\ lambda_function_puremagic.lambda_handler unicode_lower p file_content filename
     = Ok {| lambda_function_puremagic.success := false;
             lambda_function_puremagic.message := message_of false;
             lambda_function_puremagic.mimetype := mime;
             lambda_function_puremagic.filename := filename;
             lambda_function_puremagic.puremagic_details :=
               (or_none (lambda_function_puremagic.from_file p),
                or_none (lambda_function_puremagic.from_string p)) |}.
Proof.
  intros Hm Hmime Hp. split.
  - rewrite magic_handler_closed_form. unfold magic_mimetype. rewrite Hm. reflexivity.
  - rewrite (puremagic_handler_closed_form _ _ _ _ _ Hmime), Hp. reflexivity.
Qed.

(** X2.  The filename enters the verdict only through its lower case: two
    requests whose filenames differ in letter case only get the same
    [is_csv] and MIME type from either handler. *)
Theorem filename_case_is_ignored (m : lambda_function.magic_runs)
  (p : lambda_function_puremagic.puremagic_runs) (file_content : pybytes)
  (filename filename' : pystr) :
  lower unicode_lower filename = lower unicode_lower filename' ->
  magic_verdict (lambda_function.lambda_handler unicode_lower m file_content filename)
  = magic_verdict (lambda_function.lambda_handler unicode_lower m file_content filename')
  /\ puremagic_verdict
       (lambda_function_puremagic.lambda_handler unicode_lower p file_content filename)
     = puremagic_verdict
         (lambda_function_puremagic.lambda_handler unicode_lower p file_content filename').
Proof.
  intros H. split.
  - rewrite !magic_handler_closed_form. cbn [magic_verdict bind
      lambda_function.success lambda_function.mimetype].
    destruct (decode_utf8 file_content) as [content_str|e]; [|reflexivity].
    rewrite (magic_analysis_filename _ filename filename' _ H). reflexivity.
  - destruct (derived_mimetype_cases unicode_lower
                (or_none (lambda_function_puremagic.from_file p)) file_content)
      as (mime & Hmime & _).
    rewrite !(puremagic_handler_closed_form _ _ _ _ _ Hmime).
    destruct (decode_utf8 file_content) as [content_str|e]; [|reflexivity].
    rewrite !content_analysis_agree.
    rewrite (magic_analysis_filename _ filename filename' _ H). reflexivity.
Qed.

(** X3.  A text without any comma is never declared CSV by the content
    analysis, whatever the filename and the libmagic hint: the puremagic
    handler answers [is_csv] false, the python-magic handler answers true
    only if libmagic itself reported a CSV type. *)
Theorem text_without_comma (m : lambda_function.magic_runs)
  (p : lambda_function_puremagic.puremagic_runs) (file_content : pybytes)
  (content_str filename : pystr) (csv_detected_by_magic : bool) :
  decode_utf8 file_content = Ok content_str ->
  ~ In comma content_str ->
  lambda_function_puremagic.content_analysis unicode_lower filename content_str = false
  /\ lambda_function.content_analysis unicode_lower csv_detected_by_magic filename content_str
     = false
  /\ (exists b,
        lambda_function_puremagic.lambda_handler unicode_lower p file_content filename = Ok b
        /\ lambda_function_puremagic.success b = false)
  /\ (exists b,
        lambda_function.lambda_handler unicode_lower m file_content filename = Ok b
        /\ lambda_function.success b
           = existsb (str_eqb (lambda_function.from_file_mime m)) csv_mimetypes).
Proof.
  intros Hdec Hnone. split; [|split; [|split]].
  - rewrite content_analysis_agree. apply magic_analysis_without_comma. exact Hnone.
  - apply magic_analysis_without_comma. exact Hnone.
  - destruct (derived_mimetype_cases unicode_lower
                (or_none (lambda_function_puremagic.from_file p)) file_content)
      as (mime & Hmime & _).
    rewrite (puremagic_handler_closed_form _ _ _ _ _ Hmime), Hdec.
    rewrite content_analysis_agree, (magic_analysis_without_comma _ _ _ Hnone).
    eexists. split; [reflexivity|]. destruct (is_text mime); reflexivity.
  - rewrite magic_handler_closed_form, Hdec.
    rewrite (magic_analysis_without_comma _ _ _ Hnone).
    eexists. split; [reflexivity|]. cbn. destruct (is_text _); reflexivity.
Qed.

(** X4.  In the puremagic handler the verdict and the MIME type go together:
    [is_csv] is true exactly when the MIME type of the response is
    "text/csv". *)
Theorem puremagic_csv_iff_mimetype (p : lambda_function_puremagic.puremagic_runs)
  (file_content : pybytes) (filename : pystr) :
  exists b,
    lambda_function_puremagic.lambda_handler unicode_lower p file_content filename = Ok b
    /\ (lambda_function_puremagic.success b = true
        <-> lambda_function_puremagic.mimetype b = str "text/csv").
Proof.
  destruct (derived_mimetype_cases unicode_lower
              (or_none (lambda_function_puremagic.from_file p)) file_content)
    as (mime & Hmime & Hin).
  rewrite (puremagic_handler_closed_form _ _ _ _ _ Hmime).
  eexists. split; [reflexivity|].
  cbn [lambda_function_puremagic.success lambda_function_puremagic.mimetype].
  assert (Hne : mime <> str "text/csv").
  { simpl in Hin.
    repeat match goal with
           | H : _ \/ _ |- _ => destruct H as [<-|H]
           end; try contradiction; discriminate. }
  assert (Hkeep : (fst (false, mime) = true <-> snd (false, mime) = str "text/csv"))
    by (cbn; split; [discriminate|intros H; contradiction]).
  destruct (is_text mime); [|exact Hkeep].
  destruct (decode_utf8 file_content); [|exact Hkeep].
  destruct (lambda_function_puremagic.content_analysis _ _ _); [|exact Hkeep].
  cbn. split; reflexivity.
Qed.


(** X5.  Bytes that are not UTF-8 are never CSV for the puremagic handler;
    for the python-magic handler they are CSV only when libmagic reports
    "application/csv", the one CSV type that is not textual. *)
Theorem undecodable_bytes_verdict (m : lambda_function.magic_runs)
  (p : lambda_function_puremagic.puremagic_runs) (file_content : pybytes)
  (filename : pystr) :
  decodes file_content = false ->
  (exists b,
      lambda_function_puremagic.lambda_handler unicode_lower p file_content filename = Ok b
      /\ lambda_function_puremagic.success b = false)
  /\ (exists b,
        lambda_function.lambda_handler unicode_lower m file_content filename = Ok b
        /\ lambda_function.success b
           = str_eqb (lambda_function.from_file_mime m) (str "application/csv")).
Proof.
  intros Hdec. apply decodes_false in Hdec. split.
  - destruct (derived_mimetype_cases unicode_lower
                (or_none (lambda_function_puremagic.from_file p)) file_content)
      as (mime & Hmime & _).
    rewrite (puremagic_handler_closed_form _ _ _ _ _ Hmime), Hdec.
    eexists. split; [reflexivity|]. destruct (is_text mime); reflexivity.
  - rewrite magic_handler_closed_form, Hdec.
    eexists. split; [reflexivity|]. cbn [lambda_function.success].
    set (mime := lambda_function.from_file_mime m).
    destruct (str_eqb mime (str "application/csv")) eqn:Happ.
    + apply str_eqb_eq in Happ. rewrite Happ. reflexivity.
    + destruct (is_text mime) eqn:Htext; [reflexivity|].
      cbn [existsb csv_mimetypes]. rewrite Happ, orb_false_r. cbn [orb].
      destruct (str_eqb mime (str "text/csv")) eqn:H1.
      { apply str_eqb_eq in H1. rewrite H1 in Htext. discriminate. }
      destruct (str_eqb mime (str "text/comma-separated-values")) eqn:H2.
      { apply str_eqb_eq in H2. rewrite H2 in Htext. discriminate. }
      reflexivity.
Qed.

(** The content analysis of a table whose lines all have [k] commas. *)
Lemma uniform_counts_analysis csv_detected_by_magic filename content_str k :
  2 <= len (non_empty_lines content_str) < 2 ^ 48 ->
  1 <= k ->
  Forall (fun count => count = k) (comma_counts content_str) ->
  lambda_function.content_analysis unicode_lower csv_detected_by_magic filename content_str
  = (filename_hint unicode_lower filename
     || csv_detected_by_magic
     || keyword_hint unicode_lower content_str).
Proof.
  intros Hlines Hk Hall.
  assert (Hlen := comma_counts_length content_str).
  assert (Hhead : header_commas_of (comma_counts content_str) = k).
  { unfold header_commas_of. revert Hlen Hall. unfold len.
    destruct (comma_counts content_str) as [|c cs]; intros Hlen Hall.
    - unfold len in Hlines. simpl in Hlen. lia.
    - inversion Hall. assumption. }
  assert (Hcomma : comma_lines_of (comma_counts content_str)
                   = len (non_empty_lines content_str)).
  { unfold comma_lines_of. rewrite <- Hlen. unfold len. f_equal.
    apply filter_length_all. eapply Forall_impl; [|exact Hall].
    cbv beta. intros c ->. apply Z.ltb_lt. lia. }
  assert (Hcons : consistent_comma_lines_of (comma_counts content_str)
                  = len (non_empty_lines content_str)).
  { unfold consistent_comma_lines_of. rewrite Hhead, <- Hlen. unfold len. f_equal.
    apply filter_length_all. eapply Forall_impl; [|exact Hall].
    cbv beta. intros c ->. apply Z.eqb_refl. }
  rewrite magic_analysis_exact by exact Hlines.
  rewrite Hcomma, Hcons, Hhead.
  replace (4 * len (non_empty_lines content_str) <=? 5 * len (non_empty_lines content_str))
    with true by (symmetry; apply Z.leb_le; lia).
  replace (7 * len (non_empty_lines content_str) <=? 10 * len (non_empty_lines content_str))
    with true by (symmetry; apply Z.leb_le; lia).
  replace (1 <=? k) with true by (symmetry; apply Z.leb_le; lia).
  reflexivity.
Qed.

(** X6.  A rectangular table is always accepted under a ".csv" name: when
    the text has at least two non-empty lines (fewer than 2^48), every line
    has the same comma count, at least one, and the lower-cased filename
    ends in ".csv", the content analysis of both handlers declares CSV. *)
Theorem rectangular_table_accepted (content_str filename : pystr) (k : Z)
  (csv_detected_by_magic : bool) :
  2 <= len (non_empty_lines content_str) < 2 ^ 48 ->
  1 <= k ->
  Forall (fun count => count = k) (comma_counts content_str) ->
  filename_hint unicode_lower filename = true ->
  lambda_function_puremagic.content_analysis unicode_lower filename content_str = true
  /\ lambda_function.content_analysis unicode_lower csv_detected_by_magic filename content_str
     = true.
Proof.
  intros Hlines Hk Hall Hname.
  split; [rewrite content_analysis_agree|];
    rewrite (uniform_counts_analysis _ _ _ k Hlines Hk Hall), Hname; reflexivity.
Qed.

(** X7.  Short tables get no tolerance: when the content analysis declares
    CSV for a text of at most four non-empty lines, every line contains a
    comma, and unless there are exactly four lines every line has the comma
    count of the first. *)
Theorem short_tables_are_strict (content_str filename : pystr)
  (csv_detected_by_magic : bool) :
  2 <= len (non_empty_lines content_str) <= 4 ->
  lambda_function.content_analysis unicode_lower csv_detected_by_magic filename content_str
  = true ->
  Forall (fun count => 0 < count) (comma_counts content_str)
  /\ (len (non_empty_lines content_str) = 4
      \/ Forall (fun count => count = header_commas_of (comma_counts content_str))
           (comma_counts content_str)).
Proof.
  intros Hlines Hcsv.
  rewrite magic_analysis_exact in Hcsv by (change (2 ^ 48) with 281474976710656; lia).
  rewrite !andb_true_iff, !Z.leb_le in Hcsv.
  destruct Hcsv as [[[Hcomma _] Hcons] _].
  assert (Hlen := comma_counts_length content_str).
  unfold comma_lines_of in Hcomma. unfold consistent_comma_lines_of in Hcons.
  set (counts := comma_counts content_str) in *.
  pose proof (filter_length_le (fun count => 0 <? count) counts) as Hle1.
  pose proof (filter_length_le (fun count => count =? header_commas_of counts) counts) as Hle2.
  unfold len in *. clearbody counts. split.
  - assert (Hall : Forall (fun count => (0 <? count) = true) counts)
      by (apply (filter_all_length (fun count => 0 <? count)); lia).
    eapply Forall_impl; [|exact Hall]. cbv beta. intros c Hc. apply Z.ltb_lt. exact Hc.
  - destruct (Z.eq_dec (Z.of_nat (length (non_empty_lines content_str))) 4) as [H4|H4];
      [left; exact H4|right].
    assert (Hall : Forall (fun count => (count =? header_commas_of counts) = true) counts)
      by (apply (filter_all_length (fun count => count =? header_commas_of counts)); lia).
    eapply Forall_impl; [|exact Hall]. cbv beta. intros c Hc. apply Z.eqb_eq. exact Hc.
Qed.

(** X8.  A buffer of 7-bit bytes in which puremagic detects no label is
    always text for the puremagic handler: the MIME type of the response is
    "text/plain" or "text/csv", never "application/octet-stream". *)
Theorem ascii_buffer_is_text (p : lambda_function_puremagic.puremagic_runs)
  (file_content : pybytes) (filename : pystr) :
  is_ascii file_content = true ->
  lambda_function_puremagic.detected (or_none (lambda_function_puremagic.from_file p)) = false ->
  exists b,
    lambda_function_puremagic.lambda_handler unicode_lower p file_content filename = Ok b
    /\ (lambda_function_puremagic.mimetype b = str "text/plain"
        \/ lambda_function_puremagic.mimetype b = str "text/csv").
Proof.
  intros Hascii Hnone.
  assert (Hdec := decode_utf8_ascii file_content Hascii).
  rewrite (puremagic_handler_closed_form unicode_lower p file_content filename
             (str "text/plain")).
  - eexists. split; [reflexivity|]. rewrite Hdec.
    change (is_text (str "text/plain")) with true. cbv beta iota zeta.
    destruct (lambda_function_puremagic.content_analysis _ _ _); [right|left]; reflexivity.
  - rewrite derived_mimetype_closed_form, Hnone.
    unfold decodes. rewrite Hdec. reflexivity.
Qed.

(** X9.  The two handlers agree on [is_csv] whenever both see plain text:
    libmagic reports a textual type that is not a CSV type and finds no csv
    in the buffer, and the type puremagic derives is textual. *)
Theorem handlers_agree_on_text (m : lambda_function.magic_runs)
  (p : lambda_function_puremagic.puremagic_runs) (file_content : pybytes)
  (filename mime : pystr) :
  is_text (lambda_function.from_file_mime m) = true ->
  existsb (str_eqb (lambda_function.from_file_mime m)) csv_mimetypes = false ->
  magic_hint unicode_lower m = false ->
  lambda_function_puremagic.derived_mimetype unicode_lower
    (or_none (lambda_function_puremagic.from_file p)) file_content = Ok mime ->
  is_text mime = true ->
  exists b b',
    lambda_function.lambda_handler unicode_lower m file_content filename = Ok b
    /\ lambda_function_puremagic.lambda_handler unicode_lower p file_content filename = Ok b'
    /\ lambda_function.success b = lambda_function_puremagic.success b'.
Proof.
  intros Hm Hcsv Hhint Hmime Htext.
  rewrite magic_handler_closed_form, (puremagic_handler_closed_form _ _ _ _ _ Hmime).
  rewrite Hm, Hcsv, Hhint, Htext.
  do 2 eexists. split; [reflexivity|]. split; [reflexivity|].
  cbn [lambda_function.success lambda_function_puremagic.success].
  destruct (decode_utf8 file_content) as [content_str|e]; [|reflexivity].
  rewrite content_analysis_agree, orb_false_r.
  destruct (lambda_function.content_analysis _ _ _ _); reflexivity.
Qed.


Lemma lower_from_ascii_prefix s i prefix rest :
  forallb (fun c => (0 <=? c) && (c <? 128)) prefix = true ->
  lower_from unicode_lower s i (prefix ++ rest)
  = map ascii_lower prefix ++ lower_from unicode_lower s (i + length prefix) rest.
Proof.
  revert i. induction prefix as [|c prefix IH]; intros i H.
  - cbn [app map length]. rewrite Nat.add_0_r. reflexivity.
  - cbn [forallb] in H. apply andb_true_iff in H. destruct H as [Hc H].
    cbn [app lower_from map length]. rewrite Hc, (IH (S i) H).
    cbn [app]. do 3 f_equal. lia.
Qed.

(** A keyword in an ASCII beginning of at most 200 characters is found. *)
Lemma keyword_hint_prefix prefix rest keyword :
  In keyword csv_keywords ->
  forallb (fun c => (0 <=? c) && (c <? 128)) prefix = true ->
  (length prefix <= 200)%nat ->
  contains (map ascii_lower prefix) keyword = true ->
  keyword_hint unicode_lower (prefix ++ rest) = true.
Proof.
  intros Hkw Hascii Hlen Hfound. unfold keyword_hint.
  apply existsb_exists. exists keyword. split; [exact Hkw|].
  unfold lower, slice_to. rewrite lower_from_ascii_prefix by exact Hascii.
  rewrite firstn_app, firstn_all2 by (rewrite length_map; exact Hlen).
  apply contains_app. exact Hfound.
Qed.

(** The content analysis of lines joined into a table. *)
Lemma joined_table_analysis csv_detected_by_magic filename lines k :
  2 <= len lines < 2 ^ 48 ->
  1 <= k ->
  Forall (fun l => spaceless l = true /\ count_commas l = k) lines ->
  lambda_function.content_analysis unicode_lower csv_detected_by_magic filename
    (join (str LF) lines)
  = (filename_hint unicode_lower filename
     || csv_detected_by_magic
     || keyword_hint unicode_lower (join (str LF) lines)).
Proof.
  intros Hlen Hk Hall.
  assert (Hne : lines <> []) by (intros ->; unfold len in Hlen; simpl in Hlen; lia).
  assert (Hclean : Forall (fun l => spaceless l = true /\ l <> []) lines).
  { eapply Forall_impl; [|exact Hall]. cbv beta. intros l [Hs Hc]. split; [exact Hs|].
    intros ->. change (count_commas []) with 0 in Hc. lia. }
  pose proof (non_empty_lines_join lines Hne Hclean) as Hnel.
  apply (uniform_counts_analysis _ _ _ k).
  - rewrite Hnel. exact Hlen.
  - exact Hk.
  - unfold comma_counts, comma_counts_of. rewrite Hnel.
    apply Forall_map. eapply Forall_impl; [|exact Hall]. cbv beta. tauto.
Qed.


(** ** The generated benchmark files *)

Lemma csv_data_line_clean i :
  spaceless (head_to_head_benchmark.csv_data_line i) = true
  /\ count_commas (head_to_head_benchmark.csv_data_line i) = 5.
Proof.
  unfold head_to_head_benchmark.csv_data_line.
  rewrite !spaceless_app, !count_commas_app, !decimal_spaceless, !decimal_02_spaceless,
    !decimal_commas, !decimal_02_commas.
  split; reflexivity.
Qed.

Lemma csv_content_line_clean i :
  spaceless (benchmark_comparison.csv_content_line i) = true
  /\ count_commas (benchmark_comparison.csv_content_line i) = 7.
Proof.
  unfold benchmark_comparison.csv_content_line.
  rewrite !spaceless_app, !count_commas_app, !decimal_spaceless, !decimal_02_spaceless,
    !decimal_commas, !decimal_02_commas.
  split; reflexivity.
Qed.

Lemma generated_table_analysis csv_detected_by_magic filename header line rows k :
  1 <= rows < 2 ^ 48 - 1 ->
  1 <= k ->
  spaceless header = true /\ count_commas header = k ->
  (forall i, spaceless (line i) = true /\ count_commas (line i) = k) ->
  forallb (fun c => (0 <=? c) && (c <? 128)) header = true ->
  (length header <= 200)%nat ->
  contains (map ascii_lower header) (str "id,") = true ->
  lambda_function.content_analysis unicode_lower csv_detected_by_magic filename
    (join (str LF) ([header] ++ map line (range rows)))
  = true.
Proof.
  intros Hrows Hk Hheader Hline Hascii Hshort Hkey.
  change ([header] ++ map line (range rows)) with (header :: map line (range rows)).
  rewrite (joined_table_analysis _ _ _ k).
  - rewrite join_cons.
    rewrite (keyword_hint_prefix header _ (str "id,")); try assumption.
    + apply orb_true_r.
    + right. left. reflexivity.
  - unfold len. cbn [length]. rewrite length_map.
    pose proof (range_length rows ltac:(lia)) as Hr. unfold len in Hr.
    change (2 ^ 48) with 281474976710656 in *. lia.
  - exact Hk.
  - constructor; [exact Hheader|]. apply Forall_map. apply Forall_forall.
    intros i _. apply Hline.
Qed.

(** X11.  The CSV files the benchmark scripts generate are recognised
    whatever they are called: for every number of rows from 1 (below 2^48)
    the content analysis of both handlers declares the text of
    [generate_csv_data] and of [generate_csv_content] CSV; the keyword "id,"
    of the header is the hint. *)
Theorem generated_csv_accepted (rows : Z) (filename : pystr)
  (csv_detected_by_magic : bool) :
  1 <= rows < 2 ^ 48 - 1 ->
  lambda_function_puremagic.content_analysis unicode_lower filename
    (head_to_head_benchmark.generate_csv_data rows) = true
  /\ lambda_function.content_analysis unicode_lower csv_detected_by_magic filename
       (head_to_head_benchmark.generate_csv_data rows) = true
  /\ lambda_function_puremagic.content_analysis unicode_lower filename
       (benchmark_comparison.generate_csv_content rows) = true
  /\ lambda_function.content_analysis unicode_lower csv_detected_by_magic filename
       (benchmark_comparison.generate_csv_content rows) = true.
Proof.
  intros Hrows.
  assert (H5 : forall flag,
             lambda_function.content_analysis unicode_lower flag filename
               (head_to_head_benchmark.generate_csv_data rows) = true).
  { intros flag. unfold head_to_head_benchmark.generate_csv_data.
    apply (generated_table_analysis _ _ _ _ _ 5); try exact Hrows; try reflexivity;
      try lia.
    - split; reflexivity.
    - apply csv_data_line_clean.
    - apply Nat.leb_le. reflexivity. }
  assert (H7 : forall flag,
             lambda_function.content_analysis unicode_lower flag filename
               (benchmark_comparison.generate_csv_content rows) = true).
  { intros flag. unfold benchmark_comparison.generate_csv_content.
    apply (generated_table_analysis _ _ _ _ _ 7); try exact Hrows; try reflexivity;
      try lia.
    - split; reflexivity.
    - apply csv_content_line_clean.
    - apply Nat.leb_le. reflexivity. }
  rewrite !content_analysis_agree. repeat split; auto.
Qed.


Lemma html_data_commas elements :
  count_commas (head_to_head_benchmark.generate_html_data elements) = 0.
Proof.
  unfold head_to_head_benchmark.generate_html_data.
  apply count_commas_join; [reflexivity|].
  apply Forall_app. split; [repeat constructor|].
  apply Forall_app. split; [|repeat constructor].
  apply Forall_map. apply Forall_forall. intros i _.
  rewrite !count_commas_app, decimal_commas. reflexivity.
Qed.

Lemma text_data_commas words :
  count_commas (head_to_head_benchmark.generate_text_data words) = 0.
Proof.
  unfold head_to_head_benchmark.generate_text_data, list_slice_to.
  apply count_commas_join; [reflexivity|].
  assert (Hall : Forall (fun x => count_commas x = 0) head_to_head_benchmark.sample_words).
  { apply Forall_forall. intros w Hw.
    assert (Hb : forallb (fun x => count_commas x =? 0)
                   head_to_head_benchmark.sample_words = true) by (vm_compute; reflexivity).
    rewrite forallb_forall in Hb. apply Z.eqb_eq. apply Hb. exact Hw. }
  destruct (words <? 0); apply Forall_firstn; exact Hall.
Qed.

Lemma text_content_commas words :
  count_commas (benchmark_comparison.generate_text_content words) = 0.
Proof.
  unfold benchmark_comparison.generate_text_content.
  apply count_commas_join; [reflexivity|].
  apply Forall_forall. intros x Hx. apply in_flat_map in Hx.
  destruct Hx as (i & _ & [<-|Hx]).
  - destruct (nth_in_or_default
                (Z.to_nat (i mod len benchmark_comparison.sample_words))
                benchmark_comparison.sample_words []) as [Hin| ->]; [|reflexivity].
    assert (Hb : forallb (fun x => count_commas x =? 0)
                   benchmark_comparison.sample_words = true) by (vm_compute; reflexivity).
    rewrite forallb_forall in Hb. apply Z.eqb_eq. apply Hb. exact Hin.
  - destruct ((i + 1) mod 15 =? 0); [|destruct Hx].
    destruct Hx as [<-|[]]. reflexivity.
Qed.

(** X12.  The HTML and prose files the benchmark scripts generate are never
    declared CSV by the content analysis, for any size, filename and libmagic
    hint: they hold no comma. *)
Theorem generated_prose_rejected (n : Z) (filename : pystr)
  (csv_detected_by_magic : bool) :
  lambda_function.content_analysis unicode_lower csv_detected_by_magic filename
    (head_to_head_benchmark.generate_html_data n) = false
  /\ lambda_function.content_analysis unicode_lower csv_detected_by_magic filename
       (head_to_head_benchmark.generate_text_data n) = false
  /\ lambda_function.content_analysis unicode_lower csv_detected_by_magic filename
       (benchmark_comparison.generate_text_content n) = false
  /\ lambda_function_puremagic.content_analysis unicode_lower filename
       (head_to_head_benchmark.generate_html_data n) = false
  /\ lambda_function_puremagic.content_analysis unicode_lower filename
       (head_to_head_benchmark.generate_text_data n) = false
  /\ lambda_function_puremagic.content_analysis unicode_lower filename
       (benchmark_comparison.generate_text_content n) = false.
Proof.
  rewrite !content_analysis_agree.
  repeat split; apply magic_analysis_without_comma; apply count_commas_some;
    first [apply html_data_commas|apply text_data_commas|apply text_content_commas].
Qed.

(** X13.  From text to verdict in the puremagic handler: for a text that the
    caller encodes as UTF-8 and in which puremagic detects no label, the
    response is decided by the content analysis of that text alone: CSV with
    "text/csv" when it succeeds, not CSV with "text/plain" when it does
    not. *)
Theorem puremagic_on_encoded_text (p : lambda_function_puremagic.puremagic_runs)
  (content_str filename : pystr) (file_content : pybytes) :
  encode_utf8 content_str = Ok file_content ->
  lambda_function_puremagic.detected (or_none (lambda_function_puremagic.from_file p)) = false ->
  puremagic_verdict
    (lambda_function_puremagic.lambda_handler unicode_lower p file_content filename)
  = Ok (if lambda_function_puremagic.content_analysis unicode_lower filename content_str
        then (true, str "text/csv") else (false, str "text/plain")).
Proof.
  intros Henc Hnone.
  assert (Hdec := decode_of_encode content_str file_content Henc).
  rewrite (puremagic_handler_closed_form unicode_lower p file_content filename
             (str "text/plain")).
  - rewrite Hdec. change (is_text (str "text/plain")) with true. cbv beta iota zeta.
    destruct (lambda_function_puremagic.content_analysis _ _ _); reflexivity.
  - rewrite derived_mimetype_closed_form, Hnone. unfold decodes. rewrite Hdec. reflexivity.
Qed.

End CoreProperties.

(** * What the MIME type of a response can be *)

Section MimetypeProperties.

Variable unicode_lower : pystr -> nat -> pystr.

(** X22.  The puremagic handler always answers, and with one of nine MIME
    types, none of them empty: the seven the label keywords select,
    "text/csv", "text/plain" and "application/octet-stream". *)
Theorem puremagic_mimetype_is_listed (p : lambda_function_puremagic.puremagic_runs)
  (file_content : pybytes) (filename : pystr) :
  exists b,
    lambda_function_puremagic.lambda_handler unicode_lower p file_content filename = Ok b
    /\ In (lambda_function_puremagic.mimetype b) puremagic_mimetypes
    /\ nonempty (lambda_function_puremagic.mimetype b) = true.
Proof.
  destruct (derived_mimetype_cases unicode_lower
              (or_none (lambda_function_puremagic.from_file p)) file_content)
    as (mime & Hmime & Hin).
  rewrite (puremagic_handler_closed_form _ _ _ _ _ Hmime).
  eexists. split; [reflexivity|]. cbn [lambda_function_puremagic.mimetype].
  assert (Hcases : forall st : bool * pystr,
             snd st = mime \/ snd st = str "text/csv" ->
             In (snd st) puremagic_mimetypes /\ nonempty (snd st) = true).
  { intros st [->| ->]; [|split; [simpl; tauto|reflexivity]].
    simpl in Hin.
    repeat match goal with
           | H : _ \/ _ |- _ => destruct H as [<-|H]
           end; try contradiction; (split; [simpl; tauto|reflexivity]). }
  apply Hcases.
  destruct (is_text mime); [|left; reflexivity].
  destruct (decode_utf8 file_content); [|left; reflexivity].
  destruct (lambda_function_puremagic.content_analysis _ _ _); [right|left]; reflexivity.
Qed.

(** X23.  The python-magic handler always answers, and its MIME type is
    decided by libmagic alone: it is "text/csv" when libmagic's type for the
    file is textual and its buffer detection mentions csv, and libmagic's
    type for the file, unchanged, otherwise.  Neither the bytes, nor the
    filename, nor the outcome of the content analysis enter it. *)
Theorem magic_mimetype_from_libmagic (m : lambda_function.magic_runs)
  (file_content : pybytes) (filename : pystr) :
  exists b,
    lambda_function.lambda_handler unicode_lower m file_content filename = Ok b
    /\ lambda_function.mimetype b
       = if is_text (lambda_function.from_file_mime m) && magic_hint unicode_lower m
         then str "text/csv" else lambda_function.from_file_mime m.
Proof.
  rewrite magic_handler_closed_form. eexists. split; [reflexivity|].
  cbn [lambda_function.mimetype]. apply magic_mimetype_explicit.
Qed.

End MimetypeProperties.

(** * Properties of the request envelope *)

Section EnvelopeProperties.

Variable json_loads : pystr -> result pyval.
Variable b64decode : pystr -> result pybytes.
Variable unicode_lower : pystr -> nat -> pystr.
Variable libmagic : pybytes -> result lambda_function.magic_runs.
Variable puremagic : pybytes -> lambda_function_puremagic.puremagic_runs.

Local Abbreviation magic_handler :=
  (magic_lambda_handler json_loads b64decode unicode_lower libmagic).
Local Abbreviation puremagic_handler :=
  (puremagic_lambda_handler json_loads b64decode unicode_lower puremagic).

(** Neither classification raises on a filename that is a string. *)
Lemma magic_classification_returns m file_content name :
  exists b, lambda_function.lambda_handler unicode_lower m file_content name = Ok b.
Proof. rewrite magic_handler_closed_form. eexists. reflexivity. Qed.

Lemma puremagic_classification_returns p file_content name :
  exists b,
    lambda_function_puremagic.lambda_handler unicode_lower p file_content name = Ok b.
Proof.
  destruct (derived_mimetype_cases unicode_lower
              (or_none (lambda_function_puremagic.from_file p)) file_content)
    as (mime & Hmime & _).
  rewrite (puremagic_handler_closed_form _ _ _ _ _ Hmime). eexists. reflexivity.
Qed.

(** ** A filename that is a string: the analysis is the one of the handlers *)

Lemma counts_pass_gates content_str :
  counts_pass content_str
  = if 2 <=? len (lines_of content_str) then
      if 2 <=? len (non_empty_lines_of (lines_of content_str)) then
        let counts := comma_counts_of (non_empty_lines_of (lines_of content_str)) in
        let total_lines := len (non_empty_lines_of (lines_of content_str)) in
        int_ge_float (comma_lines_of counts) (float_mul (float_of_int total_lines) lit_0_8)
        && (1 <=? header_commas_of counts)
        && int_ge_float (consistent_comma_lines_of counts)
             (float_mul (float_of_int total_lines) lit_0_7)
      else false
    else false.
Proof.
  unfold counts_pass, comma_counts, non_empty_lines.
  destruct (2 <=? len (lines_of content_str)); [|reflexivity].
  destruct (2 <=? len (non_empty_lines_of (lines_of content_str))); reflexivity.
Qed.

Lemma magic_analysis_counts hint f content_str :
  lambda_function.content_analysis unicode_lower hint f content_str
  = counts_pass content_str
    && (filename_hint unicode_lower f || hint || keyword_hint unicode_lower content_str).
Proof.
  rewrite counts_pass_gates.
  unfold lambda_function.content_analysis, lambda_function.csv_criteria_met.
  destruct (2 <=? len (lines_of content_str)); [|reflexivity].
  destruct (2 <=? len (non_empty_lines_of (lines_of content_str))); reflexivity.
Qed.

Lemma puremagic_analysis_counts f content_str :
  lambda_function_puremagic.content_analysis unicode_lower f content_str
  = counts_pass content_str
    && (filename_hint unicode_lower f || keyword_hint unicode_lower content_str).
Proof.
  rewrite counts_pass_gates.
  unfold lambda_function_puremagic.content_analysis,
    lambda_function_puremagic.csv_criteria_met.
  destruct (2 <=? len (lines_of content_str)); [|reflexivity].
  destruct (2 <=? len (non_empty_lines_of (lines_of content_str))); reflexivity.
Qed.

Lemma magic_content_analysis_str hint f content_str :
  magic_content_analysis unicode_lower hint (VStr f) content_str
  = Got (lambda_function.content_analysis unicode_lower hint f content_str).
Proof.
  unfold magic_content_analysis, magic_csv_criteria_met, lambda_function.content_analysis,
    lambda_function.csv_criteria_met.
  destruct (2 <=? len (lines_of content_str)); [|reflexivity].
  destruct (2 <=? len (non_empty_lines_of (lines_of content_str))); [|reflexivity].
  cbv zeta. destruct (_ && _ && _); reflexivity.
Qed.

Lemma puremagic_content_analysis_str f content_str :
  puremagic_content_analysis unicode_lower (VStr f) content_str
  = Got (lambda_function_puremagic.content_analysis unicode_lower f content_str).
Proof.
  unfold puremagic_content_analysis, puremagic_csv_criteria_met,
    lambda_function_puremagic.content_analysis, lambda_function_puremagic.csv_criteria_met.
  destruct (2 <=? len (lines_of content_str)); [|reflexivity].
  destruct (2 <=? len (non_empty_lines_of (lines_of content_str))); [|reflexivity].
  cbv zeta. destruct (_ && _ && _); reflexivity.
Qed.

Lemma magic_text_branch_str m st file_content f :
  magic_text_branch unicode_lower m st file_content (VStr f)
  = lift (lambda_function.text_branch unicode_lower m st file_content f).
Proof.
  unfold magic_text_branch, lambda_function.text_branch. destruct st as [is_csv mime].
  destruct (_ || _); [|reflexivity].
  destruct (lambda_function.alternative_detection unicode_lower m mime) as [hint mime'].
  unfold magic_content_validation, lambda_function.content_validation.
  destruct (decode_utf8 file_content) as [content_str|e].
  - rewrite magic_content_analysis_str. reflexivity.
  - destruct e; reflexivity.
Qed.

Lemma puremagic_text_branch_str st file_content f :
  puremagic_text_branch unicode_lower st file_content (VStr f)
  = lift (lambda_function_puremagic.text_branch unicode_lower st file_content f).
Proof.
  unfold puremagic_text_branch, lambda_function_puremagic.text_branch.
  destruct (_ || _); [|reflexivity].
  unfold puremagic_content_validation, lambda_function_puremagic.content_validation.
  destruct st as [is_csv mime].
  destruct (decode_utf8 file_content) as [content_str|e].
  - rewrite puremagic_content_analysis_str. reflexivity.
  - destruct e; reflexivity.
Qed.

Lemma magic_classify_str file_content m f b :
  libmagic file_content = Ok m ->
  lambda_function.lambda_handler unicode_lower m file_content f = Ok b ->
  magic_classify unicode_lower libmagic file_content (VStr f)
  = Got (magic_response (lambda_function.success b) (lambda_function.mimetype b) (VStr f)).
Proof.
  intros Hm Hb. unfold magic_classify. rewrite Hm. cbn [lift and_then].
  rewrite magic_text_branch_str.
  unfold lambda_function.lambda_handler in Hb.
  destruct (lambda_function.text_branch unicode_lower m _ file_content f) as [st|e];
    [|discriminate Hb].
  cbn [bind] in Hb. injection Hb as <-. reflexivity.
Qed.

Lemma puremagic_classify_str file_content f b :
  lambda_function_puremagic.lambda_handler unicode_lower (puremagic file_content)
    file_content f = Ok b ->
  puremagic_classify unicode_lower puremagic file_content (VStr f)
  = Got (puremagic_response (lambda_function_puremagic.success b)
           (lambda_function_puremagic.mimetype b) (VStr f)
           (lambda_function_puremagic.puremagic_details b)).
Proof.
  intros Hb. unfold puremagic_classify.
  unfold lambda_function_puremagic.lambda_handler in Hb.
  destruct (lambda_function_puremagic.derived_mimetype unicode_lower _ file_content)
    as [mime|e]; [|discriminate Hb].
  cbn [bind] in Hb. cbn [lift and_then]. rewrite puremagic_text_branch_str.
  destruct (lambda_function_puremagic.text_branch unicode_lower _ file_content f) as [st|e];
    [|discriminate Hb].
  cbn [bind] in Hb. injection Hb as <-. reflexivity.
Qed.

(** ** A filename that is not a string *)

Lemma filename_hint_of_other v :
  not_a_string v -> filename_hint_of unicode_lower v = Threw AttributeError.
Proof. destruct v; simpl; intros H; try contradiction; reflexivity. Qed.

Lemma magic_content_analysis_other hint v content_str :
  not_a_string v ->
  magic_content_analysis unicode_lower hint v content_str
  = if counts_pass content_str then Threw AttributeError else Got false.
Proof.
  intros Hv. rewrite counts_pass_gates.
  unfold magic_content_analysis, magic_csv_criteria_met.
  destruct (2 <=? len (lines_of content_str)); [|reflexivity].
  destruct (2 <=? len (non_empty_lines_of (lines_of content_str))); [|reflexivity].
  cbv zeta. rewrite (filename_hint_of_other v Hv).
  destruct (_ && _ && _); reflexivity.
Qed.

Lemma puremagic_content_analysis_other v content_str :
  not_a_string v ->
  puremagic_content_analysis unicode_lower v content_str
  = if counts_pass content_str then Threw AttributeError else Got false.
Proof.
  intros Hv. rewrite counts_pass_gates.
  unfold puremagic_content_analysis, puremagic_csv_criteria_met.
  destruct (2 <=? len (lines_of content_str)); [|reflexivity].
  destruct (2 <=? len (non_empty_lines_of (lines_of content_str))); [|reflexivity].
  cbv zeta. rewrite (filename_hint_of_other v Hv).
  destruct (_ && _ && _); reflexivity.
Qed.

Lemma magic_text_branch_other m is_csv mime file_content v f :
  not_a_string v ->
  magic_text_branch unicode_lower m (is_csv, mime) file_content v
  = if consults_filename mime file_content then Threw AttributeError
    else lift (lambda_function.text_branch unicode_lower m (is_csv, mime) file_content f).
Proof.
  intros Hv. unfold magic_text_branch, lambda_function.text_branch, consults_filename, is_text.
  destruct (_ || _); [|reflexivity]. cbn [andb].
  destruct (lambda_function.alternative_detection unicode_lower m mime) as [hint mime'].
  unfold magic_content_validation, lambda_function.content_validation.
  destruct (decode_utf8 file_content) as [content_str|e].
  - cbn [bind try_except_decode]. rewrite (magic_content_analysis_other _ _ _ Hv).
    rewrite magic_analysis_counts.
    destruct (counts_pass content_str); reflexivity.
  - destruct e; reflexivity.
Qed.

Lemma puremagic_text_branch_other is_csv mime file_content v f :
  not_a_string v ->
  puremagic_text_branch unicode_lower (is_csv, mime) file_content v
  = if consults_filename mime file_content then Threw AttributeError
    else lift (lambda_function_puremagic.text_branch unicode_lower (is_csv, mime)
                 file_content f).
Proof.
  intros Hv.
  unfold puremagic_text_branch, lambda_function_puremagic.text_branch, consults_filename,
    is_text.
  cbn [snd]. destruct (_ || _); [|reflexivity]. cbn [andb].
  unfold puremagic_content_validation, lambda_function_puremagic.content_validation.
  destruct (decode_utf8 file_content) as [content_str|e].
  - cbn [bind try_except_decode]. rewrite (puremagic_content_analysis_other _ _ Hv).
    rewrite puremagic_analysis_counts.
    destruct (counts_pass content_str); reflexivity.
  - destruct e; reflexivity.
Qed.

(** ** The envelope *)

(** The envelope on a request body that is an object with a string under
    ['file_content'] that decodes. *)
Lemma handle_event_well_formed classify event d s file_content :
  request_body json_loads event = Got (VDict d) ->
  item_file_content d = Some (VStr s) ->
  b64decode s = Ok file_content ->
  handle_event json_loads b64decode classify event
  = match classify file_content (filename_of d) with
    | Got r => r
    | Threw e => processing_error e
    end.
Proof.
  intros Hbody Hitem Hdec. unfold handle_event. rewrite Hbody.
  cbn [and_then lacks_file_content file_content_item]. rewrite Hitem.
  cbn [and_then decode_base64]. rewrite Hdec. reflexivity.
Qed.

(** X14.  A well-formed request is answered with status 200 and the verdict
    of the classification: when the request body is an object whose
    ['file_content'] is a string that base64-decodes, whose filename is a
    string (the ['filename'] given, or ['unknown'] when there is none), and
    libmagic's detection of the file returns, both handlers return the
    response built from the classification of the decoded bytes under that
    filename. *)
Theorem well_formed_request_is_classified (event d : pydict) (s f : pystr)
  (file_content : pybytes) (m : lambda_function.magic_runs) :
  request_body json_loads event = Got (VDict d) ->
  item_file_content d = Some (VStr s) ->
  b64decode s = Ok file_content ->
  filename_of d = VStr f ->
  libmagic file_content = Ok m ->
  (exists b,
      lambda_function.lambda_handler unicode_lower m file_content f = Ok b
      /\ magic_handler event
         = magic_response (lambda_function.success b) (lambda_function.mimetype b) (VStr f))
  /\ (exists b,
        lambda_function_puremagic.lambda_handler unicode_lower (puremagic file_content)
          file_content f = Ok b
        /\ puremagic_handler event
           = puremagic_response (lambda_function_puremagic.success b)
               (lambda_function_puremagic.mimetype b) (VStr f)
               (lambda_function_puremagic.puremagic_details b)).
Proof.
  intros Hbody Hitem Hdec Hname Hm. split.
  - destruct (magic_classification_returns m file_content f) as [b Hb].
    exists b. split; [exact Hb|]. unfold magic_lambda_handler.
    rewrite (handle_event_well_formed _ event d s file_content Hbody Hitem Hdec), Hname.
    rewrite (magic_classify_str _ _ _ _ Hm Hb). reflexivity.
  - destruct (puremagic_classification_returns (puremagic file_content) file_content f)
      as [b Hb].
    exists b. split; [exact Hb|]. unfold puremagic_lambda_handler.
    rewrite (handle_event_well_formed _ event d s file_content Hbody Hitem Hdec), Hname.
    rewrite (puremagic_classify_str _ _ _ Hb). reflexivity.
Qed.


(** X16.  An API Gateway event and a direct invocation agree: an event
    whose request body is an object that has no key ['body'] of its own gets
    the response that this object gets as an event. *)
Theorem gateway_and_direct_agree (event d : pydict) :
  request_body json_loads event = Got (VDict d) ->
  item_body d = None ->
  magic_handler event = magic_handler d
  /\ puremagic_handler event = puremagic_handler d.
Proof.
  intros Hbody Hnone.
  assert (Hd : request_body json_loads d = Got (VDict d))
    by (unfold request_body; rewrite Hnone; reflexivity).
  unfold magic_lambda_handler, puremagic_lambda_handler, handle_event.
  rewrite Hbody, Hd. split; reflexivity.
Qed.



(** X19.  A missing ['filename'] stands for ['unknown']: a request without
    the key gets the response of the same request with the filename
    ['unknown'], in a direct invocation and inside an API Gateway body. *)
Theorem filename_defaults_to_unknown (content inner_body outer_content : option pyval)
  (outer_filename : option pyval) :
  magic_handler (Dict None content None)
  = magic_handler (Dict None content (Some (VStr (str "unknown"))))
  /\ puremagic_handler (Dict None content None)
     = puremagic_handler (Dict None content (Some (VStr (str "unknown"))))
  /\ magic_handler
       (Dict (Some (VDict (Dict inner_body content None))) outer_content outer_filename)
     = magic_handler
         (Dict (Some (VDict (Dict inner_body content (Some (VStr (str "unknown"))))))
            outer_content outer_filename)
  /\ puremagic_handler
       (Dict (Some (VDict (Dict inner_body content None))) outer_content outer_filename)
     = puremagic_handler
         (Dict (Some (VDict (Dict inner_body content (Some (VStr (str "unknown"))))))
            outer_content outer_filename).
Proof.
  unfold magic_lambda_handler, puremagic_lambda_handler, handle_event, request_body.
  cbn [item_body and_then lacks_file_content file_content_item item_file_content].
  destruct content as [v|]; repeat split.
Qed.


(** X21.  A filename that is not a string (null, a number, ...) breaks a
    request exactly when the handlers come to look at it.  For a request that
    is well formed otherwise: if the MIME type tested for the text branch is
    textual, the bytes decode and the line gates and the three counts of the
    analysis pass, [filename.lower()] raises and the answer is the 500
    response for an AttributeError; in every other case the answer is the 200
    response with the [is_csv] and MIME type that any string filename would
    get, and the filename as given. *)
Theorem non_string_filename (event d : pydict) (s : pystr) (file_content : pybytes)
  (m : lambda_function.magic_runs) (mime : pystr) :
  request_body json_loads event = Got (VDict d) ->
  item_file_content d = Some (VStr s) ->
  b64decode s = Ok file_content ->
  not_a_string (filename_of d) ->
  libmagic file_content = Ok m ->
  lambda_function_puremagic.derived_mimetype unicode_lower
    (or_none (lambda_function_puremagic.from_file (puremagic file_content))) file_content
  = Ok mime ->
  (if consults_filename (lambda_function.from_file_mime m) file_content
   then magic_handler event = processing_error AttributeError
   else forall f, exists b,
       lambda_function.lambda_handler unicode_lower m file_content f = Ok b
       /\ magic_handler event
          = magic_response (lambda_function.success b) (lambda_function.mimetype b)
              (filename_of d))
  /\ (if consults_filename mime file_content
      then puremagic_handler event = processing_error AttributeError
      else forall f, exists b,
          lambda_function_puremagic.lambda_handler unicode_lower (puremagic file_content)
            file_content f = Ok b
          /\ puremagic_handler event
             = puremagic_response (lambda_function_puremagic.success b)
                 (lambda_function_puremagic.mimetype b) (filename_of d)
                 (lambda_function_puremagic.puremagic_details b)).
Proof.
  intros Hbody Hitem Hdec Hname Hm Hmime. split.
  - unfold magic_lambda_handler.
    rewrite (handle_event_well_formed _ event d s file_content Hbody Hitem Hdec).
    unfold magic_classify. rewrite Hm. cbn [lift and_then].
    destruct (consults_filename (lambda_function.from_file_mime m) file_content) eqn:Hc.
    + rewrite (magic_text_branch_other m _ _ file_content _ [] Hname), Hc. reflexivity.
    + intros f. rewrite (magic_text_branch_other m _ _ file_content _ f Hname), Hc.
      destruct (magic_classification_returns m file_content f) as [b Hb].
      exists b. split; [exact Hb|].
      unfold lambda_function.lambda_handler in Hb.
      destruct (lambda_function.text_branch unicode_lower m _ file_content f) as [st|e];
        [|discriminate Hb].
      cbn [bind] in Hb. injection Hb as <-. reflexivity.
  - unfold puremagic_lambda_handler.
    rewrite (handle_event_well_formed _ event d s file_content Hbody Hitem Hdec).
    unfold puremagic_classify. rewrite Hmime. cbn [lift and_then].
    destruct (consults_filename mime file_content) eqn:Hc.
    + rewrite (puremagic_text_branch_other _ _ file_content _ [] Hname), Hc. reflexivity.
    + intros f. rewrite (puremagic_text_branch_other _ _ file_content _ f Hname), Hc.
      destruct (puremagic_classification_returns (puremagic file_content) file_content f)
        as [b Hb].
      exists b. split; [exact Hb|].
      unfold lambda_function_puremagic.lambda_handler in Hb.
      rewrite Hmime in Hb. cbn [bind] in Hb.
      destruct (lambda_function_puremagic.text_branch unicode_lower _ file_content f)
        as [st|e]; [|discriminate Hb].
      cbn [bind] in Hb. injection Hb as <-. reflexivity.
Qed.

End EnvelopeProperties.

(** * The properties at the samples *)

Ltac by_computation :=
  vm_compute; repeat split; (reflexivity || discriminate || (repeat constructor)).

Lemma non_text_types_bypass_witness :
  is_text (lambda_function.from_file_mime magic_gif) = false
  /\ lambda_function_puremagic.derived_mimetype keep_code_point
       (or_none (lambda_function_puremagic.from_file puremagic_gif)) gif_header
     = Ok (str "application/octet-stream")
  /\ is_text (str "application/octet-stream") = false
  /\ (lambda_function.lambda_handler keep_code_point magic_gif gif_header (str "logo.gif")
      = Ok (let is_csv :=
              existsb (str_eqb (lambda_function.from_file_mime magic_gif)) csv_mimetypes in
            {| lambda_function.success := is_csv;
               lambda_function.message := message_of is_csv;
               lambda_function.mimetype := lambda_function.from_file_mime magic_gif;
               lambda_function.filename := str "logo.gif" |})
      /\ lambda_function_puremagic.lambda_handler keep_code_point puremagic_gif gif_header
           (str "logo.gif")
         = Ok {| lambda_function_puremagic.success := false;
                 lambda_function_puremagic.message := message_of false;
                 lambda_function_puremagic.mimetype := str "application/octet-stream";
                 lambda_function_puremagic.filename := str "logo.gif";
                 lambda_function_puremagic.puremagic_details :=
                   (or_none (lambda_function_puremagic.from_file puremagic_gif),
                    or_none (lambda_function_puremagic.from_string puremagic_gif)) |}).
Proof.
  assert (H1 : is_text (lambda_function.from_file_mime magic_gif) = false)
    by (vm_compute; reflexivity).
  assert (H2 : lambda_function_puremagic.derived_mimetype keep_code_point
                 (or_none (lambda_function_puremagic.from_file puremagic_gif)) gif_header
               = Ok (str "application/octet-stream")) by (vm_compute; reflexivity).
  assert (H3 : is_text (str "application/octet-stream") = false)
    by (vm_compute; reflexivity).
  exact (conj H1 (conj H2 (conj H3
           (non_text_types_bypass keep_code_point magic_gif puremagic_gif gif_header
              (str "logo.gif") (str "application/octet-stream") H1 H2 H3)))).
Defined.

Lemma filename_case_is_ignored_witness :
  lower keep_code_point (str "DATA.CSV") = lower keep_code_point (str "data.csv")
  /\ (magic_verdict
        (lambda_function.lambda_handler keep_code_point magic_plain three_rows
           (str "DATA.CSV"))
      = magic_verdict
          (lambda_function.lambda_handler keep_code_point magic_plain three_rows
             (str "data.csv"))
      /\ puremagic_verdict
           (lambda_function_puremagic.lambda_handler keep_code_point puremagic_nothing
              three_rows (str "DATA.CSV"))
         = puremagic_verdict
             (lambda_function_puremagic.lambda_handler keep_code_point puremagic_nothing
                three_rows (str "data.csv"))).
Proof.
  assert (H1 : lower keep_code_point (str "DATA.CSV")
               = lower keep_code_point (str "data.csv")) by (vm_compute; reflexivity).
  exact (conj H1
           (filename_case_is_ignored keep_code_point magic_plain puremagic_nothing
              three_rows (str "DATA.CSV") (str "data.csv") H1)).
Defined.

Lemma text_without_comma_witness :
  decode_utf8 gif_header = Ok (str "GIF89a")
  /\ ~ In comma (str "GIF89a")
  /\ (lambda_function_puremagic.content_analysis keep_code_point (str "logo.csv")
        (str "GIF89a") = false
      /\ lambda_function.content_analysis keep_code_point true (str "logo.csv")
           (str "GIF89a") = false
      /\ (exists b,
            lambda_function_puremagic.lambda_handler keep_code_point puremagic_nothing
              gif_header (str "logo.csv") = Ok b
            /\ lambda_function_puremagic.success b = false)
      /\ (exists b,
            lambda_function.lambda_handler keep_code_point magic_plain gif_header
              (str "logo.csv") = Ok b
            /\ lambda_function.success b
               = existsb (str_eqb (lambda_function.from_file_mime magic_plain))
                   csv_mimetypes)).
Proof.
  assert (H1 : decode_utf8 gif_header = Ok (str "GIF89a")) by (vm_compute; reflexivity).
  assert (H2 : ~ In comma (str "GIF89a"))
    by (intros H; vm_compute in H; repeat (destruct H as [H|H]; [discriminate H|]);
        exact H).
  exact (conj H1 (conj H2
           (text_without_comma keep_code_point magic_plain puremagic_nothing gif_header
              (str "GIF89a") (str "logo.csv") true H1 H2))).
Defined.

Lemma undecodable_bytes_verdict_witness :
  decodes latin1_table = false
  /\ ((exists b,
          lambda_function_puremagic.lambda_handler keep_code_point puremagic_nothing
            latin1_table (str "table.csv") = Ok b
          /\ lambda_function_puremagic.success b = false)
      /\ (exists b,
            lambda_function.lambda_handler keep_code_point magic_csv_latin1 latin1_table
              (str "table.csv") = Ok b
            /\ lambda_function.success b
               = str_eqb (lambda_function.from_file_mime magic_csv_latin1)
                   (str "application/csv"))).
Proof.
  assert (H1 : decodes latin1_table = false) by (vm_compute; reflexivity).
  exact (conj H1
           (undecodable_bytes_verdict keep_code_point magic_csv_latin1 puremagic_nothing
              latin1_table (str "table.csv") H1)).
Defined.

Lemma rectangular_table_accepted_witness :
  2 <= len (non_empty_lines (str three_rows_text)) < 2 ^ 48
  /\ 1 <= 2
  /\ Forall (fun count => count = 2) (comma_counts (str three_rows_text))
  /\ filename_hint keep_code_point (str "data.csv") = true
  /\ (lambda_function_puremagic.content_analysis keep_code_point (str "data.csv")
        (str three_rows_text) = true
      /\ lambda_function.content_analysis keep_code_point false (str "data.csv")
           (str three_rows_text) = true).
Proof.
  assert (H1 : 2 <= len (non_empty_lines (str three_rows_text)) < 2 ^ 48)
    by by_computation.
  assert (H2 : 1 <= 2) by lia.
  assert (H3 : Forall (fun count => count = 2) (comma_counts (str three_rows_text)))
    by by_computation.
  assert (H4 : filename_hint keep_code_point (str "data.csv") = true)
    by (vm_compute; reflexivity).
  exact (conj H1 (conj H2 (conj H3 (conj H4
           (rectangular_table_accepted keep_code_point (str three_rows_text)
              (str "data.csv") 2 false H1 H2 H3 H4))))).
Defined.

Lemma short_tables_are_strict_witness :
  2 <= len (non_empty_lines (str three_rows_text)) <= 4
  /\ lambda_function.content_analysis keep_code_point false (str "data.csv")
       (str three_rows_text) = true
  /\ (Forall (fun count => 0 < count) (comma_counts (str three_rows_text))
      /\ (len (non_empty_lines (str three_rows_text)) = 4
          \/ Forall
               (fun count => count = header_commas_of (comma_counts (str three_rows_text)))
               (comma_counts (str three_rows_text)))).
Proof.
  assert (H1 : 2 <= len (non_empty_lines (str three_rows_text)) <= 4)
    by by_computation.
  assert (H2 : lambda_function.content_analysis keep_code_point false (str "data.csv")
                 (str three_rows_text) = true) by (vm_compute; reflexivity).
  exact (conj H1 (conj H2
           (short_tables_are_strict keep_code_point (str three_rows_text)
              (str "data.csv") false H1 H2))).
Defined.

Lemma ascii_buffer_is_text_witness :
  is_ascii three_rows = true
  /\ lambda_function_puremagic.detected
       (or_none (lambda_function_puremagic.from_file puremagic_nothing)) = false
  /\ (exists b,
        lambda_function_puremagic.lambda_handler keep_code_point puremagic_nothing
          three_rows (str "notes.txt") = Ok b
        /\ (lambda_function_puremagic.mimetype b = str "text/plain"
            \/ lambda_function_puremagic.mimetype b = str "text/csv")).
Proof.
  assert (H1 : is_ascii three_rows = true) by (vm_compute; reflexivity).
  assert (H2 : lambda_function_puremagic.detected
                 (or_none (lambda_function_puremagic.from_file puremagic_nothing)) = false)
    by (vm_compute; reflexivity).
  exact (conj H1 (conj H2
           (ascii_buffer_is_text keep_code_point puremagic_nothing three_rows
              (str "notes.txt") H1 H2))).
Defined.

Lemma handlers_agree_on_text_witness :
  is_text (lambda_function.from_file_mime magic_plain) = true
  /\ existsb (str_eqb (lambda_function.from_file_mime magic_plain)) csv_mimetypes = false
  /\ magic_hint keep_code_point magic_plain = false
  /\ lambda_function_puremagic.derived_mimetype keep_code_point
       (or_none (lambda_function_puremagic.from_file puremagic_nothing)) three_rows
     = Ok (str "text/plain")
  /\ is_text (str "text/plain") = true
  /\ (exists b b',
        lambda_function.lambda_handler keep_code_point magic_plain three_rows
          (str "data.csv") = Ok b
        /\ lambda_function_puremagic.lambda_handler keep_code_point puremagic_nothing
             three_rows (str "data.csv") = Ok b'
        /\ lambda_function.success b = lambda_function_puremagic.success b').
Proof.
  assert (H1 : is_text (lambda_function.from_file_mime magic_plain) = true)
    by (vm_compute; reflexivity).
  assert (H2 : existsb (str_eqb (lambda_function.from_file_mime magic_plain))
                 csv_mimetypes = false) by (vm_compute; reflexivity).
  assert (H3 : magic_hint keep_code_point magic_plain = false)
    by (vm_compute; reflexivity).
  assert (H4 : lambda_function_puremagic.derived_mimetype keep_code_point
                 (or_none (lambda_function_puremagic.from_file puremagic_nothing))
                 three_rows
               = Ok (str "text/plain")) by (vm_compute; reflexivity).
  assert (H5 : is_text (str "text/plain") = true) by (vm_compute; reflexivity).
  exact (conj H1 (conj H2 (conj H3 (conj H4 (conj H5
           (handlers_agree_on_text keep_code_point magic_plain puremagic_nothing
              three_rows (str "data.csv") (str "text/plain") H1 H2 H3 H4 H5)))))).
Defined.

Lemma decode_encode_round_trip_witness :
  encode_utf8 accented_text = Ok [x68; xc3; xa9; xe2; x82; xac; xf0; x9f; x98; x80]
  /\ decode_utf8 [x68; xc3; xa9; xe2; x82; xac; xf0; x9f; x98; x80] = Ok accented_text.
Proof.
  assert (H1 : encode_utf8 accented_text
               = Ok [x68; xc3; xa9; xe2; x82; xac; xf0; x9f; x98; x80])
    by (vm_compute; reflexivity).
  exact (conj H1 (decode_encode_round_trip accented_text _ H1)).
Defined.

Lemma generated_csv_accepted_witness :
  1 <= 3 < 2 ^ 48 - 1
  /\ (lambda_function_puremagic.content_analysis keep_code_point (str "unknown")
        (head_to_head_benchmark.generate_csv_data 3) = true
      /\ lambda_function.content_analysis keep_code_point false (str "unknown")
           (head_to_head_benchmark.generate_csv_data 3) = true
      /\ lambda_function_puremagic.content_analysis keep_code_point (str "unknown")
           (benchmark_comparison.generate_csv_content 3) = true
      /\ lambda_function.content_analysis keep_code_point false (str "unknown")
           (benchmark_comparison.generate_csv_content 3) = true).
Proof.
  assert (H1 : 1 <= 3 < 2 ^ 48 - 1) by lia.
  exact (conj H1 (generated_csv_accepted keep_code_point 3 (str "unknown") false H1)).
Defined.

Lemma puremagic_on_encoded_text_witness :
  encode_utf8 (str three_rows_text) = Ok three_rows
  /\ lambda_function_puremagic.detected
       (or_none (lambda_function_puremagic.from_file puremagic_nothing)) = false
  /\ puremagic_verdict
       (lambda_function_puremagic.lambda_handler keep_code_point puremagic_nothing
          three_rows (str "notes.txt"))
     = Ok (if lambda_function_puremagic.content_analysis keep_code_point (str "notes.txt")
                (str three_rows_text)
           then (true, str "text/csv") else (false, str "text/plain")).
Proof.
  assert (H1 : encode_utf8 (str three_rows_text) = Ok three_rows)
    by (vm_compute; reflexivity).
  assert (H2 : lambda_function_puremagic.detected
                 (or_none (lambda_function_puremagic.from_file puremagic_nothing)) = false)
    by (vm_compute; reflexivity).
  exact (conj H1 (conj H2
           (puremagic_on_encoded_text keep_code_point puremagic_nothing
              (str three_rows_text) (str "notes.txt") three_rows H1 H2))).
Defined.

Lemma well_formed_request_is_classified_witness :
  request_body json_loads_sample gateway_event = Got (VDict direct_event)
  /\ item_file_content direct_event = Some (VStr three_rows_base64)
  /\ b64decode_sample three_rows_base64 = Ok three_rows
  /\ filename_of direct_event = VStr (str "data.csv")
  /\ libmagic_sample three_rows = Ok magic_plain
  /\ ((exists b,
          lambda_function.lambda_handler keep_code_point magic_plain three_rows
            (str "data.csv") = Ok b
          /\ magic_lambda_handler json_loads_sample b64decode_sample keep_code_point
               libmagic_sample gateway_event
             = magic_response (lambda_function.success b) (lambda_function.mimetype b)
                 (VStr (str "data.csv")))
      /\ (exists b,
            lambda_function_puremagic.lambda_handler keep_code_point puremagic_nothing
              three_rows (str "data.csv") = Ok b
            /\ puremagic_lambda_handler json_loads_sample b64decode_sample keep_code_point
                 puremagic_sample gateway_event
               = puremagic_response (lambda_function_puremagic.success b)
                   (lambda_function_puremagic.mimetype b) (VStr (str "data.csv"))
                   (lambda_function_puremagic.puremagic_details b))).
Proof.
  assert (H1 : request_body json_loads_sample gateway_event = Got (VDict direct_event))
    by reflexivity.
  assert (H2 : item_file_content direct_event = Some (VStr three_rows_base64))
    by reflexivity.
  assert (H3 : b64decode_sample three_rows_base64 = Ok three_rows)
    by (vm_compute; reflexivity).
  assert (H4 : filename_of direct_event = VStr (str "data.csv")) by reflexivity.
  assert (H5 : libmagic_sample three_rows = Ok magic_plain)
    by reflexivity.
  exact (conj H1 (conj H2 (conj H3 (conj H4 (conj H5
           (well_formed_request_is_classified json_loads_sample b64decode_sample
              keep_code_point libmagic_sample puremagic_sample
              gateway_event direct_event three_rows_base64 (str "data.csv") three_rows
              magic_plain H1 H2 H3 H4 H5)))))).
Defined.


Lemma gateway_and_direct_agree_witness :
  request_body json_loads_sample gateway_event = Got (VDict direct_event)
  /\ item_body direct_event = None
  /\ (magic_lambda_handler json_loads_sample b64decode_sample keep_code_point
        libmagic_sample gateway_event
      = magic_lambda_handler json_loads_sample b64decode_sample keep_code_point
          libmagic_sample direct_event
      /\ puremagic_lambda_handler json_loads_sample b64decode_sample keep_code_point
           puremagic_sample gateway_event
         = puremagic_lambda_handler json_loads_sample b64decode_sample keep_code_point
             puremagic_sample direct_event).
Proof.
  assert (H1 : request_body json_loads_sample gateway_event = Got (VDict direct_event))
    by reflexivity.
  assert (H2 : item_body direct_event = None) by reflexivity.
  exact (conj H1 (conj H2
           (gateway_and_direct_agree json_loads_sample b64decode_sample keep_code_point
              libmagic_sample puremagic_sample
              gateway_event direct_event H1 H2))).
Defined.



Lemma non_string_filename_witness :
  request_body json_loads_sample null_filename_event = Got (VDict null_filename_event)
  /\ item_file_content null_filename_event = Some (VStr three_rows_base64)
  /\ b64decode_sample three_rows_base64 = Ok three_rows
  /\ not_a_string (filename_of null_filename_event)
  /\ libmagic_sample three_rows = Ok magic_plain
  /\ lambda_function_puremagic.derived_mimetype keep_code_point
       (or_none (lambda_function_puremagic.from_file puremagic_nothing)) three_rows
     = Ok (str "text/plain")
  /\ ((if consults_filename (lambda_function.from_file_mime magic_plain) three_rows
       then magic_lambda_handler json_loads_sample b64decode_sample keep_code_point
              libmagic_sample null_filename_event
            = processing_error AttributeError
       else forall f, exists b,
           lambda_function.lambda_handler keep_code_point magic_plain three_rows f = Ok b
           /\ magic_lambda_handler json_loads_sample b64decode_sample keep_code_point
                libmagic_sample null_filename_event
              = magic_response (lambda_function.success b) (lambda_function.mimetype b)
                  (filename_of null_filename_event))
      /\ (if consults_filename (str "text/plain") three_rows
          then puremagic_lambda_handler json_loads_sample b64decode_sample keep_code_point
                 puremagic_sample null_filename_event
               = processing_error AttributeError
          else forall f, exists b,
              lambda_function_puremagic.lambda_handler keep_code_point puremagic_nothing
                three_rows f = Ok b
              /\ puremagic_lambda_handler json_loads_sample b64decode_sample
                   keep_code_point puremagic_sample null_filename_event
                 = puremagic_response (lambda_function_puremagic.success b)
                     (lambda_function_puremagic.mimetype b)
                     (filename_of null_filename_event)
                     (lambda_function_puremagic.puremagic_details b))).
Proof.
  assert (H1 : request_body json_loads_sample null_filename_event
               = Got (VDict null_filename_event)) by reflexivity.
  assert (H2 : item_file_content null_filename_event = Some (VStr three_rows_base64))
    by reflexivity.
  assert (H3 : b64decode_sample three_rows_base64 = Ok three_rows)
    by (vm_compute; reflexivity).
  assert (H4 : not_a_string (filename_of null_filename_event)) by exact I.
  assert (H5 : libmagic_sample three_rows = Ok magic_plain)
    by reflexivity.
  assert (H6 : lambda_function_puremagic.derived_mimetype keep_code_point
                 (or_none (lambda_function_puremagic.from_file puremagic_nothing))
                 three_rows
               = Ok (str "text/plain")) by (vm_compute; reflexivity).
  exact (conj H1 (conj H2 (conj H3 (conj H4 (conj H5 (conj H6
           (non_string_filename json_loads_sample b64decode_sample keep_code_point
              libmagic_sample puremagic_sample
              null_filename_event null_filename_event three_rows_base64 three_rows
              magic_plain (str "text/plain") H1 H2 H3 H4 H5 H6))))))).
Defined.

(** The request with a null filename: the sample table passes the counts, so
    both handlers answer 500. *)
Lemma null_filename_is_500 :
  consults_filename (str "text/plain") three_rows = true
  /\ magic_lambda_handler json_loads_sample b64decode_sample keep_code_point
       libmagic_sample null_filename_event
     = processing_error AttributeError
  /\ puremagic_lambda_handler json_loads_sample b64decode_sample keep_code_point
       puremagic_sample null_filename_event
     = processing_error AttributeError.
Proof. repeat split; vm_compute; reflexivity. Qed.
